(** * UE5 MCP Bridge: framing, JSON-RPC dispatch and the game-thread bridge

    A shallow embedding of [FMCPServer] (MCPServer.cpp): the server loop
    [Run], the protocol engine [ProcessMessage] with its handlers
    [HandleInitialize], [HandleToolsList] and [HandleToolsCall], the response
    helpers, the tool registration functions and the dispatch chain of the
    game-thread task; then [Start] and [Stop] with the module functions that
    call them (UE5MCPBridge.cpp), the viewport bookmark executors, and the
    accesses of every executor to its arguments.

    The Unreal Engine libraries the server calls are not part of the plugin:
    the JSON reader, writer and field accessors are taken as an interface
    ([JsonEngine]), and so is the editor the executors act on
    ([EditorHost]).  Every property below is proved for all implementations
    of both; one reference implementation of each is given so that the
    definitions can be run on wire text. *)

From Stdlib Require Import Bool Arith NArith ZArith List String Ascii Lia.
From Stdlib Require Import DecimalString.
Import ListNotations.

Set Implicit Arguments.
Set Warnings "-register-all".

Local Open Scope string_scope.
Local Open Scope list_scope.

(** ** Engine strings and pointers *)

Definition FString := string.

(** [FString::operator+]. *)
Notation "a +++ b" := (String.append a b) (at level 60, right associativity).

(** [FString::IsEmpty]. *)
Definition IsEmpty (s : FString) : bool :=
  match s with
  | EmptyString => true
  | String _ _ => false
  end.

Definition ToLowerChar (c : ascii) : ascii :=
  let n := N_of_ascii c in
  if (65 <=? n)%N && (n <=? 90)%N then ascii_of_N (n + 32) else c.

(** [FString::ToLower]. *)
Fixpoint ToLower (s : FString) : FString :=
  match s with
  | EmptyString => EmptyString
  | String c r => String (ToLowerChar c) (ToLower r)
  end.

(** [FString::operator==]: the engine compares strings ignoring case. *)
Definition FString_eq (a b : FString) : bool := String.eqb (ToLower a) (ToLower b).

Notation "a == b" := (FString_eq a b) (at level 70, no associativity).

(** An [int32]: the request id and the error codes.  They are read, stored
    and written, never computed with, so no wrap-around arises. *)
Definition int32 : Type := Z.

Bind Scope Z_scope with int32.

(** A [TSharedPtr<T>]: [None] is the null pointer, for which [IsValid()] is
    false. *)
Definition TSharedPtr (A : Type) : Type := option A.

Definition IsValid {A : Type} (p : TSharedPtr A) : bool :=
  match p with
  | Some _ => true
  | None => false
  end.

(** The frame delimiter [TEXT("\n")]. *)
Definition LF : ascii := ascii_of_N 10.

(** The segments of [s] between occurrences of [delim], in order; a string
    with [n] delimiters has [n + 1] segments. *)
Fixpoint Segments (delim : ascii) (s : FString) : list FString :=
  match s with
  | EmptyString => [EmptyString]
  | String c r =>
      if Ascii.eqb c delim then EmptyString :: Segments delim r
      else match Segments delim r with
           | seg :: rest => String c seg :: rest
           | [] => [String c EmptyString]
           end
  end.

(** Whether [delim] occurs in [s]. *)
Fixpoint HasDelimiter (delim : ascii) (s : FString) : bool :=
  match s with
  | EmptyString => false
  | String c r => Ascii.eqb c delim || HasDelimiter delim r
  end.

(** [FString::ParseIntoArray(OutArray, pchDelim, InCullEmpty)] for a
    one-character delimiter: every segment before a delimiter and the
    segment after the last one, empty segments dropped when [InCullEmpty];
    the empty string gives the empty array. *)
Definition ParseIntoArray (s : FString) (pchDelim : ascii) (InCullEmpty : bool)
  : list FString :=
  if IsEmpty s then []
  else if InCullEmpty then filter (fun seg => negb (IsEmpty seg)) (Segments pchDelim s)
  else Segments pchDelim s.


(** ** The JSON document model *)

(** [FJsonValue] and its subclasses.  [FJsonValueNumber n] is a number
    whose value is the integer [n]: the server only ever writes [int32]
    values.  A number with a fractional part is
    [FJsonValueNumberFraction m k], of value [m / 10 ^ k], where [m] is no
    multiple of ten; such numbers only come in from the wire. *)
Inductive FJsonValue : Type :=
| FJsonValueNull
| FJsonValueBoolean (b : bool)
| FJsonValueNumber (n : Z)
| FJsonValueNumberFraction (m : Z) (k : positive)
| FJsonValueString (s : FString)
| FJsonValueArray (a : list FJsonValue)
| FJsonValueObject (o : list (FString * FJsonValue)).

(** [FJsonObject]: the fields in insertion order. *)
Definition FJsonObject : Type := list (FString * FJsonValue).

(** [MakeShared<FJsonObject>()]. *)
Definition MakeShared : FJsonObject := [].

(** [FJsonObject::SetField]: replaces the value of an existing field, adds
    the field otherwise. *)
Fixpoint SetField (o : FJsonObject) (FieldName : FString) (v : FJsonValue) : FJsonObject :=
  match o with
  | [] => [(FieldName, v)]
  | (k, v') :: r =>
      if String.eqb k FieldName then (k, v) :: r else (k, v') :: SetField r FieldName v
  end.

Definition SetStringField (o : FJsonObject) (FieldName StringValue : FString) : FJsonObject :=
  SetField o FieldName (FJsonValueString StringValue).

Definition SetNumberField (o : FJsonObject) (FieldName : FString) (Number : int32)
  : FJsonObject :=
  SetField o FieldName (FJsonValueNumber Number).

Definition SetObjectField (o : FJsonObject) (FieldName : FString) (JsonObject : FJsonObject)
  : FJsonObject :=
  SetField o FieldName (FJsonValueObject JsonObject).

Definition SetArrayField (o : FJsonObject) (FieldName : FString) (Array : list FJsonValue)
  : FJsonObject :=
  SetField o FieldName (FJsonValueArray Array).

(** The field of a document value, by exact name. *)
Fixpoint FindField (o : FJsonObject) (FieldName : FString) : option FJsonValue :=
  match o with
  | [] => None
  | (k, v) :: r => if String.eqb k FieldName then Some v else FindField r FieldName
  end.

(** ** The engine's JSON library, as an interface

    [Deserialize] stands for [FJsonSerializer::Deserialize] followed by the
    validity test of the object it fills: [None] when the text is not read
    as a JSON object.  [Serialize] is the condensed writer
    ([TCondensedJsonPrintPolicy]); whatever it prints for an object is not
    the empty string.  The accessors are those of [FJsonObject]: the [TryGet]
    ones report whether the field could be read, [GetStringField] always
    yields a string and [GetObjectField] a shared pointer. *)
Class JsonEngine : Type := {
  Deserialize : FString -> TSharedPtr FJsonObject;
  Serialize : FJsonObject -> FString;
  Serialize_not_empty : forall o, IsEmpty (Serialize o) = false;
  TryGetStringField : FJsonObject -> FString -> option FString;
  TryGetNumberField : FJsonObject -> FString -> option int32;
  GetObjectField : FJsonObject -> FString -> TSharedPtr FJsonObject;
  GetStringField : FJsonObject -> FString -> FString;
  HasField : FJsonObject -> FString -> bool
}.

(** [FJsonObject::GetObjectField] never hands out a null pointer: for a
    field that is absent or is not an object the engine reports an error
    and returns an empty object.  What the server does with requests from
    the wire depends on this; the properties that need it say so. *)
Class ObjectFieldsAreValid (Json : JsonEngine) : Prop :=
  GetObjectField_valid : forall (o : FJsonObject) (FieldName : FString),
    IsValid (GetObjectField o FieldName) = true.

(** ** The editor, as an interface

    The executors call into the editor ([GEditor], the world, the asset
    registry ...).  [HostCall f Args w] is what the body of executor [f] does
    with the dereferenced arguments [Args] in world [w]: the text it returns
    and the world it leaves; [HostCall0] is the same for bodies that use no
    arguments.  The bodies are taken to return: what the editor itself may
    do wrong is not described here. *)
Class EditorHost : Type := {
  World : Type;
  HostCall0 : FString -> World -> FString * World;
  HostCall : FString -> FJsonObject -> World -> FString * World;
  RequestPlaySession : bool -> World -> World;
  ProjectSavedDir : FString;
  PathJoin : FString -> FString -> FString;
  RequestScreenshot : FString -> World -> World
}.

(** ** Outcomes

    A call either returns or dereferences a null [TSharedPtr], which stops
    the process. *)
Inductive Outcome (A : Type) : Type :=
| Returns (a : A)
| Faulted.

Arguments Faulted {A}.

Definition IsFaulted {A : Type} (r : Outcome A) : bool :=
  match r with
  | Returns _ => false
  | Faulted => true
  end.

(** ** Tool registration

    The registration functions of MCPServer.cpp, each the descriptors it adds
    to the array, in source order: name, description and input schema. *)

(** [FMCPServer::RegisterActorTools] (MCPServer.cpp:348): appends 19 descriptors to [Tools]. *)
Definition RegisterActorTools (Tools : list FJsonValue) : list FJsonValue :=
  Tools ++ [
    FJsonValueObject [
      ("name", FJsonValueString "get_actor_list");
      ("description", FJsonValueString "Get list of all actors in the level");
      ("inputSchema", FJsonValueObject [
        ("type", FJsonValueString "object");
        ("properties", FJsonValueObject [])])];
    FJsonValueObject [
      ("name", FJsonValueString "spawn_actor");
      ("description", FJsonValueString "Spawn actor (PointLight, SpotLight, DirectionalLight, StaticMeshActor, CameraActor)");
      ("inputSchema", FJsonValueObject [
        ("type", FJsonValueString "object");
        ("properties", FJsonValueObject [
          ("class_name", FJsonValueObject [
            ("type", FJsonValueString "string");
            ("description", FJsonValueString "Actor class name")]);
          ("x", FJsonValueObject [
            ("type", FJsonValueString "number")]);
          ("y", FJsonValueObject [
            ("type", FJsonValueString "number")]);
          ("z", FJsonValueObject [
            ("type", FJsonValueString "number")])]);
        ("required", FJsonValueArray [FJsonValueString "class_name"])])];
    FJsonValueObject [
      ("name", FJsonValueString "delete_actor");
      ("description", FJsonValueString "Delete an actor by name");
      ("inputSchema", FJsonValueObject [
        ("type", FJsonValueString "object");
        ("properties", FJsonValueObject [
          ("actor_name", FJsonValueObject [
            ("type", FJsonValueString "string")])]);
        ("required", FJsonValueArray [FJsonValueString "actor_name"])])];
    FJsonValueObject [
      ("name", FJsonValueString "get_actor_properties");
      ("description", FJsonValueString "Get actor location, rotation, scale");
      ("inputSchema", FJsonValueObject [
        ("type", FJsonValueString "object");
        ("properties", FJsonValueObject [
          ("actor_name", FJsonValueObject [
            ("type", FJsonValueString "string")])]);
        ("required", FJsonValueArray [FJsonValueString "actor_name"])])];
    FJsonValueObject [
      ("name", FJsonValueString "set_actor_property");
      ("description", FJsonValueString "Set actor location, rotation, or scale");
      ("inputSchema", FJsonValueObject [
        ("type", FJsonValueString "object");
        ("properties", FJsonValueObject [
          ("actor_name", FJsonValueObject [
            ("type", FJsonValueString "string")]);
          ("property", FJsonValueObject [
            ("type", FJsonValueString "string");
            ("description", FJsonValueString "Property: location, rotation, scale")]);
          ("x", FJsonValueObject [
            ("type", FJsonValueString "number")]);
          ("y", FJsonValueObject [
            ("type", FJsonValueString "number")]);
          ("z", FJsonValueObject [
            ("type", FJsonValueString "number")])]);
        ("required", FJsonValueArray [FJsonValueString "actor_name"; FJsonValueString "property"])])];
    FJsonValueObject [
      ("name", FJsonValueString "find_actors_by_class");
      ("description", FJsonValueString "Find all actors of a specific class type");
      ("inputSchema", FJsonValueObject [
        ("type", FJsonValueString "object");
        ("properties", FJsonValueObject [
          ("class_name", FJsonValueObject [
            ("type", FJsonValueString "string")])]);
        ("required", FJsonValueArray [FJsonValueString "class_name"])])];
    FJsonValueObject [
      ("name", FJsonValueString "find_actors_by_tag");
      ("description", FJsonValueString "Find all actors with a specific tag");
      ("inputSchema", FJsonValueObject [
        ("type", FJsonValueString "object");
        ("properties", FJsonValueObject [
          ("tag", FJsonValueObject [
            ("type", FJsonValueString "string")])]);
        ("required", FJsonValueArray [FJsonValueString "tag"])])];
    FJsonValueObject [
      ("name", FJsonValueString "find_actors_by_name");
      ("description", FJsonValueString "Find actors by name pattern (supports wildcards)");
      ("inputSchema", FJsonValueObject [
        ("type", FJsonValueString "object");
        ("properties", FJsonValueObject [
          ("pattern", FJsonValueObject [
            ("type", FJsonValueString "string")])]);
        ("required", FJsonValueArray [FJsonValueString "pattern"])])];
    FJsonValueObject [
      ("name", FJsonValueString "duplicate_actor");
      ("description", FJsonValueString "Duplicate an actor with optional offset");
      ("inputSchema", FJsonValueObject [
        ("type", FJsonValueString "object");
        ("properties", FJsonValueObject [
          ("actor_name", FJsonValueObject [
            ("type", FJsonValueString "string")]);
          ("offset_x", FJsonValueObject [
            ("type", FJsonValueString "number")]);
          ("offset_y", FJsonValueObject [
            ("type", FJsonValueString "number")]);
          ("offset_z", FJsonValueObject [
            ("type", FJsonValueString "number")])]);
        ("required", FJsonValueArray [FJsonValueString "actor_name"])])];
    FJsonValueObject [
      ("name", FJsonValueString "set_actor_visibility");
      ("description", FJsonValueString "Show or hide an actor");
      ("inputSchema", FJsonValueObject [
        ("type", FJsonValueString "object");
        ("properties", FJsonValueObject [
          ("actor_name", FJsonValueObject [
            ("type", FJsonValueString "string")]);
          ("visible", FJsonValueObject [
            ("type", FJsonValueString "boolean")])]);
        ("required", FJsonValueArray [FJsonValueString "actor_name"; FJsonValueString "visible"])])];
    FJsonValueObject [
      ("name", FJsonValueString "snap_actor_to_ground");
      ("description", FJsonValueString "Snap an actor to the ground surface below it");
      ("inputSchema", FJsonValueObject [
        ("type", FJsonValueString "object");
        ("properties", FJsonValueObject [
          ("actor_name", FJsonValueObject [
            ("type", FJsonValueString "string")])]);
        ("required", FJsonValueArray [FJsonValueString "actor_name"])])];
    FJsonValueObject [
      ("name", FJsonValueString "rename_actor");
      ("description", FJsonValueString "Rename an actor's label");
      ("inputSchema", FJsonValueObject [
        ("type", FJsonValueString "object");
        ("properties", FJsonValueObject [
          ("actor_name", FJsonValueObject [
            ("type", FJsonValueString "string")]);
          ("new_name", FJsonValueObject [
            ("type", FJsonValueString "string")])]);
        ("required", FJsonValueArray [FJsonValueString "actor_name"; FJsonValueString "new_name"])])];
    FJsonValueObject [
      ("name", FJsonValueString "add_actor_tag");
      ("description", FJsonValueString "Add a tag to an actor for identification and grouping");
      ("inputSchema", FJsonValueObject [
        ("type", FJsonValueString "object");
        ("properties", FJsonValueObject [
          ("actor_name", FJsonValueObject [
            ("type", FJsonValueString "string")]);
          ("tag", FJsonValueObject [
            ("type", FJsonValueString "string")])]);
        ("required", FJsonValueArray [FJsonValueString "actor_name"; FJsonValueString "tag"])])];
    FJsonValueObject [
      ("name", FJsonValueString "remove_actor_tag");
      ("description", FJsonValueString "Remove a tag from an actor");
      ("inputSchema", FJsonValueObject [
        ("type", FJsonValueString "object");
        ("properties", FJsonValueObject [
          ("actor_name", FJsonValueObject [
            ("type", FJsonValueString "string")]);
          ("tag", FJsonValueObject [
            ("type", FJsonValueString "string")])]);
        ("required", FJsonValueArray [FJsonValueString "actor_name"; FJsonValueString "tag"])])];
    FJsonValueObject [
      ("name", FJsonValueString "get_actor_tags");
      ("description", FJsonValueString "Get all tags assigned to an actor");
      ("inputSchema", FJsonValueObject [
        ("type", FJsonValueString "object");
        ("properties", FJsonValueObject [
          ("actor_name", FJsonValueObject [
            ("type", FJsonValueString "string")])]);
        ("required", FJsonValueArray [FJsonValueString "actor_name"])])];
    FJsonValueObject [
      ("name", FJsonValueString "set_actor_mobility");
      ("description", FJsonValueString "Set the mobility of an actor (Static, Stationary, or Movable)");
      ("inputSchema", FJsonValueObject [
        ("type", FJsonValueString "object");
        ("properties", FJsonValueObject [
          ("actor_name", FJsonValueObject [
            ("type", FJsonValueString "string")]);
          ("mobility", FJsonValueObject [
            ("type", FJsonValueString "string");
            ("description", FJsonValueString "Mobility: Static, Stationary, Movable")])]);
        ("required", FJsonValueArray [FJsonValueString "actor_name"; FJsonValueString "mobility"])])];
    FJsonValueObject [
      ("name", FJsonValueString "get_actor_mobility");
      ("description", FJsonValueString "Get the current mobility setting of an actor");
      ("inputSchema", FJsonValueObject [
        ("type", FJsonValueString "object");
        ("properties", FJsonValueObject [
          ("actor_name", FJsonValueObject [
            ("type", FJsonValueString "string")])]);
        ("required", FJsonValueArray [FJsonValueString "actor_name"])])];
    FJsonValueObject [
      ("name", FJsonValueString "attach_actor_to_actor");
      ("description", FJsonValueString "Attach one actor to another actor");
      ("inputSchema", FJsonValueObject [
        ("type", FJsonValueString "object");
        ("properties", FJsonValueObject [
          ("child_actor", FJsonValueObject [
            ("type", FJsonValueString "string")]);
          ("parent_actor", FJsonValueObject [
            ("type", FJsonValueString "string")]);
          ("socket_name", FJsonValueObject [
            ("type", FJsonValueString "string");
            ("description", FJsonValueString "Optional socket name")])]);
        ("required", FJsonValueArray [FJsonValueString "child_actor"; FJsonValueString "parent_actor"])])];
    FJsonValueObject [
      ("name", FJsonValueString "detach_actor");
      ("description", FJsonValueString "Detach an actor from its parent");
      ("inputSchema", FJsonValueObject [
        ("type", FJsonValueString "object");
        ("properties", FJsonValueObject [
          ("actor_name", FJsonValueObject [
            ("type", FJsonValueString "string")])]);
        ("required", FJsonValueArray [FJsonValueString "actor_name"])])]
  ].

(** [FMCPServer::RegisterSelectionTools] (MCPServer.cpp:807): appends 4 descriptors to [Tools]. *)
Definition RegisterSelectionTools (Tools : list FJsonValue) : list FJsonValue :=
  Tools ++ [
    FJsonValueObject [
      ("name", FJsonValueString "select_actors");
      ("description", FJsonValueString "Select one or more actors by name");
      ("inputSchema", FJsonValueObject [
        ("type", FJsonValueString "object");
        ("properties", FJsonValueObject [
          ("actor_names", FJsonValueObject [
            ("type", FJsonValueString "string");
            ("description", FJsonValueString "Comma-separated actor names")])]);
        ("required", FJsonValueArray [FJsonValueString "actor_names"])])];
    FJsonValueObject [
      ("name", FJsonValueString "get_selected_actors");
      ("description", FJsonValueString "Get list of currently selected actors");
      ("inputSchema", FJsonValueObject [
        ("type", FJsonValueString "object");
        ("properties", FJsonValueObject [])])];
    FJsonValueObject [
      ("name", FJsonValueString "clear_selection");
      ("description", FJsonValueString "Clear the current selection");
      ("inputSchema", FJsonValueObject [
        ("type", FJsonValueString "object");
        ("properties", FJsonValueObject [])])];
    FJsonValueObject [
      ("name", FJsonValueString "focus_on_actor");
      ("description", FJsonValueString "Focus the viewport camera on an actor");
      ("inputSchema", FJsonValueObject [
        ("type", FJsonValueString "object");
        ("properties", FJsonValueObject [
          ("actor_name", FJsonValueObject [
            ("type", FJsonValueString "string")])]);
        ("required", FJsonValueArray [FJsonValueString "actor_name"])])]
  ].

(** [FMCPServer::RegisterViewportTools] (MCPServer.cpp:875): appends 9 descriptors to [Tools]. *)
Definition RegisterViewportTools (Tools : list FJsonValue) : list FJsonValue :=
  Tools ++ [
    FJsonValueObject [
      ("name", FJsonValueString "get_viewport_camera");
      ("description", FJsonValueString "Get the current viewport camera position and rotation");
      ("inputSchema", FJsonValueObject [
        ("type", FJsonValueString "object");
        ("properties", FJsonValueObject [])])];
    FJsonValueObject [
      ("name", FJsonValueString "set_viewport_camera");
      ("description", FJsonValueString "Set the viewport camera position and rotation");
      ("inputSchema", FJsonValueObject [
        ("type", FJsonValueString "object");
        ("properties", FJsonValueObject [
          ("x", FJsonValueObject [
            ("type", FJsonValueString "number")]);
          ("y", FJsonValueObject [
            ("type", FJsonValueString "number")]);
          ("z", FJsonValueObject [
            ("type", FJsonValueString "number")]);
          ("pitch", FJsonValueObject [
            ("type", FJsonValueString "number")]);
          ("yaw", FJsonValueObject [
            ("type", FJsonValueString "number")]);
          ("roll", FJsonValueObject [
            ("type", FJsonValueString "number")])])])];
    FJsonValueObject [
      ("name", FJsonValueString "take_screenshot");
      ("description", FJsonValueString "Take a screenshot of the viewport");
      ("inputSchema", FJsonValueObject [
        ("type", FJsonValueString "object");
        ("properties", FJsonValueObject [
          ("filename", FJsonValueObject [
            ("type", FJsonValueString "string")])])])];
    FJsonValueObject [
      ("name", FJsonValueString "set_view_mode");
      ("description", FJsonValueString "Set the viewport rendering mode (Lit, Unlit, Wireframe, etc.)");
      ("inputSchema", FJsonValueObject [
        ("type", FJsonValueString "object");
        ("properties", FJsonValueObject [
          ("mode", FJsonValueObject [
            ("type", FJsonValueString "string");
            ("description", FJsonValueString "View mode: Lit, Unlit, Wireframe, DetailLighting, LightingOnly, LightComplexity, ShaderComplexity, PathTracing, Nanite, Lumen")])]);
        ("required", FJsonValueArray [FJsonValueString "mode"])])];
    FJsonValueObject [
      ("name", FJsonValueString "get_view_mode");
      ("description", FJsonValueString "Get the current viewport view mode");
      ("inputSchema", FJsonValueObject [
        ("type", FJsonValueString "object");
        ("properties", FJsonValueObject [])])];
    FJsonValueObject [
      ("name", FJsonValueString "pilot_actor");
      ("description", FJsonValueString "Lock the viewport camera to an actor (pilot mode)");
      ("inputSchema", FJsonValueObject [
        ("type", FJsonValueString "object");
        ("properties", FJsonValueObject [
          ("actor_name", FJsonValueObject [
            ("type", FJsonValueString "string")])]);
        ("required", FJsonValueArray [FJsonValueString "actor_name"])])];
    FJsonValueObject [
      ("name", FJsonValueString "stop_piloting");
      ("description", FJsonValueString "Stop piloting and return to free camera");
      ("inputSchema", FJsonValueObject [
        ("type", FJsonValueString "object");
        ("properties", FJsonValueObject [])])];
    FJsonValueObject [
      ("name", FJsonValueString "set_viewport_realtime");
      ("description", FJsonValueString "Enable or disable realtime rendering in viewport");
      ("inputSchema", FJsonValueObject [
        ("type", FJsonValueString "object");
        ("properties", FJsonValueObject [
          ("enabled", FJsonValueObject [
            ("type", FJsonValueString "boolean")])]);
        ("required", FJsonValueArray [FJsonValueString "enabled"])])];
    FJsonValueObject [
      ("name", FJsonValueString "set_viewport_stats");
      ("description", FJsonValueString "Show or hide viewport statistics");
      ("inputSchema", FJsonValueObject [
        ("type", FJsonValueString "object");
        ("properties", FJsonValueObject [
          ("show_fps", FJsonValueObject [
            ("type", FJsonValueString "boolean")]);
          ("show_stats", FJsonValueObject [
            ("type", FJsonValueString "boolean")])])])]
  ].

(** [FMCPServer::RegisterLevelTools] (MCPServer.cpp:1058): appends 3 descriptors to [Tools]. *)
Definition RegisterLevelTools (Tools : list FJsonValue) : list FJsonValue :=
  Tools ++ [
    FJsonValueObject [
      ("name", FJsonValueString "get_current_level");
      ("description", FJsonValueString "Get information about the current level");
      ("inputSchema", FJsonValueObject [
        ("type", FJsonValueString "object");
        ("properties", FJsonValueObject [])])];
    FJsonValueObject [
      ("name", FJsonValueString "load_level");
      ("description", FJsonValueString "Load a level by path");
      ("inputSchema", FJsonValueObject [
        ("type", FJsonValueString "object");
        ("properties", FJsonValueObject [
          ("level_path", FJsonValueObject [
            ("type", FJsonValueString "string")])]);
        ("required", FJsonValueArray [FJsonValueString "level_path"])])];
    FJsonValueObject [
      ("name", FJsonValueString "save_level");
      ("description", FJsonValueString "Save the current level");
      ("inputSchema", FJsonValueObject [
        ("type", FJsonValueString "object");
        ("properties", FJsonValueObject [])])]
  ].

(** [FMCPServer::RegisterPIETools] (MCPServer.cpp:1106): appends 2 descriptors to [Tools]. *)
Definition RegisterPIETools (Tools : list FJsonValue) : list FJsonValue :=
  Tools ++ [
    FJsonValueObject [
      ("name", FJsonValueString "start_pie");
      ("description", FJsonValueString "Start Play In Editor (PIE)");
      ("inputSchema", FJsonValueObject [
        ("type", FJsonValueString "object");
        ("properties", FJsonValueObject [
          ("mode", FJsonValueObject [
            ("type", FJsonValueString "string");
            ("description", FJsonValueString "PIE mode: viewport, new_window, mobile_preview")])])])];
    FJsonValueObject [
      ("name", FJsonValueString "stop_pie");
      ("description", FJsonValueString "Stop Play In Editor");
      ("inputSchema", FJsonValueObject [
        ("type", FJsonValueString "object");
        ("properties", FJsonValueObject [])])]
  ].

(** [FMCPServer::RegisterAssetTools] (MCPServer.cpp:1140): appends 8 descriptors to [Tools]. *)
Definition RegisterAssetTools (Tools : list FJsonValue) : list FJsonValue :=
  Tools ++ [
    FJsonValueObject [
      ("name", FJsonValueString "search_assets");
      ("description", FJsonValueString "Search for assets by name or class");
      ("inputSchema", FJsonValueObject [
        ("type", FJsonValueString "object");
        ("properties", FJsonValueObject [
          ("query", FJsonValueObject [
            ("type", FJsonValueString "string")]);
          ("class_name", FJsonValueObject [
            ("type", FJsonValueString "string");
            ("description", FJsonValueString "Optional class filter")])]);
        ("required", FJsonValueArray [FJsonValueString "query"])])];
    FJsonValueObject [
      ("name", FJsonValueString "get_asset_info");
      ("description", FJsonValueString "Get detailed information about an asset");
      ("inputSchema", FJsonValueObject [
        ("type", FJsonValueString "object");
        ("properties", FJsonValueObject [
          ("asset_path", FJsonValueObject [
            ("type", FJsonValueString "string")])]);
        ("required", FJsonValueArray [FJsonValueString "asset_path"])])];
    FJsonValueObject [
      ("name", FJsonValueString "load_asset");
      ("description", FJsonValueString "Load an asset into memory");
      ("inputSchema", FJsonValueObject [
        ("type", FJsonValueString "object");
        ("properties", FJsonValueObject [
          ("asset_path", FJsonValueObject [
            ("type", FJsonValueString "string")])]);
        ("required", FJsonValueArray [FJsonValueString "asset_path"])])];
    FJsonValueObject [
      ("name", FJsonValueString "duplicate_asset");
      ("description", FJsonValueString "Duplicate an asset to a new location");
      ("inputSchema", FJsonValueObject [
        ("type", FJsonValueString "object");
        ("properties", FJsonValueObject [
          ("source_path", FJsonValueObject [
            ("type", FJsonValueString "string")]);
          ("dest_path", FJsonValueObject [
            ("type", FJsonValueString "string")])]);
        ("required", FJsonValueArray [FJsonValueString "source_path"; FJsonValueString "dest_path"])])];
    FJsonValueObject [
      ("name", FJsonValueString "rename_asset");
      ("description", FJsonValueString "Rename or move an asset");
      ("inputSchema", FJsonValueObject [
        ("type", FJsonValueString "object");
        ("properties", FJsonValueObject [
          ("source_path", FJsonValueObject [
            ("type", FJsonValueString "string")]);
          ("new_name", FJsonValueObject [
            ("type", FJsonValueString "string")])]);
        ("required", FJsonValueArray [FJsonValueString "source_path"; FJsonValueString "new_name"])])];
    FJsonValueObject [
      ("name", FJsonValueString "delete_asset");
      ("description", FJsonValueString "Delete an asset from the project");
      ("inputSchema", FJsonValueObject [
        ("type", FJsonValueString "object");
        ("properties", FJsonValueObject [
          ("asset_path", FJsonValueObject [
            ("type", FJsonValueString "string")])]);
        ("required", FJsonValueArray [FJsonValueString "asset_path"])])];
    FJsonValueObject [
      ("name", FJsonValueString "create_folder");
      ("description", FJsonValueString "Create a new folder in the content browser");
      ("inputSchema", FJsonValueObject [
        ("type", FJsonValueString "object");
        ("properties", FJsonValueObject [
          ("folder_path", FJsonValueObject [
            ("type", FJsonValueString "string")])]);
        ("required", FJsonValueArray [FJsonValueString "folder_path"])])];
    FJsonValueObject [
      ("name", FJsonValueString "get_asset_references");
      ("description", FJsonValueString "Get all assets that reference or are referenced by an asset");
      ("inputSchema", FJsonValueObject [
        ("type", FJsonValueString "object");
        ("properties", FJsonValueObject [
          ("asset_path", FJsonValueObject [
            ("type", FJsonValueString "string")]);
          ("direction", FJsonValueObject [
            ("type", FJsonValueString "string");
            ("description", FJsonValueString "Direction: dependencies, referencers, both")])]);
        ("required", FJsonValueArray [FJsonValueString "asset_path"])])]
  ].

(** [FMCPServer::RegisterBlueprintTools] (MCPServer.cpp:1335): appends 9 descriptors to [Tools]. *)
Definition RegisterBlueprintTools (Tools : list FJsonValue) : list FJsonValue :=
  Tools ++ [
    FJsonValueObject [
      ("name", FJsonValueString "create_blueprint");
      ("description", FJsonValueString "Create a new Blueprint class");
      ("inputSchema", FJsonValueObject [
        ("type", FJsonValueString "object");
        ("properties", FJsonValueObject [
          ("name", FJsonValueObject [
            ("type", FJsonValueString "string")]);
          ("parent_class", FJsonValueObject [
            ("type", FJsonValueString "string");
            ("description", FJsonValueString "Parent class: Actor, Pawn, Character")]);
          ("path", FJsonValueObject [
            ("type", FJsonValueString "string")])]);
        ("required", FJsonValueArray [FJsonValueString "name"])])];
    FJsonValueObject [
      ("name", FJsonValueString "get_blueprint_info");
      ("description", FJsonValueString "Get information about a Blueprint");
      ("inputSchema", FJsonValueObject [
        ("type", FJsonValueString "object");
        ("properties", FJsonValueObject [
          ("blueprint_path", FJsonValueObject [
            ("type", FJsonValueString "string")])]);
        ("required", FJsonValueArray [FJsonValueString "blueprint_path"])])];
    FJsonValueObject [
      ("name", FJsonValueString "compile_blueprint");
      ("description", FJsonValueString "Compile a Blueprint");
      ("inputSchema", FJsonValueObject [
        ("type", FJsonValueString "object");
        ("properties", FJsonValueObject [
          ("blueprint_path", FJsonValueObject [
            ("type", FJsonValueString "string")])]);
        ("required", FJsonValueArray [FJsonValueString "blueprint_path"])])];
    FJsonValueObject [
      ("name", FJsonValueString "spawn_blueprint_actor");
      ("description", FJsonValueString "Spawn an instance of a Blueprint in the level");
      ("inputSchema", FJsonValueObject [
        ("type", FJsonValueString "object");
        ("properties", FJsonValueObject [
          ("blueprint_path", FJsonValueObject [
            ("type", FJsonValueString "string")]);
          ("x", FJsonValueObject [
            ("type", FJsonValueString "number")]);
          ("y", FJsonValueObject [
            ("type", FJsonValueString "number")]);
          ("z", FJsonValueObject [
            ("type", FJsonValueString "number")])]);
        ("required", FJsonValueArray [FJsonValueString "blueprint_path"])])];
    FJsonValueObject [
      ("name", FJsonValueString "add_blueprint_variable");
      ("description", FJsonValueString "Add a new variable to a Blueprint");
      ("inputSchema", FJsonValueObject [
        ("type", FJsonValueString "object");
        ("properties", FJsonValueObject [
          ("blueprint_path", FJsonValueObject [
            ("type", FJsonValueString "string")]);
          ("var_name", FJsonValueObject [
            ("type", FJsonValueString "string")]);
          ("var_type", FJsonValueObject [
            ("type", FJsonValueString "string");
            ("description", FJsonValueString "Type: Boolean, Integer, Float, String, Vector, Rotator, Transform")])]);
        ("required", FJsonValueArray [FJsonValueString "blueprint_path"; FJsonValueString "var_name"; FJsonValueString "var_type"])])];
    FJsonValueObject [
      ("name", FJsonValueString "remove_blueprint_variable");
      ("description", FJsonValueString "Remove a variable from a Blueprint");
      ("inputSchema", FJsonValueObject [
        ("type", FJsonValueString "object");
        ("properties", FJsonValueObject [
          ("blueprint_path", FJsonValueObject [
            ("type", FJsonValueString "string")]);
          ("var_name", FJsonValueObject [
            ("type", FJsonValueString "string")])]);
        ("required", FJsonValueArray [FJsonValueString "blueprint_path"; FJsonValueString "var_name"])])];
    FJsonValueObject [
      ("name", FJsonValueString "get_blueprint_variables");
      ("description", FJsonValueString "Get all variables defined in a Blueprint");
      ("inputSchema", FJsonValueObject [
        ("type", FJsonValueString "object");
        ("properties", FJsonValueObject [
          ("blueprint_path", FJsonValueObject [
            ("type", FJsonValueString "string")])]);
        ("required", FJsonValueArray [FJsonValueString "blueprint_path"])])];
    FJsonValueObject [
      ("name", FJsonValueString "get_blueprint_functions");
      ("description", FJsonValueString "Get all functions defined in a Blueprint");
      ("inputSchema", FJsonValueObject [
        ("type", FJsonValueString "object");
        ("properties", FJsonValueObject [
          ("blueprint_path", FJsonValueObject [
            ("type", FJsonValueString "string")])]);
        ("required", FJsonValueArray [FJsonValueString "blueprint_path"])])];
    FJsonValueObject [
      ("name", FJsonValueString "set_blueprint_variable_default");
      ("description", FJsonValueString "Set the default value of a Blueprint variable");
      ("inputSchema", FJsonValueObject [
        ("type", FJsonValueString "object");
        ("properties", FJsonValueObject [
          ("blueprint_path", FJsonValueObject [
            ("type", FJsonValueString "string")]);
          ("var_name", FJsonValueObject [
            ("type", FJsonValueString "string")]);
          ("default_value", FJsonValueObject [
            ("type", FJsonValueString "string")])]);
        ("required", FJsonValueArray [FJsonValueString "blueprint_path"; FJsonValueString "var_name"; FJsonValueString "default_value"])])]
  ].

(** [FMCPServer::RegisterMaterialTools] (MCPServer.cpp:1578): appends 7 descriptors to [Tools]. *)
Definition RegisterMaterialTools (Tools : list FJsonValue) : list FJsonValue :=
  Tools ++ [
    FJsonValueObject [
      ("name", FJsonValueString "create_material_instance");
      ("description", FJsonValueString "Create a Material Instance from a parent material");
      ("inputSchema", FJsonValueObject [
        ("type", FJsonValueString "object");
        ("properties", FJsonValueObject [
          ("parent_material", FJsonValueObject [
            ("type", FJsonValueString "string")]);
          ("name", FJsonValueObject [
            ("type", FJsonValueString "string")])]);
        ("required", FJsonValueArray [FJsonValueString "parent_material"; FJsonValueString "name"])])];
    FJsonValueObject [
      ("name", FJsonValueString "set_material_scalar");
      ("description", FJsonValueString "Set a scalar parameter on a material instance");
      ("inputSchema", FJsonValueObject [
        ("type", FJsonValueString "object");
        ("properties", FJsonValueObject [
          ("material_path", FJsonValueObject [
            ("type", FJsonValueString "string")]);
          ("parameter_name", FJsonValueObject [
            ("type", FJsonValueString "string")]);
          ("value", FJsonValueObject [
            ("type", FJsonValueString "number")])]);
        ("required", FJsonValueArray [FJsonValueString "material_path"; FJsonValueString "parameter_name"; FJsonValueString "value"])])];
    FJsonValueObject [
      ("name", FJsonValueString "apply_material_to_actor");
      ("description", FJsonValueString "Apply a material to an actor's mesh");
      ("inputSchema", FJsonValueObject [
        ("type", FJsonValueString "object");
        ("properties", FJsonValueObject [
          ("actor_name", FJsonValueObject [
            ("type", FJsonValueString "string")]);
          ("material_path", FJsonValueObject [
            ("type", FJsonValueString "string")]);
          ("slot_index", FJsonValueObject [
            ("type", FJsonValueString "number")])]);
        ("required", FJsonValueArray [FJsonValueString "actor_name"; FJsonValueString "material_path"])])];
    FJsonValueObject [
      ("name", FJsonValueString "set_material_vector");
      ("description", FJsonValueString "Set a vector parameter (color) on a material instance");
      ("inputSchema", FJsonValueObject [
        ("type", FJsonValueString "object");
        ("properties", FJsonValueObject [
          ("material_path", FJsonValueObject [
            ("type", FJsonValueString "string")]);
          ("param_name", FJsonValueObject [
            ("type", FJsonValueString "string")]);
          ("r", FJsonValueObject [
            ("type", FJsonValueString "number")]);
          ("g", FJsonValueObject [
            ("type", FJsonValueString "number")]);
          ("b", FJsonValueObject [
            ("type", FJsonValueString "number")]);
          ("a", FJsonValueObject [
            ("type", FJsonValueString "number")])]);
        ("required", FJsonValueArray [FJsonValueString "material_path"; FJsonValueString "param_name"; FJsonValueString "r"; FJsonValueString "g"; FJsonValueString "b"])])];
    FJsonValueObject [
      ("name", FJsonValueString "get_material_parameters");
      ("description", FJsonValueString "Get all parameters of a material or material instance");
      ("inputSchema", FJsonValueObject [
        ("type", FJsonValueString "object");
        ("properties", FJsonValueObject [
          ("material_path", FJsonValueObject [
            ("type", FJsonValueString "string")])]);
        ("required", FJsonValueArray [FJsonValueString "material_path"])])];
    FJsonValueObject [
      ("name", FJsonValueString "replace_actor_material");
      ("description", FJsonValueString "Replace a material on an actor with another material");
      ("inputSchema", FJsonValueObject [
        ("type", FJsonValueString "object");
        ("properties", FJsonValueObject [
          ("actor_name", FJsonValueObject [
            ("type", FJsonValueString "string")]);
          ("material_index", FJsonValueObject [
            ("type", FJsonValueString "number")]);
          ("material_path", FJsonValueObject [
            ("type", FJsonValueString "string")])]);
        ("required", FJsonValueArray [FJsonValueString "actor_name"; FJsonValueString "material_index"; FJsonValueString "material_path"])])];
    FJsonValueObject [
      ("name", FJsonValueString "get_actor_materials");
      ("description", FJsonValueString "Get all materials applied to an actor");
      ("inputSchema", FJsonValueObject [
        ("type", FJsonValueString "object");
        ("properties", FJsonValueObject [
          ("actor_name", FJsonValueObject [
            ("type", FJsonValueString "string")])]);
        ("required", FJsonValueArray [FJsonValueString "actor_name"])])]
  ].

(** [FMCPServer::RegisterEditorTools] (MCPServer.cpp:1790): appends 2 descriptors to [Tools]. *)
Definition RegisterEditorTools (Tools : list FJsonValue) : list FJsonValue :=
  Tools ++ [
    FJsonValueObject [
      ("name", FJsonValueString "execute_console_command");
      ("description", FJsonValueString "Execute Unreal console command");
      ("inputSchema", FJsonValueObject [
        ("type", FJsonValueString "object");
        ("properties", FJsonValueObject [
          ("command", FJsonValueObject [
            ("type", FJsonValueString "string")])]);
        ("required", FJsonValueArray [FJsonValueString "command"])])];
    FJsonValueObject [
      ("name", FJsonValueString "get_project_info");
      ("description", FJsonValueString "Get project name, engine version, path");
      ("inputSchema", FJsonValueObject [
        ("type", FJsonValueString "object");
        ("properties", FJsonValueObject [])])]
  ].

(** [FMCPServer::RegisterPhysicsTools] (MCPServer.cpp:3925): appends 5 descriptors to [Tools]. *)
Definition RegisterPhysicsTools (Tools : list FJsonValue) : list FJsonValue :=
  Tools ++ [
    FJsonValueObject [
      ("name", FJsonValueString "set_simulate_physics");
      ("description", FJsonValueString "Enable or disable physics simulation on an actor");
      ("inputSchema", FJsonValueObject [
        ("type", FJsonValueString "object");
        ("properties", FJsonValueObject [
          ("actor_name", FJsonValueObject [
            ("type", FJsonValueString "string")]);
          ("enabled", FJsonValueObject [
            ("type", FJsonValueString "boolean")])]);
        ("required", FJsonValueArray [FJsonValueString "actor_name"; FJsonValueString "enabled"])])];
    FJsonValueObject [
      ("name", FJsonValueString "set_collision_enabled");
      ("description", FJsonValueString "Set collision type (NoCollision, QueryOnly, PhysicsOnly, QueryAndPhysics)");
      ("inputSchema", FJsonValueObject [
        ("type", FJsonValueString "object");
        ("properties", FJsonValueObject [
          ("actor_name", FJsonValueObject [
            ("type", FJsonValueString "string")]);
          ("collision_type", FJsonValueObject [
            ("type", FJsonValueString "string");
            ("description", FJsonValueString "NoCollision, QueryOnly, PhysicsOnly, QueryAndPhysics")])]);
        ("required", FJsonValueArray [FJsonValueString "actor_name"; FJsonValueString "collision_type"])])];
    FJsonValueObject [
      ("name", FJsonValueString "set_collision_profile");
      ("description", FJsonValueString "Set collision profile/preset on an actor");
      ("inputSchema", FJsonValueObject [
        ("type", FJsonValueString "object");
        ("properties", FJsonValueObject [
          ("actor_name", FJsonValueObject [
            ("type", FJsonValueString "string")]);
          ("profile_name", FJsonValueObject [
            ("type", FJsonValueString "string");
            ("description", FJsonValueString "BlockAll, OverlapAll, Pawn, PhysicsActor, etc.")])]);
        ("required", FJsonValueArray [FJsonValueString "actor_name"; FJsonValueString "profile_name"])])];
    FJsonValueObject [
      ("name", FJsonValueString "add_impulse");
      ("description", FJsonValueString "Add a physics impulse to an actor");
      ("inputSchema", FJsonValueObject [
        ("type", FJsonValueString "object");
        ("properties", FJsonValueObject [
          ("actor_name", FJsonValueObject [
            ("type", FJsonValueString "string")]);
          ("x", FJsonValueObject [
            ("type", FJsonValueString "number")]);
          ("y", FJsonValueObject [
            ("type", FJsonValueString "number")]);
          ("z", FJsonValueObject [
            ("type", FJsonValueString "number")]);
          ("vel_change", FJsonValueObject [
            ("type", FJsonValueString "boolean")])]);
        ("required", FJsonValueArray [FJsonValueString "actor_name"; FJsonValueString "x"; FJsonValueString "y"; FJsonValueString "z"])])];
    FJsonValueObject [
      ("name", FJsonValueString "get_physics_state");
      ("description", FJsonValueString "Get physics properties of an actor (mass, gravity, damping, velocity)");
      ("inputSchema", FJsonValueObject [
        ("type", FJsonValueString "object");
        ("properties", FJsonValueObject [
          ("actor_name", FJsonValueObject [
            ("type", FJsonValueString "string")])]);
        ("required", FJsonValueArray [FJsonValueString "actor_name"])])]
  ].

(** [FMCPServer::RegisterEditorUtilityTools] (MCPServer.cpp:4069): appends 4 descriptors to [Tools]. *)
Definition RegisterEditorUtilityTools (Tools : list FJsonValue) : list FJsonValue :=
  Tools ++ [
    FJsonValueObject [
      ("name", FJsonValueString "get_editor_preference");
      ("description", FJsonValueString "Get an editor preference value from config");
      ("inputSchema", FJsonValueObject [
        ("type", FJsonValueString "object");
        ("properties", FJsonValueObject [
          ("section", FJsonValueObject [
            ("type", FJsonValueString "string")]);
          ("key", FJsonValueObject [
            ("type", FJsonValueString "string")])]);
        ("required", FJsonValueArray [FJsonValueString "section"; FJsonValueString "key"])])];
    FJsonValueObject [
      ("name", FJsonValueString "set_editor_preference");
      ("description", FJsonValueString "Set an editor preference value in config");
      ("inputSchema", FJsonValueObject [
        ("type", FJsonValueString "object");
        ("properties", FJsonValueObject [
          ("section", FJsonValueObject [
            ("type", FJsonValueString "string")]);
          ("key", FJsonValueObject [
            ("type", FJsonValueString "string")]);
          ("value", FJsonValueObject [
            ("type", FJsonValueString "string")])]);
        ("required", FJsonValueArray [FJsonValueString "section"; FJsonValueString "key"; FJsonValueString "value"])])];
    FJsonValueObject [
      ("name", FJsonValueString "run_editor_utility");
      ("description", FJsonValueString "Run an editor utility widget or blueprint");
      ("inputSchema", FJsonValueObject [
        ("type", FJsonValueString "object");
        ("properties", FJsonValueObject [
          ("asset_path", FJsonValueObject [
            ("type", FJsonValueString "string")])]);
        ("required", FJsonValueArray [FJsonValueString "asset_path"])])];
    FJsonValueObject [
      ("name", FJsonValueString "get_engine_info");
      ("description", FJsonValueString "Get detailed engine and build information");
      ("inputSchema", FJsonValueObject [
        ("type", FJsonValueString "object");
        ("properties", FJsonValueObject [])])]
  ].

(** [FMCPServer::RegisterBookmarkTools] (MCPServer.cpp:4162): appends 4 descriptors to [Tools]. *)
Definition RegisterBookmarkTools (Tools : list FJsonValue) : list FJsonValue :=
  Tools ++ [
    FJsonValueObject [
      ("name", FJsonValueString "set_viewport_bookmark");
      ("description", FJsonValueString "Save current viewport camera position to a bookmark slot (0-9)");
      ("inputSchema", FJsonValueObject [
        ("type", FJsonValueString "object");
        ("properties", FJsonValueObject [
          ("slot", FJsonValueObject [
            ("type", FJsonValueString "number");
            ("description", FJsonValueString "Bookmark slot 0-9")]);
          ("name", FJsonValueObject [
            ("type", FJsonValueString "string")])]);
        ("required", FJsonValueArray [FJsonValueString "slot"])])];
    FJsonValueObject [
      ("name", FJsonValueString "jump_to_bookmark");
      ("description", FJsonValueString "Jump viewport camera to a saved bookmark");
      ("inputSchema", FJsonValueObject [
        ("type", FJsonValueString "object");
        ("properties", FJsonValueObject [
          ("slot", FJsonValueObject [
            ("type", FJsonValueString "number")])]);
        ("required", FJsonValueArray [FJsonValueString "slot"])])];
    FJsonValueObject [
      ("name", FJsonValueString "clear_bookmark");
      ("description", FJsonValueString "Clear a viewport bookmark slot");
      ("inputSchema", FJsonValueObject [
        ("type", FJsonValueString "object");
        ("properties", FJsonValueObject [
          ("slot", FJsonValueObject [
            ("type", FJsonValueString "number")])]);
        ("required", FJsonValueArray [FJsonValueString "slot"])])];
    FJsonValueObject [
      ("name", FJsonValueString "list_bookmarks");
      ("description", FJsonValueString "List all saved viewport bookmarks");
      ("inputSchema", FJsonValueObject [
        ("type", FJsonValueString "object");
        ("properties", FJsonValueObject [])])]
  ].

(** [FMCPServer::RegisterComponentTools] (MCPServer.cpp:4245): appends 5 descriptors to [Tools]. *)
Definition RegisterComponentTools (Tools : list FJsonValue) : list FJsonValue :=
  Tools ++ [
    FJsonValueObject [
      ("name", FJsonValueString "get_actor_components");
      ("description", FJsonValueString "List all components attached to an actor");
      ("inputSchema", FJsonValueObject [
        ("type", FJsonValueString "object");
        ("properties", FJsonValueObject [
          ("actor_name", FJsonValueObject [
            ("type", FJsonValueString "string")])]);
        ("required", FJsonValueArray [FJsonValueString "actor_name"])])];
    FJsonValueObject [
      ("name", FJsonValueString "get_component_properties");
      ("description", FJsonValueString "Get properties of a specific component");
      ("inputSchema", FJsonValueObject [
        ("type", FJsonValueString "object");
        ("properties", FJsonValueObject [
          ("actor_name", FJsonValueObject [
            ("type", FJsonValueString "string")]);
          ("component_name", FJsonValueObject [
            ("type", FJsonValueString "string")])]);
        ("required", FJsonValueArray [FJsonValueString "actor_name"; FJsonValueString "component_name"])])];
    FJsonValueObject [
      ("name", FJsonValueString "set_component_transform");
      ("description", FJsonValueString "Set the relative transform of a component");
      ("inputSchema", FJsonValueObject [
        ("type", FJsonValueString "object");
        ("properties", FJsonValueObject [
          ("actor_name", FJsonValueObject [
            ("type", FJsonValueString "string")]);
          ("component_name", FJsonValueObject [
            ("type", FJsonValueString "string")]);
          ("x", FJsonValueObject [
            ("type", FJsonValueString "number")]);
          ("y", FJsonValueObject [
            ("type", FJsonValueString "number")]);
          ("z", FJsonValueObject [
            ("type", FJsonValueString "number")]);
          ("pitch", FJsonValueObject [
            ("type", FJsonValueString "number")]);
          ("yaw", FJsonValueObject [
            ("type", FJsonValueString "number")]);
          ("roll", FJsonValueObject [
            ("type", FJsonValueString "number")])]);
        ("required", FJsonValueArray [FJsonValueString "actor_name"; FJsonValueString "component_name"])])];
    FJsonValueObject [
      ("name", FJsonValueString "set_component_visibility");
      ("description", FJsonValueString "Set visibility of a component");
      ("inputSchema", FJsonValueObject [
        ("type", FJsonValueString "object");
        ("properties", FJsonValueObject [
          ("actor_name", FJsonValueObject [
            ("type", FJsonValueString "string")]);
          ("component_name", FJsonValueObject [
            ("type", FJsonValueString "string")]);
          ("visible", FJsonValueObject [
            ("type", FJsonValueString "boolean")])]);
        ("required", FJsonValueArray [FJsonValueString "actor_name"; FJsonValueString "component_name"; FJsonValueString "visible"])])];
    FJsonValueObject [
      ("name", FJsonValueString "remove_component");
      ("description", FJsonValueString "Remove a component from an actor");
      ("inputSchema", FJsonValueObject [
        ("type", FJsonValueString "object");
        ("properties", FJsonValueObject [
          ("actor_name", FJsonValueObject [
            ("type", FJsonValueString "string")]);
          ("component_name", FJsonValueObject [
            ("type", FJsonValueString "string")])]);
        ("required", FJsonValueArray [FJsonValueString "actor_name"; FJsonValueString "component_name"])])]
  ].

(** [FMCPServer::RegisterAnimationTools] (MCPServer.cpp:4976): appends 8 descriptors to [Tools]. *)
Definition RegisterAnimationTools (Tools : list FJsonValue) : list FJsonValue :=
  Tools ++ [
    FJsonValueObject [
      ("name", FJsonValueString "play_animation");
      ("description", FJsonValueString "Play an animation on a skeletal mesh actor");
      ("inputSchema", FJsonValueObject [
        ("type", FJsonValueString "object");
        ("properties", FJsonValueObject [
          ("actor_name", FJsonValueObject [
            ("type", FJsonValueString "string");
            ("description", FJsonValueString "Actor with skeletal mesh")]);
          ("animation_path", FJsonValueObject [
            ("type", FJsonValueString "string");
            ("description", FJsonValueString "Animation asset path")]);
          ("looping", FJsonValueObject [
            ("type", FJsonValueString "boolean");
            ("description", FJsonValueString "Loop the animation")]);
          ("play_rate", FJsonValueObject [
            ("type", FJsonValueString "number");
            ("description", FJsonValueString "Playback speed multiplier")])]);
        ("required", FJsonValueArray [FJsonValueString "actor_name"; FJsonValueString "animation_path"])])];
    FJsonValueObject [
      ("name", FJsonValueString "stop_animation");
      ("description", FJsonValueString "Stop the current animation on a skeletal mesh actor");
      ("inputSchema", FJsonValueObject [
        ("type", FJsonValueString "object");
        ("properties", FJsonValueObject [
          ("actor_name", FJsonValueObject [
            ("type", FJsonValueString "string");
            ("description", FJsonValueString "Actor to stop animation on")])]);
        ("required", FJsonValueArray [FJsonValueString "actor_name"])])];
    FJsonValueObject [
      ("name", FJsonValueString "get_animation_list");
      ("description", FJsonValueString "List available animations for a skeletal mesh actor");
      ("inputSchema", FJsonValueObject [
        ("type", FJsonValueString "object");
        ("properties", FJsonValueObject [
          ("actor_name", FJsonValueObject [
            ("type", FJsonValueString "string");
            ("description", FJsonValueString "Actor with skeletal mesh")])]);
        ("required", FJsonValueArray [FJsonValueString "actor_name"])])];
    FJsonValueObject [
      ("name", FJsonValueString "create_level_sequence");
      ("description", FJsonValueString "Create a new Level Sequence asset for cinematics");
      ("inputSchema", FJsonValueObject [
        ("type", FJsonValueString "object");
        ("properties", FJsonValueObject [
          ("name", FJsonValueObject [
            ("type", FJsonValueString "string");
            ("description", FJsonValueString "Sequence name")]);
          ("path", FJsonValueObject [
            ("type", FJsonValueString "string");
            ("description", FJsonValueString "Save path (default: /Game/Cinematics)")])]);
        ("required", FJsonValueArray [FJsonValueString "name"])])];
    FJsonValueObject [
      ("name", FJsonValueString "add_actor_to_sequence");
      ("description", FJsonValueString "Add an actor to a Level Sequence as a possessable");
      ("inputSchema", FJsonValueObject [
        ("type", FJsonValueString "object");
        ("properties", FJsonValueObject [
          ("sequence_path", FJsonValueObject [
            ("type", FJsonValueString "string");
            ("description", FJsonValueString "Level Sequence asset path")]);
          ("actor_name", FJsonValueObject [
            ("type", FJsonValueString "string");
            ("description", FJsonValueString "Actor to add")])]);
        ("required", FJsonValueArray [FJsonValueString "sequence_path"; FJsonValueString "actor_name"])])];
    FJsonValueObject [
      ("name", FJsonValueString "play_sequence");
      ("description", FJsonValueString "Play a Level Sequence in the editor");
      ("inputSchema", FJsonValueObject [
        ("type", FJsonValueString "object");
        ("properties", FJsonValueObject [
          ("sequence_path", FJsonValueObject [
            ("type", FJsonValueString "string");
            ("description", FJsonValueString "Level Sequence asset path")]);
          ("start_time", FJsonValueObject [
            ("type", FJsonValueString "number");
            ("description", FJsonValueString "Start time in seconds")])]);
        ("required", FJsonValueArray [FJsonValueString "sequence_path"])])];
    FJsonValueObject [
      ("name", FJsonValueString "stop_sequence");
      ("description", FJsonValueString "Stop the currently playing Level Sequence");
      ("inputSchema", FJsonValueObject [
        ("type", FJsonValueString "object");
        ("properties", FJsonValueObject [])])];
    FJsonValueObject [
      ("name", FJsonValueString "set_sequence_time");
      ("description", FJsonValueString "Seek to a specific time in the Level Sequence");
      ("inputSchema", FJsonValueObject [
        ("type", FJsonValueString "object");
        ("properties", FJsonValueObject [
          ("sequence_path", FJsonValueObject [
            ("type", FJsonValueString "string");
            ("description", FJsonValueString "Level Sequence asset path")]);
          ("time", FJsonValueObject [
            ("type", FJsonValueString "number");
            ("description", FJsonValueString "Time in seconds to seek to")])]);
        ("required", FJsonValueArray [FJsonValueString "sequence_path"; FJsonValueString "time"])])]
  ].

(** [FMCPServer::RegisterAudioTools] (MCPServer.cpp:5440): appends 6 descriptors to [Tools]. *)
Definition RegisterAudioTools (Tools : list FJsonValue) : list FJsonValue :=
  Tools ++ [
    FJsonValueObject [
      ("name", FJsonValueString "play_sound_at_location");
      ("description", FJsonValueString "Play a sound at a 3D location (fire and forget)");
      ("inputSchema", FJsonValueObject [
        ("type", FJsonValueString "object");
        ("properties", FJsonValueObject [
          ("sound_path", FJsonValueObject [
            ("type", FJsonValueString "string");
            ("description", FJsonValueString "Sound asset path")]);
          ("x", FJsonValueObject [
            ("type", FJsonValueString "number");
            ("description", FJsonValueString "X location")]);
          ("y", FJsonValueObject [
            ("type", FJsonValueString "number");
            ("description", FJsonValueString "Y location")]);
          ("z", FJsonValueObject [
            ("type", FJsonValueString "number");
            ("description", FJsonValueString "Z location")]);
          ("volume", FJsonValueObject [
            ("type", FJsonValueString "number");
            ("description", FJsonValueString "Volume multiplier (default: 1.0)")])]);
        ("required", FJsonValueArray [FJsonValueString "sound_path"; FJsonValueString "x"; FJsonValueString "y"; FJsonValueString "z"])])];
    FJsonValueObject [
      ("name", FJsonValueString "spawn_audio_component");
      ("description", FJsonValueString "Spawn an audio component attached to an actor");
      ("inputSchema", FJsonValueObject [
        ("type", FJsonValueString "object");
        ("properties", FJsonValueObject [
          ("actor_name", FJsonValueObject [
            ("type", FJsonValueString "string");
            ("description", FJsonValueString "Actor to attach audio to")]);
          ("sound_path", FJsonValueObject [
            ("type", FJsonValueString "string");
            ("description", FJsonValueString "Sound asset path")]);
          ("auto_play", FJsonValueObject [
            ("type", FJsonValueString "boolean");
            ("description", FJsonValueString "Start playing immediately")]);
          ("looping", FJsonValueObject [
            ("type", FJsonValueString "boolean");
            ("description", FJsonValueString "Loop the sound")])]);
        ("required", FJsonValueArray [FJsonValueString "actor_name"; FJsonValueString "sound_path"])])];
    FJsonValueObject [
      ("name", FJsonValueString "set_audio_volume");
      ("description", FJsonValueString "Set the volume of an audio component on an actor");
      ("inputSchema", FJsonValueObject [
        ("type", FJsonValueString "object");
        ("properties", FJsonValueObject [
          ("actor_name", FJsonValueObject [
            ("type", FJsonValueString "string");
            ("description", FJsonValueString "Actor with audio component")]);
          ("volume", FJsonValueObject [
            ("type", FJsonValueString "number");
            ("description", FJsonValueString "Volume multiplier (0.0 - 2.0)")])]);
        ("required", FJsonValueArray [FJsonValueString "actor_name"; FJsonValueString "volume"])])];
    FJsonValueObject [
      ("name", FJsonValueString "stop_all_sounds");
      ("description", FJsonValueString "Stop all playing sounds in the level");
      ("inputSchema", FJsonValueObject [
        ("type", FJsonValueString "object");
        ("properties", FJsonValueObject [])])];
    FJsonValueObject [
      ("name", FJsonValueString "get_audio_components");
      ("description", FJsonValueString "List all audio components on an actor");
      ("inputSchema", FJsonValueObject [
        ("type", FJsonValueString "object");
        ("properties", FJsonValueObject [
          ("actor_name", FJsonValueObject [
            ("type", FJsonValueString "string");
            ("description", FJsonValueString "Actor to query")])]);
        ("required", FJsonValueArray [FJsonValueString "actor_name"])])];
    FJsonValueObject [
      ("name", FJsonValueString "set_audio_attenuation");
      ("description", FJsonValueString "Set the attenuation radius of an audio component");
      ("inputSchema", FJsonValueObject [
        ("type", FJsonValueString "object");
        ("properties", FJsonValueObject [
          ("actor_name", FJsonValueObject [
            ("type", FJsonValueString "string");
            ("description", FJsonValueString "Actor with audio component")]);
          ("inner_radius", FJsonValueObject [
            ("type", FJsonValueString "number");
            ("description", FJsonValueString "Inner attenuation radius")]);
          ("falloff_distance", FJsonValueObject [
            ("type", FJsonValueString "number");
            ("description", FJsonValueString "Falloff distance")])]);
        ("required", FJsonValueArray [FJsonValueString "actor_name"; FJsonValueString "inner_radius"; FJsonValueString "falloff_distance"])])]
  ].

(** [FMCPServer::RegisterLandscapeTools] (MCPServer.cpp:5826): appends 6 descriptors to [Tools]. *)
Definition RegisterLandscapeTools (Tools : list FJsonValue) : list FJsonValue :=
  Tools ++ [
    FJsonValueObject [
      ("name", FJsonValueString "get_landscape_info");
      ("description", FJsonValueString "Get information about the landscape in the level");
      ("inputSchema", FJsonValueObject [
        ("type", FJsonValueString "object");
        ("properties", FJsonValueObject [])])];
    FJsonValueObject [
      ("name", FJsonValueString "get_landscape_height");
      ("description", FJsonValueString "Get the landscape height at a specific location");
      ("inputSchema", FJsonValueObject [
        ("type", FJsonValueString "object");
        ("properties", FJsonValueObject [
          ("x", FJsonValueObject [
            ("type", FJsonValueString "number");
            ("description", FJsonValueString "X location")]);
          ("y", FJsonValueObject [
            ("type", FJsonValueString "number");
            ("description", FJsonValueString "Y location")])]);
        ("required", FJsonValueArray [FJsonValueString "x"; FJsonValueString "y"])])];
    FJsonValueObject [
      ("name", FJsonValueString "get_foliage_types");
      ("description", FJsonValueString "List all foliage types in the level");
      ("inputSchema", FJsonValueObject [
        ("type", FJsonValueString "object");
        ("properties", FJsonValueObject [])])];
    FJsonValueObject [
      ("name", FJsonValueString "add_foliage_instance");
      ("description", FJsonValueString "Add a foliage instance at a location");
      ("inputSchema", FJsonValueObject [
        ("type", FJsonValueString "object");
        ("properties", FJsonValueObject [
          ("foliage_type", FJsonValueObject [
            ("type", FJsonValueString "string");
            ("description", FJsonValueString "Foliage type name or path")]);
          ("x", FJsonValueObject [
            ("type", FJsonValueString "number");
            ("description", FJsonValueString "X location")]);
          ("y", FJsonValueObject [
            ("type", FJsonValueString "number");
            ("description", FJsonValueString "Y location")]);
          ("z", FJsonValueObject [
            ("type", FJsonValueString "number");
            ("description", FJsonValueString "Z location")]);
          ("scale", FJsonValueObject [
            ("type", FJsonValueString "number");
            ("description", FJsonValueString "Scale multiplier (default: 1.0)")])]);
        ("required", FJsonValueArray [FJsonValueString "foliage_type"; FJsonValueString "x"; FJsonValueString "y"; FJsonValueString "z"])])];
    FJsonValueObject [
      ("name", FJsonValueString "remove_foliage_in_radius");
      ("description", FJsonValueString "Remove all foliage instances within a radius");
      ("inputSchema", FJsonValueObject [
        ("type", FJsonValueString "object");
        ("properties", FJsonValueObject [
          ("x", FJsonValueObject [
            ("type", FJsonValueString "number");
            ("description", FJsonValueString "Center X location")]);
          ("y", FJsonValueObject [
            ("type", FJsonValueString "number");
            ("description", FJsonValueString "Center Y location")]);
          ("z", FJsonValueObject [
            ("type", FJsonValueString "number");
            ("description", FJsonValueString "Center Z location")]);
          ("radius", FJsonValueObject [
            ("type", FJsonValueString "number");
            ("description", FJsonValueString "Radius to clear")])]);
        ("required", FJsonValueArray [FJsonValueString "x"; FJsonValueString "y"; FJsonValueString "z"; FJsonValueString "radius"])])];
    FJsonValueObject [
      ("name", FJsonValueString "get_foliage_count");
      ("description", FJsonValueString "Get the count of foliage instances by type");
      ("inputSchema", FJsonValueObject [
        ("type", FJsonValueString "object");
        ("properties", FJsonValueObject [
          ("foliage_type", FJsonValueObject [
            ("type", FJsonValueString "string");
            ("description", FJsonValueString "Specific foliage type (empty = all)")])])])]
  ].

(** ** Protocol handlers *)

Section Server.

Context {Json : JsonEngine} {Host : EditorHost}.

(** [FMCPServer::ProtocolVersion]. *)
Definition ProtocolVersion : FString := "2024-11-05".

(** The [Response] object [CreateSuccessResponse] builds. *)
Definition SuccessEnvelope (Id : int32) (Result : FJsonObject) : FJsonObject :=
  let Response := MakeShared in
  let Response := SetStringField Response "jsonrpc" "2.0" in
  let Response := SetNumberField Response "id" Id in
  let Response := SetObjectField Response "result" Result in
  Response.

(** [FMCPServer::CreateSuccessResponse]: the envelope, written condensed. *)
Definition CreateSuccessResponse (Id : int32) (Result : FJsonObject) : FString :=
  Serialize (SuccessEnvelope Id Result).

(** The [Response] object [CreateErrorResponse] builds. *)
Definition ErrorEnvelope (Id : int32) (Code : int32) (Message : FString) : FJsonObject :=
  let Response := MakeShared in
  let Response := SetStringField Response "jsonrpc" "2.0" in
  let Response := SetNumberField Response "id" Id in
  let Error := MakeShared in
  let Error := SetNumberField Error "code" Code in
  let Error := SetStringField Error "message" Message in
  let Response := SetObjectField Response "error" Error in
  Response.

(** [FMCPServer::CreateErrorResponse]: the envelope, written condensed. *)
Definition CreateErrorResponse (Id : int32) (Code : int32) (Message : FString) : FString :=
  Serialize (ErrorEnvelope Id Code Message).

(** A reply that answers request [Id]: the condensed text of a JSON-RPC
    envelope that carries this id, with either a [result] object or an
    [error] object made of a code and a message. *)
Definition ReplyTo (Id : int32) (Response : FString) : Prop :=
  (exists Result,
     Response = Serialize [("jsonrpc", FJsonValueString "2.0");
                           ("id", FJsonValueNumber Id);
                           ("result", FJsonValueObject Result)]) \/
  (exists Code Message,
     Response = Serialize [("jsonrpc", FJsonValueString "2.0");
                           ("id", FJsonValueNumber Id);
                           ("error", FJsonValueObject
                                       [("code", FJsonValueNumber Code);
                                        ("message", FJsonValueString Message)])]).

(** [FMCPServer::HandleInitialize]. *)
Definition HandleInitialize (Id : int32) : FString :=
  let Result := MakeShared in
  let Result := SetStringField Result "protocolVersion" ProtocolVersion in
  let Capabilities := MakeShared in
  let ToolsCap := MakeShared in
  let Capabilities := SetObjectField Capabilities "tools" ToolsCap in
  let Result := SetObjectField Result "capabilities" Capabilities in
  let ServerInfo := MakeShared in
  let ServerInfo := SetStringField ServerInfo "name" "ue5-mcp-bridge" in
  let ServerInfo := SetStringField ServerInfo "version" "3.2.0" in
  let Result := SetObjectField Result "serverInfo" ServerInfo in
  CreateSuccessResponse Id Result.

(** The [Tools] array [HandleToolsList] builds: the registration functions
    in the order it calls them, starting from the empty array. *)
Definition RegisteredTools : list FJsonValue :=
  let Tools := [] in
  let Tools := RegisterActorTools Tools in
  let Tools := RegisterSelectionTools Tools in
  let Tools := RegisterViewportTools Tools in
  let Tools := RegisterLevelTools Tools in
  let Tools := RegisterPIETools Tools in
  let Tools := RegisterAssetTools Tools in
  let Tools := RegisterBlueprintTools Tools in
  let Tools := RegisterMaterialTools Tools in
  let Tools := RegisterEditorTools Tools in
  let Tools := RegisterPhysicsTools Tools in
  let Tools := RegisterEditorUtilityTools Tools in
  let Tools := RegisterBookmarkTools Tools in
  let Tools := RegisterComponentTools Tools in
  let Tools := RegisterAnimationTools Tools in
  let Tools := RegisterAudioTools Tools in
  let Tools := RegisterLandscapeTools Tools in
  Tools.

(** [FMCPServer::HandleToolsList]. *)
Definition HandleToolsList (Id : int32) : FString :=
  let Result := MakeShared in
  let Result := SetArrayField Result "tools" RegisteredTools in
  CreateSuccessResponse Id Result.

(** The ["name"] field of a tool descriptor. *)
Definition DescriptorName (Tool : FJsonValue) : option FString :=
  match Tool with
  | FJsonValueObject o =>
      match FindField o "name" with
      | Some (FJsonValueString s) => Some s
      | _ => None
      end
  | _ => None
  end.

(** The names a tools array enumerates, in order (a descriptor without a
    name counts as the empty name). *)
Definition ToolNames (Tools : list FJsonValue) : list FString :=
  map (fun Tool => match DescriptorName Tool with Some s => s | None => EmptyString end) Tools.

(** ** Executors

    Code that runs on the game thread: a function of the world. *)
Definition Game (A : Type) : Type := World -> Outcome (A * World).

Definition Executor : Type := TSharedPtr FJsonObject -> Game FString.

(** An executor declared without parameters, [ExecuteX()]. *)
Definition NoArguments (f : FString) : Executor :=
  fun _ w => Returns (HostCall0 f w).

(** An executor whose first statement is
    [if (!Args.IsValid()) return TEXT("Error: Invalid arguments");]. *)
Definition ChecksArguments (f : FString) : Executor :=
  fun Args w =>
    match Args with
    | None => Returns ("Error: Invalid arguments", w)
    | Some a => Returns (HostCall f a w)
    end.

(** An executor whose first statement reads a field through [Args->]
    and that never tests [Args.IsValid()]. *)
Definition DereferencesArguments (f : FString) : Executor :=
  fun Args w =>
    match Args with
    | None => Faulted
    | Some a => Returns (HostCall f a w)
    end.

(** An executor that takes [Args] and never mentions it. *)
Definition IgnoresArguments (f : FString) : Executor :=
  fun _ w => Returns (HostCall0 f w).

(** MCPServer.cpp:2171 *)
Definition ExecuteGetActorList : Executor := NoArguments "ExecuteGetActorList".
(** MCPServer.cpp:2191 *)
Definition ExecuteSpawnActor : Executor := ChecksArguments "ExecuteSpawnActor".
(** MCPServer.cpp:2239 *)
Definition ExecuteDeleteActor : Executor := ChecksArguments "ExecuteDeleteActor".
(** MCPServer.cpp:2259 *)
Definition ExecuteGetActorProperties : Executor := ChecksArguments "ExecuteGetActorProperties".
(** MCPServer.cpp:2286 *)
Definition ExecuteSetActorProperty : Executor := ChecksArguments "ExecuteSetActorProperty".
(** MCPServer.cpp:2324 *)
Definition ExecuteFindActorsByClass : Executor := ChecksArguments "ExecuteFindActorsByClass".
(** MCPServer.cpp:2352 *)
Definition ExecuteFindActorsByTag : Executor := ChecksArguments "ExecuteFindActorsByTag".
(** MCPServer.cpp:2380 *)
Definition ExecuteFindActorsByName : Executor := ChecksArguments "ExecuteFindActorsByName".
(** MCPServer.cpp:2413 *)
Definition ExecuteDuplicateActor : Executor := ChecksArguments "ExecuteDuplicateActor".
(** MCPServer.cpp:2447 *)
Definition ExecuteSetActorVisibility : Executor := ChecksArguments "ExecuteSetActorVisibility".
(** MCPServer.cpp:2469 *)
Definition ExecuteSnapActorToGround : Executor := ChecksArguments "ExecuteSnapActorToGround".
(** MCPServer.cpp:2502 *)
Definition ExecuteRenameActor : Executor := ChecksArguments "ExecuteRenameActor".
(** MCPServer.cpp:2527 *)
Definition ExecuteAddActorTag : Executor := ChecksArguments "ExecuteAddActorTag".
(** MCPServer.cpp:2548 *)
Definition ExecuteRemoveActorTag : Executor := ChecksArguments "ExecuteRemoveActorTag".
(** MCPServer.cpp:2572 *)
Definition ExecuteGetActorTags : Executor := ChecksArguments "ExecuteGetActorTags".
(** MCPServer.cpp:2601 *)
Definition ExecuteSetActorMobility : Executor := ChecksArguments "ExecuteSetActorMobility".
(** MCPServer.cpp:2646 *)
Definition ExecuteGetActorMobility : Executor := ChecksArguments "ExecuteGetActorMobility".
(** MCPServer.cpp:2679 *)
Definition ExecuteAttachActorToActor : Executor := ChecksArguments "ExecuteAttachActorToActor".
(** MCPServer.cpp:2713 *)
Definition ExecuteDetachActor : Executor := ChecksArguments "ExecuteDetachActor".
(** MCPServer.cpp:2737 *)
Definition ExecuteSelectActors : Executor := ChecksArguments "ExecuteSelectActors".
(** MCPServer.cpp:2766 *)
Definition ExecuteGetSelectedActors : Executor := NoArguments "ExecuteGetSelectedActors".
(** MCPServer.cpp:2788 *)
Definition ExecuteClearSelection : Executor := NoArguments "ExecuteClearSelection".
(** MCPServer.cpp:2794 *)
Definition ExecuteFocusOnActor : Executor := ChecksArguments "ExecuteFocusOnActor".
(** MCPServer.cpp:2820 *)
Definition ExecuteGetViewportCamera : Executor := NoArguments "ExecuteGetViewportCamera".
(** MCPServer.cpp:2836 *)
Definition ExecuteSetViewportCamera : Executor := ChecksArguments "ExecuteSetViewportCamera".
(** MCPServer.cpp:2888 *)
Definition ExecuteSetViewMode : Executor := ChecksArguments "ExecuteSetViewMode".
(** MCPServer.cpp:2931 *)
Definition ExecuteGetViewMode : Executor := NoArguments "ExecuteGetViewMode".
(** MCPServer.cpp:2959 *)
Definition ExecutePilotActor : Executor := ChecksArguments "ExecutePilotActor".
(** MCPServer.cpp:2983 *)
Definition ExecuteStopPiloting : Executor := NoArguments "ExecuteStopPiloting".
(** MCPServer.cpp:2994 *)
Definition ExecuteSetViewportRealtime : Executor := ChecksArguments "ExecuteSetViewportRealtime".
(** MCPServer.cpp:3009 *)
Definition ExecuteSetViewportStats : Executor := ChecksArguments "ExecuteSetViewportStats".
(** MCPServer.cpp:3035 *)
Definition ExecuteGetCurrentLevel : Executor := NoArguments "ExecuteGetCurrentLevel".
(** MCPServer.cpp:3053 *)
Definition ExecuteLoadLevel : Executor := ChecksArguments "ExecuteLoadLevel".
(** MCPServer.cpp:3067 *)
Definition ExecuteSaveLevel : Executor := IgnoresArguments "ExecuteSaveLevel".
(** MCPServer.cpp:3102 *)
Definition ExecuteStopPIE : Executor := NoArguments "ExecuteStopPIE".
(** MCPServer.cpp:3117 *)
Definition ExecuteSearchAssets : Executor := ChecksArguments "ExecuteSearchAssets".
(** MCPServer.cpp:3154 *)
Definition ExecuteGetAssetInfo : Executor := ChecksArguments "ExecuteGetAssetInfo".
(** MCPServer.cpp:3178 *)
Definition ExecuteLoadAsset : Executor := ChecksArguments "ExecuteLoadAsset".
(** MCPServer.cpp:3199 *)
Definition ExecuteDuplicateAsset : Executor := ChecksArguments "ExecuteDuplicateAsset".
(** MCPServer.cpp:3214 *)
Definition ExecuteRenameAsset : Executor := ChecksArguments "ExecuteRenameAsset".
(** MCPServer.cpp:3229 *)
Definition ExecuteDeleteAsset : Executor := ChecksArguments "ExecuteDeleteAsset".
(** MCPServer.cpp:3243 *)
Definition ExecuteCreateFolder : Executor := ChecksArguments "ExecuteCreateFolder".
(** MCPServer.cpp:3257 *)
Definition ExecuteGetAssetReferences : Executor := ChecksArguments "ExecuteGetAssetReferences".
(** MCPServer.cpp:3300 *)
Definition ExecuteCreateBlueprint : Executor := ChecksArguments "ExecuteCreateBlueprint".
(** MCPServer.cpp:3337 *)
Definition ExecuteGetBlueprintInfo : Executor := ChecksArguments "ExecuteGetBlueprintInfo".
(** MCPServer.cpp:3367 *)
Definition ExecuteCompileBlueprint : Executor := ChecksArguments "ExecuteCompileBlueprint".
(** MCPServer.cpp:3392 *)
Definition ExecuteSpawnBlueprintActor : Executor := ChecksArguments "ExecuteSpawnBlueprintActor".
(** MCPServer.cpp:3427 *)
Definition ExecuteAddBlueprintVariable : Executor := ChecksArguments "ExecuteAddBlueprintVariable".
(** MCPServer.cpp:3487 *)
Definition ExecuteRemoveBlueprintVariable : Executor := ChecksArguments "ExecuteRemoveBlueprintVariable".
(** MCPServer.cpp:3506 *)
Definition ExecuteGetBlueprintVariables : Executor := ChecksArguments "ExecuteGetBlueprintVariables".
(** MCPServer.cpp:3534 *)
Definition ExecuteGetBlueprintFunctions : Executor := ChecksArguments "ExecuteGetBlueprintFunctions".
(** MCPServer.cpp:3574 *)
Definition ExecuteSetBlueprintVariableDefault : Executor := ChecksArguments "ExecuteSetBlueprintVariableDefault".
(** MCPServer.cpp:3606 *)
Definition ExecuteCreateMaterialInstance : Executor := ChecksArguments "ExecuteCreateMaterialInstance".
(** MCPServer.cpp:3640 *)
Definition ExecuteSetMaterialScalar : Executor := ChecksArguments "ExecuteSetMaterialScalar".
(** MCPServer.cpp:3661 *)
Definition ExecuteApplyMaterialToActor : Executor := ChecksArguments "ExecuteApplyMaterialToActor".
(** MCPServer.cpp:3700 *)
Definition ExecuteSetMaterialVector : Executor := ChecksArguments "ExecuteSetMaterialVector".
(** MCPServer.cpp:3725 *)
Definition ExecuteGetMaterialParameters : Executor := ChecksArguments "ExecuteGetMaterialParameters".
(** MCPServer.cpp:3777 *)
Definition ExecuteReplaceActorMaterial : Executor := ChecksArguments "ExecuteReplaceActorMaterial".
(** MCPServer.cpp:3818 *)
Definition ExecuteGetActorMaterials : Executor := ChecksArguments "ExecuteGetActorMaterials".
(** MCPServer.cpp:3857 *)
Definition ExecuteConsoleCommand : Executor := ChecksArguments "ExecuteConsoleCommand".
(** MCPServer.cpp:3871 *)
Definition ExecuteGetProjectInfo : Executor := NoArguments "ExecuteGetProjectInfo".
(** MCPServer.cpp:4406 *)
Definition ExecuteSetSimulatePhysics : Executor := DereferencesArguments "ExecuteSetSimulatePhysics".
(** MCPServer.cpp:4431 *)
Definition ExecuteSetCollisionEnabled : Executor := DereferencesArguments "ExecuteSetCollisionEnabled".
(** MCPServer.cpp:4461 *)
Definition ExecuteSetCollisionProfile : Executor := DereferencesArguments "ExecuteSetCollisionProfile".
(** MCPServer.cpp:4481 *)
Definition ExecuteAddImpulse : Executor := DereferencesArguments "ExecuteAddImpulse".
(** MCPServer.cpp:4510 *)
Definition ExecuteGetPhysicsState : Executor := DereferencesArguments "ExecuteGetPhysicsState".
(** MCPServer.cpp:4556 *)
Definition ExecuteGetEditorPreference : Executor := DereferencesArguments "ExecuteGetEditorPreference".
(** MCPServer.cpp:4576 *)
Definition ExecuteSetEditorPreference : Executor := DereferencesArguments "ExecuteSetEditorPreference".
(** MCPServer.cpp:4588 *)
Definition ExecuteRunEditorUtility : Executor := DereferencesArguments "ExecuteRunEditorUtility".
(** MCPServer.cpp:4622 *)
Definition ExecuteGetEngineInfo : Executor := NoArguments "ExecuteGetEngineInfo".
(** MCPServer.cpp:4662 *)
Definition ExecuteSetViewportBookmark : Executor := DereferencesArguments "ExecuteSetViewportBookmark".
(** MCPServer.cpp:4690 *)
Definition ExecuteJumpToBookmark : Executor := DereferencesArguments "ExecuteJumpToBookmark".
(** MCPServer.cpp:4710 *)
Definition ExecuteClearBookmark : Executor := DereferencesArguments "ExecuteClearBookmark".
(** MCPServer.cpp:4723 *)
Definition ExecuteListBookmarks : Executor := NoArguments "ExecuteListBookmarks".
(** MCPServer.cpp:4758 *)
Definition ExecuteGetActorComponents : Executor := DereferencesArguments "ExecuteGetActorComponents".
(** MCPServer.cpp:4798 *)
Definition ExecuteGetComponentProperties : Executor := DereferencesArguments "ExecuteGetComponentProperties".
(** MCPServer.cpp:4856 *)
Definition ExecuteSetComponentTransform : Executor := DereferencesArguments "ExecuteSetComponentTransform".
(** MCPServer.cpp:4902 *)
Definition ExecuteSetComponentVisibility : Executor := DereferencesArguments "ExecuteSetComponentVisibility".
(** MCPServer.cpp:4934 *)
Definition ExecuteRemoveComponent : Executor := DereferencesArguments "ExecuteRemoveComponent".
(** MCPServer.cpp:5214 *)
Definition ExecutePlayAnimation : Executor := DereferencesArguments "ExecutePlayAnimation".
(** MCPServer.cpp:5243 *)
Definition ExecuteStopAnimation : Executor := DereferencesArguments "ExecuteStopAnimation".
(** MCPServer.cpp:5261 *)
Definition ExecuteGetAnimationList : Executor := DereferencesArguments "ExecuteGetAnimationList".
(** MCPServer.cpp:5311 *)
Definition ExecuteCreateLevelSequence : Executor := DereferencesArguments "ExecuteCreateLevelSequence".
(** MCPServer.cpp:5342 *)
Definition ExecuteAddActorToSequence : Executor := DereferencesArguments "ExecuteAddActorToSequence".
(** MCPServer.cpp:5372 *)
Definition ExecutePlaySequence : Executor := DereferencesArguments "ExecutePlaySequence".
(** MCPServer.cpp:5408 *)
Definition ExecuteStopSequence : Executor := NoArguments "ExecuteStopSequence".
(** MCPServer.cpp:5420 *)
Definition ExecuteSetSequenceTime : Executor := DereferencesArguments "ExecuteSetSequenceTime".
(** MCPServer.cpp:5645 *)
Definition ExecutePlaySoundAtLocation : Executor := DereferencesArguments "ExecutePlaySoundAtLocation".
(** MCPServer.cpp:5669 *)
Definition ExecuteSpawnAudioComponent : Executor := DereferencesArguments "ExecuteSpawnAudioComponent".
(** MCPServer.cpp:5707 *)
Definition ExecuteSetAudioVolume : Executor := DereferencesArguments "ExecuteSetAudioVolume".
(** MCPServer.cpp:5735 *)
Definition ExecuteStopAllSounds : Executor := NoArguments "ExecuteStopAllSounds".
(** MCPServer.cpp:5761 *)
Definition ExecuteGetAudioComponents : Executor := DereferencesArguments "ExecuteGetAudioComponents".
(** MCPServer.cpp:5790 *)
Definition ExecuteSetAudioAttenuation : Executor := DereferencesArguments "ExecuteSetAudioAttenuation".
(** MCPServer.cpp:6006 *)
Definition ExecuteGetLandscapeInfo : Executor := NoArguments "ExecuteGetLandscapeInfo".
(** MCPServer.cpp:6049 *)
Definition ExecuteGetLandscapeHeight : Executor := DereferencesArguments "ExecuteGetLandscapeHeight".
(** MCPServer.cpp:6089 *)
Definition ExecuteGetFoliageTypes : Executor := NoArguments "ExecuteGetFoliageTypes".
(** MCPServer.cpp:6130 *)
Definition ExecuteAddFoliageInstance : Executor := DereferencesArguments "ExecuteAddFoliageInstance".
(** MCPServer.cpp:6192 *)
Definition ExecuteRemoveFoliageInRadius : Executor := DereferencesArguments "ExecuteRemoveFoliageInRadius".
(** MCPServer.cpp:6244 *)
Definition ExecuteGetFoliageCount : Executor := DereferencesArguments "ExecuteGetFoliageCount".

(** [FMCPServer::ExecuteTakeScreenshot] (MCPServer.cpp:2871): the file name
    defaults to ["Screenshot"] when [Args] is null or has no ["filename"].
    (MCPServer_screenshot_fix.cpp holds a replacement for this function, to
    be pasted over it by hand; it picks the file name in the same way.) *)
Definition ExecuteTakeScreenshot : Executor :=
  fun Args w =>
    let Filename :=
      match Args with
      | Some a => if HasField a "filename" then GetStringField a "filename" else "Screenshot"
      | None => "Screenshot"
      end in
    let ScreenshotDir := PathJoin ProjectSavedDir "Screenshots" in
    let FullPath := PathJoin ScreenshotDir Filename +++ ".png" in
    let w := RequestScreenshot FullPath w in
    Returns ("Screenshot requested: " +++ FullPath, w).

(** [FMCPServer::ExecuteStartPIE] (MCPServer.cpp:3084): the mode defaults to
    ["viewport"] when [Args] is null or has no ["mode"]. *)
Definition ExecuteStartPIE : Executor :=
  fun Args w =>
    let Mode :=
      match Args with
      | Some a => if HasField a "mode" then GetStringField a "mode" else "viewport"
      | None => "viewport"
      end in
    let w := RequestPlaySession (ToLower Mode == "new_window") w in
    Returns ("Started Play In Editor (" +++ Mode +++ " mode)", w).

(** The [if / else if] chain of the game-thread task, as the list of its
    branches in source order: the literal compared with [ToolName] and the
    executor the branch calls (MCPServer.cpp:1879-2124). *)
Definition DispatchTable : list (FString * Executor) := [
  ("get_actor_list", ExecuteGetActorList);
  ("spawn_actor", ExecuteSpawnActor);
  ("delete_actor", ExecuteDeleteActor);
  ("get_actor_properties", ExecuteGetActorProperties);
  ("set_actor_property", ExecuteSetActorProperty);
  ("find_actors_by_class", ExecuteFindActorsByClass);
  ("find_actors_by_tag", ExecuteFindActorsByTag);
  ("find_actors_by_name", ExecuteFindActorsByName);
  ("duplicate_actor", ExecuteDuplicateActor);
  ("set_actor_visibility", ExecuteSetActorVisibility);
  ("snap_actor_to_ground", ExecuteSnapActorToGround);
  ("rename_actor", ExecuteRenameActor);
  ("add_actor_tag", ExecuteAddActorTag);
  ("remove_actor_tag", ExecuteRemoveActorTag);
  ("get_actor_tags", ExecuteGetActorTags);
  ("set_actor_mobility", ExecuteSetActorMobility);
  ("get_actor_mobility", ExecuteGetActorMobility);
  ("attach_actor_to_actor", ExecuteAttachActorToActor);
  ("detach_actor", ExecuteDetachActor);
  ("select_actors", ExecuteSelectActors);
  ("get_selected_actors", ExecuteGetSelectedActors);
  ("clear_selection", ExecuteClearSelection);
  ("focus_on_actor", ExecuteFocusOnActor);
  ("get_viewport_camera", ExecuteGetViewportCamera);
  ("set_viewport_camera", ExecuteSetViewportCamera);
  ("take_screenshot", ExecuteTakeScreenshot);
  ("set_view_mode", ExecuteSetViewMode);
  ("get_view_mode", ExecuteGetViewMode);
  ("pilot_actor", ExecutePilotActor);
  ("stop_piloting", ExecuteStopPiloting);
  ("set_viewport_realtime", ExecuteSetViewportRealtime);
  ("set_viewport_stats", ExecuteSetViewportStats);
  ("get_current_level", ExecuteGetCurrentLevel);
  ("load_level", ExecuteLoadLevel);
  ("save_level", ExecuteSaveLevel);
  ("start_pie", ExecuteStartPIE);
  ("stop_pie", ExecuteStopPIE);
  ("search_assets", ExecuteSearchAssets);
  ("get_asset_info", ExecuteGetAssetInfo);
  ("load_asset", ExecuteLoadAsset);
  ("duplicate_asset", ExecuteDuplicateAsset);
  ("rename_asset", ExecuteRenameAsset);
  ("delete_asset", ExecuteDeleteAsset);
  ("create_folder", ExecuteCreateFolder);
  ("get_asset_references", ExecuteGetAssetReferences);
  ("create_blueprint", ExecuteCreateBlueprint);
  ("get_blueprint_info", ExecuteGetBlueprintInfo);
  ("compile_blueprint", ExecuteCompileBlueprint);
  ("spawn_blueprint_actor", ExecuteSpawnBlueprintActor);
  ("add_blueprint_variable", ExecuteAddBlueprintVariable);
  ("remove_blueprint_variable", ExecuteRemoveBlueprintVariable);
  ("get_blueprint_variables", ExecuteGetBlueprintVariables);
  ("get_blueprint_functions", ExecuteGetBlueprintFunctions);
  ("set_blueprint_variable_default", ExecuteSetBlueprintVariableDefault);
  ("create_material_instance", ExecuteCreateMaterialInstance);
  ("set_material_scalar", ExecuteSetMaterialScalar);
  ("apply_material_to_actor", ExecuteApplyMaterialToActor);
  ("set_material_vector", ExecuteSetMaterialVector);
  ("get_material_parameters", ExecuteGetMaterialParameters);
  ("replace_actor_material", ExecuteReplaceActorMaterial);
  ("get_actor_materials", ExecuteGetActorMaterials);
  ("execute_console_command", ExecuteConsoleCommand);
  ("get_project_info", ExecuteGetProjectInfo);
  ("set_simulate_physics", ExecuteSetSimulatePhysics);
  ("set_collision_enabled", ExecuteSetCollisionEnabled);
  ("set_collision_profile", ExecuteSetCollisionProfile);
  ("add_impulse", ExecuteAddImpulse);
  ("get_physics_state", ExecuteGetPhysicsState);
  ("get_editor_preference", ExecuteGetEditorPreference);
  ("set_editor_preference", ExecuteSetEditorPreference);
  ("run_editor_utility", ExecuteRunEditorUtility);
  ("get_engine_info", ExecuteGetEngineInfo);
  ("set_viewport_bookmark", ExecuteSetViewportBookmark);
  ("jump_to_bookmark", ExecuteJumpToBookmark);
  ("clear_bookmark", ExecuteClearBookmark);
  ("list_bookmarks", ExecuteListBookmarks);
  ("get_actor_components", ExecuteGetActorComponents);
  ("get_component_properties", ExecuteGetComponentProperties);
  ("set_component_transform", ExecuteSetComponentTransform);
  ("set_component_visibility", ExecuteSetComponentVisibility);
  ("remove_component", ExecuteRemoveComponent);
  ("play_animation", ExecutePlayAnimation);
  ("stop_animation", ExecuteStopAnimation);
  ("get_animation_list", ExecuteGetAnimationList);
  ("create_level_sequence", ExecuteCreateLevelSequence);
  ("add_actor_to_sequence", ExecuteAddActorToSequence);
  ("play_sequence", ExecutePlaySequence);
  ("stop_sequence", ExecuteStopSequence);
  ("set_sequence_time", ExecuteSetSequenceTime);
  ("play_sound_at_location", ExecutePlaySoundAtLocation);
  ("spawn_audio_component", ExecuteSpawnAudioComponent);
  ("set_audio_volume", ExecuteSetAudioVolume);
  ("stop_all_sounds", ExecuteStopAllSounds);
  ("get_audio_components", ExecuteGetAudioComponents);
  ("set_audio_attenuation", ExecuteSetAudioAttenuation);
  ("get_landscape_info", ExecuteGetLandscapeInfo);
  ("get_landscape_height", ExecuteGetLandscapeHeight);
  ("get_foliage_types", ExecuteGetFoliageTypes);
  ("add_foliage_instance", ExecuteAddFoliageInstance);
  ("remove_foliage_in_radius", ExecuteRemoveFoliageInRadius);
  ("get_foliage_count", ExecuteGetFoliageCount)
].


(** The literals of the branches whose executor reads [Args->] in its first
    statement and never tests [Args.IsValid()]. *)
Definition UncheckedTools : list FString :=
  ["set_simulate_physics"; "set_collision_enabled"; "set_collision_profile"; "add_impulse";
   "get_physics_state"; "get_editor_preference"; "set_editor_preference";
   "run_editor_utility"; "set_viewport_bookmark"; "jump_to_bookmark"; "clear_bookmark";
   "get_actor_components"; "get_component_properties"; "set_component_transform";
   "set_component_visibility"; "remove_component"; "play_animation"; "stop_animation";
   "get_animation_list"; "create_level_sequence"; "add_actor_to_sequence"; "play_sequence";
   "set_sequence_time"; "play_sound_at_location"; "spawn_audio_component";
   "set_audio_volume"; "get_audio_components"; "set_audio_attenuation";
   "get_landscape_height"; "add_foliage_instance"; "remove_foliage_in_radius";
   "get_foliage_count"].

(** The chain itself: the first branch whose literal equals [ToolName] runs;
    the final [else] answers ["Unknown tool: " + ToolName]. *)
Fixpoint Dispatch (branches : list (FString * Executor)) (ToolName : FString)
  (Args : TSharedPtr FJsonObject) : Game FString :=
  match branches with
  | [] => fun w => Returns ("Unknown tool: " +++ ToolName, w)
  | (Literal, Execute) :: rest =>
      if ToolName == Literal then Execute Args else Dispatch rest ToolName Args
  end.

(** The closure [HandleToolsCall] hands to [AsyncTask(ENamedThreads::GameThread, ...)],
    up to the assignment of [ResultText]. *)
Definition GameThreadTask (ToolName : FString) (Args : TSharedPtr FJsonObject) : Game FString :=
  Dispatch DispatchTable ToolName Args.

(** The methods [ProcessMessage] has a branch for. *)
Definition SupportedMethod (Method : FString) : bool :=
  (Method == "initialize") || (Method == "tools/list") || (Method == "tools/call")
  || (Method == "notifications/initialized").

(** Whether the chain has a branch for [ToolName]. *)
Definition Dispatchable (ToolName : FString) : bool :=
  existsb (fun branch => ToolName == fst branch) DispatchTable.

(** What the network thread has handed to the game thread. *)
Record Task : Type := {
  TaskToolName : FString;
  TaskArgs : TSharedPtr FJsonObject
}.

(** The state a message is processed in: the editor world, and the tasks
    submitted to the game thread so far, oldest first. *)
Record Bridge : Type := {
  GameWorld : World;
  Submitted : list Task
}.

(** The [result] object of a [tools/call] reply. *)
Definition ToolsCallResult (ResultText : FString) : FJsonObject :=
  let Result := MakeShared in
  let Content := [] in
  let TextContent := MakeShared in
  let TextContent := SetStringField TextContent "type" "text" in
  let TextContent := SetStringField TextContent "text" ResultText in
  let Content := Content ++ [FJsonValueObject TextContent] in
  let Result := SetArrayField Result "content" Content in
  Result.

(** [FMCPServer::HandleToolsCall]: the task is submitted, the network thread
    waits for the completion event, then builds the reply from [ResultText].
    The task runs to its end on the game thread in between. *)
Definition HandleToolsCall (Id : int32) (Params : TSharedPtr FJsonObject) (b : Bridge)
  : Outcome (FString * Bridge) :=
  match Params with
  | None => Returns (CreateErrorResponse Id (-32602) "Invalid params", b)
  | Some P =>
      let ToolName := GetStringField P "name" in
      let Args := GetObjectField P "arguments" in
      let task := {| TaskToolName := ToolName; TaskArgs := Args |} in
      match GameThreadTask ToolName Args (GameWorld b) with
      | Faulted => Faulted
      | Returns (ResultText, w) =>
          Returns (CreateSuccessResponse Id (ToolsCallResult ResultText),
                   {| GameWorld := w; Submitted := Submitted b ++ [task] |})
      end
  end.

(** [int32 Id = 0; JsonObject->TryGetNumberField(TEXT("id"), Id);]. *)
Definition RequestId (JsonObject : FJsonObject) : int32 :=
  match TryGetNumberField JsonObject "id" with
  | Some n => n
  | None => 0%Z
  end.

(** [FMCPServer::ProcessMessage]; the empty string means that nothing is to be
    sent. *)
Definition ProcessMessage (Message : FString) (b : Bridge) : Outcome (FString * Bridge) :=
  match Deserialize Message with
  | None => Returns (CreateErrorResponse 0 (-32700) "Parse error", b)
  | Some JsonObject =>
      match TryGetStringField JsonObject "method" with
      | None => Returns (CreateErrorResponse 0 (-32600) "Invalid Request", b)
      | Some Method =>
          let Id := RequestId JsonObject in
          if Method == "initialize" then Returns (HandleInitialize Id, b)
          else if Method == "tools/list" then Returns (HandleToolsList Id, b)
          else if Method == "tools/call" then
            let Params := GetObjectField JsonObject "params" in
            HandleToolsCall Id Params b
          else if Method == "notifications/initialized" then Returns (EmptyString, b)
          else Returns (CreateErrorResponse Id (-32601) "Method not found", b)
      end
  end.

(** ** The server loop *)

(** A client socket handle, as [Accept] hands them out. *)
Definition FSocket : Type := nat.

(** What the loop does to client sockets, in order. *)
Inductive SocketOp : Type :=
| OpAccept (s : FSocket)
| OpClose (s : FSocket)
| OpDestroy (s : FSocket)
| OpSend (s : FSocket) (Data : FString).

(** The server between two iterations of the loop of [Run]: the member
    [ClientSocket] ([None] is [nullptr]), the client sockets the socket
    subsystem holds (accepted and not destroyed), the next handle [Accept]
    will return, what was done to the sockets so far, and the bridge state.
    The server keeps no bytes between reads: [Buffer] and [Message] are
    locals of one iteration. *)
Record Server : Type := {
  ClientSocket : option FSocket;
  LiveSockets : list FSocket;
  NextSocket : FSocket;
  SocketLog : list SocketOp;
  ServerBridge : Bridge
}.

(** What the listener reports in one iteration: no pending connection, a
    pending connection for which [Accept] returns null, or a pending
    connection that [Accept] turns into a new socket. *)
Inductive ListenerEvent : Type :=
| NoPendingConnection
| AcceptReturnsNull
| AcceptReturnsSocket.

(** What the client socket reports in one iteration: pending data, with the
    result of [Recv] and the text [Message] that the iteration makes of the
    bytes received, or no pending data and whether the socket is still
    connected. *)
Inductive ClientEvent : Type :=
| PendingData (RecvSucceeds : bool) (Message : FString)
| NoPendingData (Connected : bool).

Record LoopEvent : Type := {
  OnListener : ListenerEvent;
  OnClient : ClientEvent
}.

Definition remove_socket (s : FSocket) (l : list FSocket) : list FSocket :=
  filter (fun x => negb (Nat.eqb x s)) l.

(** The accept step of the loop body (MCPServer.cpp:212-228). *)
Definition AcceptConnection (e : ListenerEvent) (s : Server) : Server :=
  match e with
  | NoPendingConnection => s
  | AcceptReturnsNull => s
  | AcceptReturnsSocket =>
      let NewSocket := NextSocket s in
      let live := LiveSockets s ++ [NewSocket] in
      let log := SocketLog s ++ [OpAccept NewSocket] in
      match ClientSocket s with
      | Some Old =>
          {| ClientSocket := Some NewSocket;
             LiveSockets := remove_socket Old live;
             NextSocket := S NewSocket;
             SocketLog := log ++ [OpClose Old; OpDestroy Old];
             ServerBridge := ServerBridge s |}
      | None =>
          {| ClientSocket := Some NewSocket;
             LiveSockets := live;
             NextSocket := S NewSocket;
             SocketLog := log;
             ServerBridge := ServerBridge s |}
      end
  end.

(** The loop over [Messages] (MCPServer.cpp:246-258): each frame is
    processed, and a reply that is not empty is sent with a newline
    appended.  The result is the list of sends and the bridge state. *)
Fixpoint ProcessFrames (Client : FSocket) (Messages : list FString) (b : Bridge)
  : Outcome (list SocketOp * Bridge) :=
  match Messages with
  | [] => Returns ([], b)
  | Msg :: rest =>
      if IsEmpty Msg then ProcessFrames Client rest b
      else
        match ProcessMessage Msg b with
        | Faulted => Faulted
        | Returns (Response, b1) =>
            let sent :=
              if negb (IsEmpty Response)
              then [OpSend Client (Response +++ String LF EmptyString)]
              else [] in
            match ProcessFrames Client rest b1 with
            | Faulted => Faulted
            | Returns (more, b2) => Returns (sent ++ more, b2)
            end
        end
  end.

(** The frames of one read. *)
Definition FramesOfRead (Message : FString) : list FString :=
  ParseIntoArray Message LF true.

(** The server after the sends [sent], with the bridge in state [b]. *)
Definition AfterTraffic (s : Server) (sent : list SocketOp) (b : Bridge) : Server :=
  {| ClientSocket := ClientSocket s;
     LiveSockets := LiveSockets s;
     NextSocket := NextSocket s;
     SocketLog := SocketLog s ++ sent;
     ServerBridge := b |}.

(** The client step of the loop body (MCPServer.cpp:230-271). *)
Definition ServeClient (e : ClientEvent) (s : Server) : Outcome Server :=
  match ClientSocket s with
  | None => Returns s
  | Some Client =>
      match e with
      | PendingData false _ => Returns s
      | PendingData true Message =>
          match ProcessFrames Client (FramesOfRead Message) (ServerBridge s) with
          | Faulted => Faulted
          | Returns (sent, b) => Returns (AfterTraffic s sent b)
          end
      | NoPendingData true => Returns s
      | NoPendingData false =>
          Returns {| ClientSocket := None;
                     LiveSockets := remove_socket Client (LiveSockets s);
                     NextSocket := NextSocket s;
                     SocketLog := SocketLog s ++ [OpDestroy Client];
                     ServerBridge := ServerBridge s |}
      end
  end.

(** One iteration of the [while (!bShouldStop)] loop of [FMCPServer::Run]. *)
Definition RunIteration (e : LoopEvent) (s : Server) : Outcome Server :=
  ServeClient (OnClient e) (AcceptConnection (OnListener e) s).

(** The loop over a sequence of events; a fault ends it. *)
Fixpoint RunLoop (events : list LoopEvent) (s : Server) : Outcome Server :=
  match events with
  | [] => Returns s
  | e :: rest =>
      match RunIteration e s with
      | Faulted => Faulted
      | Returns s1 => RunLoop rest s1
      end
  end.

(** The server when [Run] starts: no client. *)
Definition InitialServer (w : World) : Server :=
  {| ClientSocket := None;
     LiveSockets := [];
     NextSocket := 0;
     SocketLog := [];
     ServerBridge := {| GameWorld := w; Submitted := [] |} |}.

(** The loop events in which nothing is pending on the listener and the
    client socket delivers [Message]. *)
Definition ReadEvent (Message : FString) : LoopEvent :=
  {| OnListener := NoPendingConnection; OnClient := PendingData true Message |}.

(** The client sockets the subsystem holds are exactly the one the server
    points to, if any. *)
Definition OneClient (s : Server) : Prop :=
  LiveSockets s = match ClientSocket s with Some c => [c] | None => [] end
  /\ Forall (fun x => x < NextSocket s) (LiveSockets s).

(** What was sent, in order. *)
Fixpoint SentData (log : list SocketOp) : list FString :=
  match log with
  | [] => []
  | OpSend _ d :: rest => d :: SentData rest
  | _ :: rest => SentData rest
  end.

(** ** The rendezvous between the network thread and the game thread

    [HandleToolsCall] runs on the network thread and the closure it submits
    runs on the game thread.  The two are modelled as two sequential
    programs that take turns under an arbitrary schedule:

    - network thread, at the entry of [HandleToolsCall] with valid params:
      declares [ResultText], takes [CompletionEvent] from the pool (not
      signalled), queues the closure with [AsyncTask] and reaches
      [CompletionEvent->Wait()] (MCPServer.cpp:1869-1874);
    - game thread, idle with a queued closure: runs the chain, which assigns
      [ResultText] (MCPServer.cpp:1879-2126);
    - game thread, after the assignment: [CompletionEvent->Trigger()]
      (MCPServer.cpp:2128);
    - network thread, at [Wait()] with the event signalled: returns from
      [Wait()] and builds the reply from [ResultText]
      (MCPServer.cpp:2131-2145).

    [Wait()] is called without a timeout: at [Wait()] with the event not
    signalled the network thread has no step. *)

Inductive Thread : Type :=
| NetworkThread
| GameThread.

Inductive NetworkPC : Type :=
| NetOutside
| NetAtWait (t : Task).

Inductive GamePC : Type :=
| GameIdle
| GameBeforeTrigger.

(** The state of the rendezvous: the calls the network thread has still to
    make, where each thread stands, the queue of the game thread, whether
    [CompletionEvent] is signalled, the local [ResultText] of the call in
    progress with the number of assignments made to it since it was
    declared, the editor world, and the calls that have returned, each with
    the text it read from [ResultText]. *)
Record Rendezvous : Type := {
  Calls : list Task;
  Net : NetworkPC;
  Queue : list Task;
  OnGameThread : GamePC;
  Signalled : bool;
  ResultText : FString;
  Writes : nat;
  EditorWorld : World;
  Completed : list (Task * FString)
}.

(** One step of a thread, when it has one. *)
Definition ThreadStep (th : Thread) (s : Rendezvous) : option Rendezvous :=
  match th with
  | NetworkThread =>
      match Net s with
      | NetOutside =>
          match Calls s with
          | [] => None
          | t :: rest =>
              Some {| Calls := rest;
                      Net := NetAtWait t;
                      Queue := Queue s ++ [t];
                      OnGameThread := OnGameThread s;
                      Signalled := false;
                      ResultText := EmptyString;
                      Writes := 0;
                      EditorWorld := EditorWorld s;
                      Completed := Completed s |}
          end
      | NetAtWait t =>
          if Signalled s then
            Some {| Calls := Calls s;
                    Net := NetOutside;
                    Queue := Queue s;
                    OnGameThread := OnGameThread s;
                    Signalled := Signalled s;
                    ResultText := ResultText s;
                    Writes := Writes s;
                    EditorWorld := EditorWorld s;
                    Completed := Completed s ++ [(t, ResultText s)] |}
          else None
      end
  | GameThread =>
      match OnGameThread s with
      | GameIdle =>
          match Queue s with
          | [] => None
          | t :: rest =>
              match GameThreadTask (TaskToolName t) (TaskArgs t) (EditorWorld s) with
              | Faulted => None
              | Returns (text, w) =>
                  Some {| Calls := Calls s;
                          Net := Net s;
                          Queue := rest;
                          OnGameThread := GameBeforeTrigger;
                          Signalled := Signalled s;
                          ResultText := text;
                          Writes := S (Writes s);
                          EditorWorld := w;
                          Completed := Completed s |}
              end
          end
      | GameBeforeTrigger =>
          Some {| Calls := Calls s;
                  Net := Net s;
                  Queue := Queue s;
                  OnGameThread := GameIdle;
                  Signalled := true;
                  ResultText := ResultText s;
                  Writes := Writes s;
                  EditorWorld := EditorWorld s;
                  Completed := Completed s |}
      end
  end.

(** A schedule names the thread that moves at each turn; a turn of a thread
    that has no step leaves the state as it is. *)
Fixpoint RunSchedule (schedule : list Thread) (s : Rendezvous) : Rendezvous :=
  match schedule with
  | [] => s
  | th :: rest =>
      match ThreadStep th s with
      | Some s1 => RunSchedule rest s1
      | None => RunSchedule rest s
      end
  end.

(** The network thread about to make the calls [calls], one after the
    other, nothing queued. *)
Definition RendezvousStart (calls : list Task) (w : World) : Rendezvous :=
  {| Calls := calls;
     Net := NetOutside;
     Queue := [];
     OnGameThread := GameIdle;
     Signalled := false;
     ResultText := EmptyString;
     Writes := 0;
     EditorWorld := w;
     Completed := [] |}.

(** The closures of this bridge that are queued or running. *)
Definition InPrivilegedContext (s : Rendezvous) : nat :=
  List.length (Queue s) + match OnGameThread s with GameIdle => 0 | GameBeforeTrigger => 1 end.

(** [ResultText] holds what the chain returned for task [t], and the world
    is the one that run left. *)
Definition ResultOf (t : Task) (s : Rendezvous) : Prop :=
  exists w0, GameThreadTask (TaskToolName t) (TaskArgs t) w0
             = Returns (ResultText s, EditorWorld s).

(** The states the rendezvous can be in: outside a call nothing of this
    bridge is queued or running; inside a call the closure is either queued
    and [ResultText] untouched, or has assigned [ResultText] once and not yet
    signalled, or has signalled. *)
Definition RendezvousInvariant (s : Rendezvous) : Prop :=
  match Net s with
  | NetOutside => Queue s = [] /\ OnGameThread s = GameIdle /\ Writes s <= 1
  | NetAtWait t =>
      (Queue s = [t] /\ OnGameThread s = GameIdle /\ Signalled s = false /\ Writes s = 0)
      \/ (Queue s = [] /\ OnGameThread s = GameBeforeTrigger /\ Signalled s = false
          /\ Writes s = 1 /\ ResultOf t s)
      \/ (Queue s = [] /\ OnGameThread s = GameIdle /\ Signalled s = true
          /\ Writes s = 1 /\ ResultOf t s)
  end.

(** The schedule that lets one call run to its end: submit, run, trigger,
    resume. *)
Definition OneCall : list Thread := [NetworkThread; GameThread; GameThread; NetworkThread].

End Server.


(** ** Starting and stopping the server

    [FMCPServer::FMCPServer], [FMCPServer::Start] and [FMCPServer::Stop]
    (MCPServer.cpp), and the functions of [FUE5MCPBridgeModule] that call
    them (UE5MCPBridge.cpp).  Log lines, menus and notifications are left
    out.  The socket subsystem is outside the plugin: what it answers during
    a call is an argument of the call. *)

Section Lifecycle.

Context {Json : JsonEngine} {Host : EditorHost}.

(** What the platform answers during one call of [Start]: whether
    [ISocketSubsystem::Get] finds the subsystem, the socket [CreateSocket]
    returns ([None] is null), the results of [Bind] and [Listen(1)], and
    whether [FRunnableThread::Create] returns a thread. *)
Record SubsystemAnswers : Type := {
  SubsystemFound : bool;
  CreateSocket : option FSocket;
  BindSucceeds : bool;
  ListenSucceeds : bool;
  ThreadCreated : bool
}.

(** The members of [FMCPServer] that [Start], [Stop] and [Run] use.
    [ClientSocket] is in [Connection], the state the loop of [Run] works
    on; [OpenListeners] are the listener sockets the subsystem holds
    (created and not destroyed); [ServerThread] tells whether [Thread]
    points to a thread. *)
Record FMCPServer : Type := {
  ListenerSocket : option FSocket;
  OpenListeners : list FSocket;
  Connection : Server;
  ServerPort : int32;
  bIsRunning : bool;
  bShouldStop : bool;
  ServerThread : bool
}.

(** [FMCPServer::FMCPServer]; [w] is the editor world the server's tasks
    will run in. *)
Definition FMCPServer_new (w : World) : FMCPServer :=
  {| ListenerSocket := None;
     OpenListeners := [];
     Connection := InitialServer w;
     ServerPort := 55557;
     bIsRunning := false;
     bShouldStop := false;
     ServerThread := false |}.

(** [FMCPServer::IsRunning]. *)
Definition IsRunning (s : FMCPServer) : bool := bIsRunning s.

(** [FMCPServer::GetPort]. *)
Definition GetPort (s : FMCPServer) : int32 := ServerPort s.

(** The server with its listener pointer and the subsystem's listeners
    replaced. *)
Definition WithListener (Listener : option FSocket) (held : list FSocket) (s : FMCPServer)
  : FMCPServer :=
  {| ListenerSocket := Listener;
     OpenListeners := held;
     Connection := Connection s;
     ServerPort := ServerPort s;
     bIsRunning := bIsRunning s;
     bShouldStop := bShouldStop s;
     ServerThread := ServerThread s |}.

(** [FMCPServer::Start]: the value returned and the server left. *)
Definition Start (Port : int32) (a : SubsystemAnswers) (s : FMCPServer) : bool * FMCPServer :=
  if bIsRunning s then (false, s)
  else
    let s :=
      {| ListenerSocket := ListenerSocket s;
         OpenListeners := OpenListeners s;
         Connection := Connection s;
         ServerPort := Port;
         bIsRunning := bIsRunning s;
         bShouldStop := false;
         ServerThread := ServerThread s |} in
    if negb (SubsystemFound a) then (false, s)
    else
      match CreateSocket a with
      | None => (false, WithListener None (OpenListeners s) s)
      | Some Listener =>
          let held := OpenListeners s ++ [Listener] in
          if negb (BindSucceeds a)
          then (false, WithListener None (remove_socket Listener held) s)
          else if negb (ListenSucceeds a)
          then (false, WithListener None (remove_socket Listener held) s)
          else
            (true,
             {| ListenerSocket := Some Listener;
                OpenListeners := held;
                Connection := Connection s;
                ServerPort := ServerPort s;
                bIsRunning := true;
                bShouldStop := bShouldStop s;
                ServerThread := ThreadCreated a |})
      end.

(** The first block of [Stop] (MCPServer.cpp:177-182): the client socket is
    closed and destroyed.  [DestroySocket] is called through the pointer
    [ISocketSubsystem::Get] returned, which the function does not test. *)
Definition StopClient (SocketSubsystem : bool) (c : Server) : Outcome Server :=
  match ClientSocket c with
  | None => Returns c
  | Some Client =>
      if SocketSubsystem
      then Returns {| ClientSocket := None;
                      LiveSockets := remove_socket Client (LiveSockets c);
                      NextSocket := NextSocket c;
                      SocketLog := SocketLog c ++ [OpClose Client; OpDestroy Client];
                      ServerBridge := ServerBridge c |}
      else Faulted
  end.

(** [FMCPServer::Stop]; [SocketSubsystem] tells whether
    [ISocketSubsystem::Get] finds the subsystem. *)
Definition Stop (SocketSubsystem : bool) (s : FMCPServer) : Outcome FMCPServer :=
  match StopClient SocketSubsystem (Connection s) with
  | Faulted => Faulted
  | Returns c =>
      match ListenerSocket s with
      | None =>
          Returns {| ListenerSocket := None;
                     OpenListeners := OpenListeners s;
                     Connection := c;
                     ServerPort := ServerPort s;
                     bIsRunning := false;
                     bShouldStop := true;
                     ServerThread := false |}
      | Some Listener =>
          if SocketSubsystem
          then Returns {| ListenerSocket := None;
                          OpenListeners := remove_socket Listener (OpenListeners s);
                          Connection := c;
                          ServerPort := ServerPort s;
                          bIsRunning := false;
                          bShouldStop := true;
                          ServerThread := false |}
          else Faulted
      end
  end.

(** What happens to a server object, in order: a call of [Start], a call of
    [Stop], or one iteration of the loop of [Run] that completes between
    two such calls.  The loop runs on the thread [Start] created, while
    [bShouldStop] is false. *)
Inductive LifecycleCall : Type :=
| CallStart (Port : int32) (a : SubsystemAnswers)
| CallStop (SocketSubsystem : bool)
| LoopIteration (e : LoopEvent).

Definition LifecycleStep (c : LifecycleCall) (s : FMCPServer) : Outcome FMCPServer :=
  match c with
  | CallStart Port a => Returns (snd (Start Port a s))
  | CallStop SocketSubsystem => Stop SocketSubsystem s
  | LoopIteration e =>
      if ServerThread s && negb (bShouldStop s)
      then
        match RunIteration e (Connection s) with
        | Faulted => Faulted
        | Returns c1 =>
            Returns {| ListenerSocket := ListenerSocket s;
                       OpenListeners := OpenListeners s;
                       Connection := c1;
                       ServerPort := ServerPort s;
                       bIsRunning := bIsRunning s;
                       bShouldStop := bShouldStop s;
                       ServerThread := ServerThread s |}
        end
      else Returns s
  end.

Fixpoint Lifecycle (calls : list LifecycleCall) (s : FMCPServer) : Outcome FMCPServer :=
  match calls with
  | [] => Returns s
  | c :: rest =>
      match LifecycleStep c s with
      | Faulted => Faulted
      | Returns s1 => Lifecycle rest s1
      end
  end.

(** The sockets a pointer accounts for. *)
Definition PointedTo (p : option FSocket) : list FSocket :=
  match p with
  | Some x => [x]
  | None => []
  end.

(** Every socket the subsystem holds for the server is one the server
    points to, the server counts as running exactly while it has a
    listener, the loop runs only on a running server, and a server that is
    not running has no client. *)
Definition Accounted (s : FMCPServer) : Prop :=
  OpenListeners s = PointedTo (ListenerSocket s)
  /\ bIsRunning s = IsValid (ListenerSocket s)
  /\ (ServerThread s = true -> bIsRunning s = true)
  /\ (bIsRunning s = true -> bShouldStop s = false)
  /\ OneClient (Connection s)
  /\ (bIsRunning s = false -> ClientSocket (Connection s) = None).

(** The platform answers with which [Start] goes through. *)
Definition Cooperates (a : SubsystemAnswers) : bool :=
  SubsystemFound a && IsValid (CreateSocket a) && BindSucceeds a && ListenSucceeds a.


(** *** The module

    [FUE5MCPBridgeModule] holds the server in [MCPServer], a shared pointer
    that is null before [StartupModule] and after [ShutdownModule]. *)

(** [FUE5MCPBridgeModule::IsServerRunning]. *)
Definition IsServerRunning (MCPServer : TSharedPtr FMCPServer) : bool :=
  match MCPServer with
  | Some s => IsRunning s
  | None => false
  end.

(** [FUE5MCPBridgeModule::GetServerPort]. *)
Definition GetServerPort (MCPServer : TSharedPtr FMCPServer) : int32 :=
  match MCPServer with
  | Some s => GetPort s
  | None => 0
  end.


(** [FUE5MCPBridgeModule::StartServer]: the value returned and the pointer
    left. *)
Definition StartServer (Port : int32) (w : World) (SocketSubsystem : bool)
  (a : SubsystemAnswers) (MCPServer : TSharedPtr FMCPServer)
  : Outcome (bool * TSharedPtr FMCPServer) :=
  let s := match MCPServer with
           | Some s => s
           | None => FMCPServer_new w
           end in
  match (if IsRunning s then Stop SocketSubsystem s else Returns s) with
  | Faulted => Faulted
  | Returns s1 =>
      let (started, s2) := Start Port a s1 in
      Returns (started, Some s2)
  end.

(** [FUE5MCPBridgeModule::StopServer]. *)
Definition StopServer (SocketSubsystem : bool) (MCPServer : TSharedPtr FMCPServer)
  : Outcome (TSharedPtr FMCPServer) :=
  match MCPServer with
  | None => Returns None
  | Some s =>
      match Stop SocketSubsystem s with
      | Faulted => Faulted
      | Returns s1 => Returns (Some s1)
      end
  end.

(** [FUE5MCPBridgeModule::RestartServer]. *)
Definition RestartServer (w : World) (SocketSubsystem : bool) (a : SubsystemAnswers)
  (MCPServer : TSharedPtr FMCPServer) : Outcome (bool * TSharedPtr FMCPServer) :=
  let Port := GetServerPort MCPServer in
  let Port := if (Port =? 0)%Z then 55557%Z else Port in
  match StopServer SocketSubsystem MCPServer with
  | Faulted => Faulted
  | Returns MCPServer1 => StartServer Port w SocketSubsystem a MCPServer1
  end.




End Lifecycle.

(** ** Viewport bookmarks

    The bodies of [ExecuteSetViewportBookmark], [ExecuteJumpToBookmark],
    [ExecuteClearBookmark] and [ExecuteListBookmarks] (MCPServer.cpp), which
    work on the member [ViewportBookmarks] and on the editor's current
    viewport client.  They are kept in a module of their own: the dispatch
    chain above knows these executors by the same names, as calls into the
    editor. *)

Module Bookmarks.

(** What these bodies take from the engine: the type of a coordinate
    ([double]), rotators, the text [Printf] gives for [%.1f], and the
    number accessor with its cast, [(int32)Args->GetNumberField(...)]. *)
Class ViewportEngine : Type := {
  double : Type;
  FRotator : Type;
  PrintfTenths : double -> FString;
  GetNumberFieldInt32 : FJsonObject -> FString -> int32
}.

Section Executors.

Context {Json : JsonEngine} {Engine : ViewportEngine}.

Record FVector : Type := {
  X : double;
  Y : double;
  Z : double
}.

(** [FViewportBookmark] (MCPServer.h).  [Location] and [Rotation] have no
    initializer: [None] is a member that was never assigned. *)
Record FViewportBookmark : Type := {
  bIsSet : bool;
  Location : option FVector;
  Rotation : option FRotator;
  Name : FString
}.

(** A default-constructed [FViewportBookmark]. *)
Definition FViewportBookmark_new : FViewportBookmark :=
  {| bIsSet := false; Location := None; Rotation := None; Name := EmptyString |}.

(** The camera of a viewport client: what [GetViewLocation] and
    [GetViewRotation] return and [SetViewLocation] and [SetViewRotation]
    replace. *)
Record FViewportClient : Type := {
  GetViewLocation : FVector;
  GetViewRotation : FRotator
}.

(** What the bookmark executors work on: the member [ViewportBookmarks] and
    the global [GCurrentLevelEditingViewportClient] ([None] is null). *)
Record Editor : Type := {
  ViewportBookmarks : list FViewportBookmark;
  GCurrentLevelEditingViewportClient : option FViewportClient
}.

(** The editor when the server object is made: no bookmark storage yet. *)
Definition Editor_new (Client : option FViewportClient) : Editor :=
  {| ViewportBookmarks := []; GCurrentLevelEditingViewportClient := Client |}.

(** [TArray::Num]. *)
Definition Num (Array : list FViewportBookmark) : int32 := Z.of_nat (List.length Array).

(** [TArray::SetNum]: cut to [NewNum] elements, or filled up with
    default-constructed ones. *)
Definition SetNum (NewNum : nat) (Array : list FViewportBookmark) : list FViewportBookmark :=
  firstn NewNum Array ++ repeat FViewportBookmark_new (NewNum - List.length Array).

(** [if (ViewportBookmarks.Num() < 10) ViewportBookmarks.SetNum(10);], the
    first statement of [ExecuteListBookmarks] and the third of
    [ExecuteSetViewportBookmark]. *)
Definition Allocated (Array : list FViewportBookmark) : list FViewportBookmark :=
  if (Num Array <? 10)%Z then SetNum 10 Array else Array.

(** [Array[Index]] read; [None] when the index is out of range, where
    [TArray::operator[]] stops the process. *)
Definition Element (Array : list FViewportBookmark) (Index : int32) : option FViewportBookmark :=
  if (Index <? 0)%Z then None else nth_error Array (Z.to_nat Index).

(** The array with element [n] replaced; [None] when out of range. *)
Fixpoint Replace (Array : list FViewportBookmark) (n : nat) (b : FViewportBookmark)
  : option (list FViewportBookmark) :=
  match Array, n with
  | [], _ => None
  | _ :: rest, O => Some (b :: rest)
  | x :: rest, S m =>
      match Replace rest m b with
      | Some rest' => Some (x :: rest')
      | None => None
      end
  end.

(** [Array[Index] = b]. *)
Definition Assign (Array : list FViewportBookmark) (Index : int32) (b : FViewportBookmark)
  : option (list FViewportBookmark) :=
  if (Index <? 0)%Z then None else Replace Array (Z.to_nat Index) b.

(** [FMath::Clamp]. *)
Definition Clamp (Value Min Max : int32) : int32 :=
  if (Value <? Min)%Z then Min else if (Value <? Max)%Z then Value else Max.

(** What [Printf] gives for [%d]. *)
Definition PrintfInt (n : int32) : FString := NilZero.string_of_int (Z.to_int n).

(** [TEXT("\n")]. *)
Definition Newline : FString := String LF EmptyString.

(** [FMath::Clamp((int32)Args->GetNumberField(TEXT("slot")), 0, 9)]. *)
Definition SlotOf (Args : FJsonObject) : int32 :=
  Clamp (GetNumberFieldInt32 Args "slot") 0 9.

(** The name [ExecuteSetViewportBookmark] stores. *)
Definition NameOf (Args : FJsonObject) : FString :=
  if HasField Args "name" then GetStringField Args "name"
  else "Bookmark " +++ PrintfInt (SlotOf Args).

(** [(%.1f, %.1f, %.1f)]. *)
Definition PrintfVector (v : FVector) : FString :=
  "(" +++ PrintfTenths (X v) +++ ", " +++ PrintfTenths (Y v) +++ ", "
  +++ PrintfTenths (Z v) +++ ")".

(** [FMCPServer::ExecuteSetViewportBookmark]. *)
Definition ExecuteSetViewportBookmark (Args : TSharedPtr FJsonObject) (e : Editor)
  : Outcome (FString * Editor) :=
  match Args with
  | None => Faulted
  | Some a =>
      let Slot := SlotOf a in
      let Name := NameOf a in
      let Bookmarks := Allocated (ViewportBookmarks e) in
      match GCurrentLevelEditingViewportClient e with
      | None =>
          Returns ("Error: No active viewport",
                   {| ViewportBookmarks := Bookmarks;
                      GCurrentLevelEditingViewportClient := None |})
      | Some Client =>
          let Location := GetViewLocation Client in
          let Rotation := GetViewRotation Client in
          match Assign Bookmarks Slot
                  {| bIsSet := true;
                     Location := Some Location;
                     Rotation := Some Rotation;
                     Name := Name |} with
          | None => Faulted
          | Some Bookmarks' =>
              Returns ("Bookmark " +++ PrintfInt Slot +++ " '" +++ Name +++ "' saved at "
                       +++ PrintfVector Location,
                       {| ViewportBookmarks := Bookmarks';
                          GCurrentLevelEditingViewportClient := Some Client |})
          end
      end
  end.

(** [FMCPServer::ExecuteJumpToBookmark].  Reading a [Location] or
    [Rotation] that was never assigned counts as a fault here. *)
Definition ExecuteJumpToBookmark (Args : TSharedPtr FJsonObject) (e : Editor)
  : Outcome (FString * Editor) :=
  match Args with
  | None => Faulted
  | Some a =>
      let Slot := SlotOf a in
      let NotSet := Returns ("Error: Bookmark " +++ PrintfInt Slot +++ " is not set", e) in
      if (Num (ViewportBookmarks e) <=? Slot)%Z then NotSet
      else
        match Element (ViewportBookmarks e) Slot with
        | None => Faulted
        | Some b =>
            if negb (bIsSet b) then NotSet
            else
              match GCurrentLevelEditingViewportClient e with
              | None => Returns ("Error: No active viewport", e)
              | Some Client =>
                  match Location b, Rotation b with
                  | Some L, Some R =>
                      Returns ("Jumped to bookmark " +++ PrintfInt Slot +++ " '" +++ Name b
                               +++ "'",
                               {| ViewportBookmarks := ViewportBookmarks e;
                                  GCurrentLevelEditingViewportClient :=
                                    Some {| GetViewLocation := L; GetViewRotation := R |} |})
                  | _, _ => Faulted
                  end
              end
        end
  end.

(** [FMCPServer::ExecuteClearBookmark]. *)
Definition ExecuteClearBookmark (Args : TSharedPtr FJsonObject) (e : Editor)
  : Outcome (FString * Editor) :=
  match Args with
  | None => Faulted
  | Some a =>
      let Slot := SlotOf a in
      let Cleared := "Bookmark " +++ PrintfInt Slot +++ " cleared" in
      if (Num (ViewportBookmarks e) >? Slot)%Z
      then
        match Element (ViewportBookmarks e) Slot with
        | None => Faulted
        | Some b =>
            match Assign (ViewportBookmarks e) Slot
                    {| bIsSet := false;
                       Location := Location b;
                       Rotation := Rotation b;
                       Name := EmptyString |} with
            | None => Faulted
            | Some Bookmarks' =>
                Returns (Cleared,
                         {| ViewportBookmarks := Bookmarks';
                            GCurrentLevelEditingViewportClient :=
                              GCurrentLevelEditingViewportClient e |})
            end
        end
      else Returns (Cleared, e)
  end.

(** The line [ExecuteListBookmarks] prints for bookmark [i]. *)
Definition PrintfBookmark (i : nat) (Name : FString) (Location : FVector) : FString :=
  "  [" +++ PrintfInt (Z.of_nat i) +++ "] '" +++ Name +++ "' at " +++ PrintfVector Location
  +++ Newline.

(** The [for] loop of [ExecuteListBookmarks] over the indices still to
    visit: the text and the flag [bAnySet] it ends with. *)
Fixpoint ListLoop (Indices : list nat) (Bookmarks : list FViewportBookmark)
  (Result : FString) (bAnySet : bool) : Outcome (FString * bool) :=
  match Indices with
  | [] => Returns (Result, bAnySet)
  | i :: rest =>
      match Element Bookmarks (Z.of_nat i) with
      | None => Faulted
      | Some b =>
          if bIsSet b
          then
            match Location b with
            | None => Faulted
            | Some L => ListLoop rest Bookmarks (Result +++ PrintfBookmark i (Name b) L) true
            end
          else ListLoop rest Bookmarks Result bAnySet
      end
  end.

(** [FMCPServer::ExecuteListBookmarks]. *)
Definition ExecuteListBookmarks (e : Editor) : Outcome (FString * Editor) :=
  let Bookmarks := Allocated (ViewportBookmarks e) in
  match ListLoop (seq 0 10) Bookmarks ("Viewport Bookmarks:" +++ Newline) false with
  | Faulted => Faulted
  | Returns (Result, bAnySet) =>
      let Result := if negb bAnySet then Result +++ "  No bookmarks set" else Result in
      Returns (Result,
               {| ViewportBookmarks := Bookmarks;
                  GCurrentLevelEditingViewportClient := GCurrentLevelEditingViewportClient e |})
  end.

(** What happens on the game thread, in order: one of the four tools is
    called with arguments that are not null, or the user changes the current
    viewport (moves the camera, closes or opens the viewport). *)
Inductive Event : Type :=
| SetViewportBookmark (Args : FJsonObject)
| JumpToBookmark (Args : FJsonObject)
| ClearBookmark (Args : FJsonObject)
| ListBookmarks
| ViewportChanged (Client : option FViewportClient).

Definition Step (ev : Event) (e : Editor) : Outcome (FString * Editor) :=
  match ev with
  | SetViewportBookmark a => ExecuteSetViewportBookmark (Some a) e
  | JumpToBookmark a => ExecuteJumpToBookmark (Some a) e
  | ClearBookmark a => ExecuteClearBookmark (Some a) e
  | ListBookmarks => ExecuteListBookmarks e
  | ViewportChanged Client =>
      Returns (EmptyString,
               {| ViewportBookmarks := ViewportBookmarks e;
                  GCurrentLevelEditingViewportClient := Client |})
  end.

(** A sequence of events: the texts returned, in order, and the editor
    left. *)
Fixpoint Session (events : list Event) (e : Editor) : Outcome (list FString * Editor) :=
  match events with
  | [] => Returns ([], e)
  | ev :: rest =>
      match Step ev e with
      | Faulted => Faulted
      | Returns (text, e1) =>
          match Session rest e1 with
          | Faulted => Faulted
          | Returns (texts, e2) => Returns (text :: texts, e2)
          end
      end
  end.

(** Whether an event leaves the bookmark in [Slot] as it is: every event
    but a set or a clear of that slot. *)
Definition Keeps (Slot : int32) (ev : Event) : bool :=
  match ev with
  | SetViewportBookmark a => negb (SlotOf a =? Slot)%Z
  | ClearBookmark a => negb (SlotOf a =? Slot)%Z
  | _ => true
  end.

(** Whether a bookmark that counts as set has its camera stored. *)
Definition Stored (b : FViewportBookmark) : bool :=
  negb (bIsSet b) || (IsValid (Location b) && IsValid (Rotation b)).

(** Every set bookmark has its camera stored, and the storage is either
    not allocated or has its ten slots. *)
Definition WellFormed (e : Editor) : Prop :=
  forallb Stored (ViewportBookmarks e) = true
  /\ (ViewportBookmarks e = [] \/ List.length (ViewportBookmarks e) = 10).

(** The bookmarks [ExecuteListBookmarks] lists: those that are set among
    the first ten, with their slots. *)
Fixpoint SetBookmarks (i : nat) (Bookmarks : list FViewportBookmark) (n : nat)
  : list (nat * FViewportBookmark) :=
  match n, Bookmarks with
  | S m, b :: rest =>
      if bIsSet b then (i, b) :: SetBookmarks (S i) rest m else SetBookmarks (S i) rest m
  | _, _ => []
  end.

(** The lines for a list of bookmarks, one after the other. *)
Fixpoint PrintfBookmarks (l : list (nat * FViewportBookmark)) : FString :=
  match l with
  | [] => EmptyString
  | (i, b) :: rest =>
      match Location b with
      | Some L => PrintfBookmark i (Name b) L +++ PrintfBookmarks rest
      | None => PrintfBookmarks rest
      end
  end.

End Executors.

End Bookmarks.

(** ** What the executors read from their arguments

    Every executor reaches its arguments through four accessors of
    [FJsonObject], each time with a literal field name: [Args->HasField],
    [Args->GetStringField], [Args->GetNumberField] and [Args->GetBoolField]. *)
Inductive ArgumentAccess : Type :=
| CallsHasField (FieldName : FString)
| CallsGetStringField (FieldName : FString)
| CallsGetNumberField (FieldName : FString)
| CallsGetBoolField (FieldName : FString).

(** For each branch of the dispatch chain, by its literal: the accesses to
    [Args] in the body of the executor the branch calls, in the order of
    the text. *)
Definition ArgumentAccesses : list (FString * list ArgumentAccess) := [
  ("get_actor_list", []);
  ("spawn_actor",
   [CallsGetStringField "class_name"; CallsHasField "x"; CallsGetNumberField "x";
    CallsHasField "y"; CallsGetNumberField "y"; CallsHasField "z"; CallsGetNumberField "z"]);
  ("delete_actor", [CallsGetStringField "actor_name"]);
  ("get_actor_properties", [CallsGetStringField "actor_name"]);
  ("set_actor_property",
   [CallsGetStringField "actor_name"; CallsGetStringField "property"; CallsHasField "x";
    CallsGetNumberField "x"; CallsHasField "y"; CallsGetNumberField "y"; CallsHasField "z";
    CallsGetNumberField "z"]);
  ("find_actors_by_class", [CallsGetStringField "class_name"]);
  ("find_actors_by_tag", [CallsGetStringField "tag"]);
  ("find_actors_by_name", [CallsGetStringField "pattern"]);
  ("duplicate_actor",
   [CallsGetStringField "actor_name"; CallsHasField "offset_x";
    CallsGetNumberField "offset_x"; CallsHasField "offset_y"; CallsGetNumberField "offset_y";
    CallsHasField "offset_z"; CallsGetNumberField "offset_z"]);
  ("set_actor_visibility", [CallsGetStringField "actor_name"; CallsGetBoolField "visible"]);
  ("snap_actor_to_ground", [CallsGetStringField "actor_name"]);
  ("rename_actor", [CallsGetStringField "actor_name"; CallsGetStringField "new_name"]);
  ("add_actor_tag", [CallsGetStringField "actor_name"; CallsGetStringField "tag"]);
  ("remove_actor_tag", [CallsGetStringField "actor_name"; CallsGetStringField "tag"]);
  ("get_actor_tags", [CallsGetStringField "actor_name"]);
  ("set_actor_mobility", [CallsGetStringField "actor_name"; CallsGetStringField "mobility"]);
  ("get_actor_mobility", [CallsGetStringField "actor_name"]);
  ("attach_actor_to_actor",
   [CallsGetStringField "child_actor"; CallsGetStringField "parent_actor";
    CallsHasField "socket_name"; CallsGetStringField "socket_name"]);
  ("detach_actor", [CallsGetStringField "actor_name"]);
  ("select_actors", [CallsGetStringField "actor_names"]);
  ("get_selected_actors", []);
  ("clear_selection", []);
  ("focus_on_actor", [CallsGetStringField "actor_name"]);
  ("get_viewport_camera", []);
  ("set_viewport_camera",
   [CallsHasField "x"; CallsGetNumberField "x"; CallsHasField "y"; CallsGetNumberField "y";
    CallsHasField "z"; CallsGetNumberField "z"; CallsHasField "pitch";
    CallsGetNumberField "pitch"; CallsHasField "yaw"; CallsGetNumberField "yaw";
    CallsHasField "roll"; CallsGetNumberField "roll"]);
  ("take_screenshot", [CallsHasField "filename"; CallsGetStringField "filename"]);
  ("set_view_mode", [CallsGetStringField "mode"]);
  ("get_view_mode", []);
  ("pilot_actor", [CallsGetStringField "actor_name"]);
  ("stop_piloting", []);
  ("set_viewport_realtime", [CallsGetBoolField "enabled"]);
  ("set_viewport_stats",
   [CallsHasField "show_fps"; CallsGetBoolField "show_fps"; CallsHasField "show_stats";
    CallsGetBoolField "show_stats"]);
  ("get_current_level", []);
  ("load_level", [CallsGetStringField "level_path"]);
  ("save_level", []);
  ("start_pie", [CallsHasField "mode"; CallsGetStringField "mode"]);
  ("stop_pie", []);
  ("search_assets",
   [CallsGetStringField "query"; CallsHasField "class_name";
    CallsGetStringField "class_name"]);
  ("get_asset_info", [CallsGetStringField "asset_path"]);
  ("load_asset", [CallsGetStringField "asset_path"]);
  ("duplicate_asset", [CallsGetStringField "source_path"; CallsGetStringField "dest_path"]);
  ("rename_asset", [CallsGetStringField "source_path"; CallsGetStringField "new_name"]);
  ("delete_asset", [CallsGetStringField "asset_path"]);
  ("create_folder", [CallsGetStringField "folder_path"]);
  ("get_asset_references",
   [CallsGetStringField "asset_path"; CallsHasField "direction";
    CallsGetStringField "direction"]);
  ("create_blueprint",
   [CallsGetStringField "name"; CallsHasField "parent_class";
    CallsGetStringField "parent_class"; CallsHasField "path"; CallsGetStringField "path"]);
  ("get_blueprint_info", [CallsGetStringField "blueprint_path"]);
  ("compile_blueprint", [CallsGetStringField "blueprint_path"]);
  ("spawn_blueprint_actor",
   [CallsGetStringField "blueprint_path"; CallsHasField "x"; CallsGetNumberField "x";
    CallsHasField "y"; CallsGetNumberField "y"; CallsHasField "z"; CallsGetNumberField "z"]);
  ("add_blueprint_variable",
   [CallsGetStringField "blueprint_path"; CallsGetStringField "var_name";
    CallsGetStringField "var_type"]);
  ("remove_blueprint_variable",
   [CallsGetStringField "blueprint_path"; CallsGetStringField "var_name"]);
  ("get_blueprint_variables", [CallsGetStringField "blueprint_path"]);
  ("get_blueprint_functions", [CallsGetStringField "blueprint_path"]);
  ("set_blueprint_variable_default",
   [CallsGetStringField "blueprint_path"; CallsGetStringField "var_name";
    CallsGetStringField "default_value"]);
  ("create_material_instance",
   [CallsGetStringField "parent_material"; CallsGetStringField "name"; CallsHasField "path";
    CallsGetStringField "path"]);
  ("set_material_scalar",
   [CallsGetStringField "material_path"; CallsGetStringField "parameter_name";
    CallsGetNumberField "value"]);
  ("apply_material_to_actor",
   [CallsGetStringField "actor_name"; CallsGetStringField "material_path";
    CallsHasField "slot_index"; CallsGetNumberField "slot_index"]);
  ("set_material_vector",
   [CallsGetStringField "material_path"; CallsGetStringField "param_name";
    CallsGetNumberField "r"; CallsGetNumberField "g"; CallsGetNumberField "b";
    CallsHasField "a"; CallsGetNumberField "a"]);
  ("get_material_parameters", [CallsGetStringField "material_path"]);
  ("replace_actor_material",
   [CallsGetStringField "actor_name"; CallsGetNumberField "material_index";
    CallsGetStringField "material_path"]);
  ("get_actor_materials", [CallsGetStringField "actor_name"]);
  ("execute_console_command", [CallsGetStringField "command"]);
  ("get_project_info", []);
  ("set_simulate_physics", [CallsGetStringField "actor_name"; CallsGetBoolField "enabled"]);
  ("set_collision_enabled",
   [CallsGetStringField "actor_name"; CallsGetStringField "collision_type"]);
  ("set_collision_profile",
   [CallsGetStringField "actor_name"; CallsGetStringField "profile_name"]);
  ("add_impulse",
   [CallsGetStringField "actor_name"; CallsGetNumberField "x"; CallsGetNumberField "y";
    CallsGetNumberField "z"; CallsHasField "vel_change"; CallsGetBoolField "vel_change"]);
  ("get_physics_state", [CallsGetStringField "actor_name"]);
  ("get_editor_preference", [CallsGetStringField "section"; CallsGetStringField "key"]);
  ("set_editor_preference",
   [CallsGetStringField "section"; CallsGetStringField "key"; CallsGetStringField "value"]);
  ("run_editor_utility", [CallsGetStringField "asset_path"]);
  ("get_engine_info", []);
  ("set_viewport_bookmark",
   [CallsGetNumberField "slot"; CallsHasField "name"; CallsGetStringField "name"]);
  ("jump_to_bookmark", [CallsGetNumberField "slot"]);
  ("clear_bookmark", [CallsGetNumberField "slot"]);
  ("list_bookmarks", []);
  ("get_actor_components", [CallsGetStringField "actor_name"]);
  ("get_component_properties",
   [CallsGetStringField "actor_name"; CallsGetStringField "component_name"]);
  ("set_component_transform",
   [CallsGetStringField "actor_name"; CallsGetStringField "component_name";
    CallsHasField "x"; CallsGetNumberField "x"; CallsHasField "y"; CallsGetNumberField "y";
    CallsHasField "z"; CallsGetNumberField "z"; CallsHasField "pitch";
    CallsGetNumberField "pitch"; CallsHasField "yaw"; CallsGetNumberField "yaw";
    CallsHasField "roll"; CallsGetNumberField "roll"]);
  ("set_component_visibility",
   [CallsGetStringField "actor_name"; CallsGetStringField "component_name";
    CallsGetBoolField "visible"]);
  ("remove_component", [CallsGetStringField "actor_name"; CallsGetStringField "component_name"]);
  ("play_animation",
   [CallsGetStringField "actor_name"; CallsGetStringField "animation_path";
    CallsHasField "looping"; CallsGetBoolField "looping"; CallsHasField "play_rate";
    CallsGetNumberField "play_rate"]);
  ("stop_animation", [CallsGetStringField "actor_name"]);
  ("get_animation_list", [CallsGetStringField "actor_name"]);
  ("create_level_sequence",
   [CallsGetStringField "name"; CallsHasField "path"; CallsGetStringField "path"]);
  ("add_actor_to_sequence",
   [CallsGetStringField "sequence_path"; CallsGetStringField "actor_name"]);
  ("play_sequence",
   [CallsGetStringField "sequence_path"; CallsHasField "start_time";
    CallsGetNumberField "start_time"]);
  ("stop_sequence", []);
  ("set_sequence_time", [CallsGetStringField "sequence_path"; CallsGetNumberField "time"]);
  ("play_sound_at_location",
   [CallsGetStringField "sound_path"; CallsGetNumberField "x"; CallsGetNumberField "y";
    CallsGetNumberField "z"; CallsHasField "volume"; CallsGetNumberField "volume";
    CallsHasField "pitch"; CallsGetNumberField "pitch"]);
  ("spawn_audio_component",
   [CallsGetStringField "actor_name"; CallsGetStringField "sound_path";
    CallsHasField "auto_play"; CallsGetBoolField "auto_play"; CallsHasField "looping";
    CallsGetBoolField "looping"]);
  ("set_audio_volume", [CallsGetStringField "actor_name"; CallsGetNumberField "volume"]);
  ("stop_all_sounds", []);
  ("get_audio_components", [CallsGetStringField "actor_name"]);
  ("set_audio_attenuation",
   [CallsGetStringField "actor_name"; CallsGetNumberField "inner_radius";
    CallsGetNumberField "falloff_distance"]);
  ("get_landscape_info", []);
  ("get_landscape_height", [CallsGetNumberField "x"; CallsGetNumberField "y"]);
  ("get_foliage_types", []);
  ("add_foliage_instance",
   [CallsGetStringField "foliage_type"; CallsGetNumberField "x"; CallsGetNumberField "y";
    CallsGetNumberField "z"; CallsHasField "scale"; CallsGetNumberField "scale";
    CallsHasField "random_yaw"; CallsGetBoolField "random_yaw"]);
  ("remove_foliage_in_radius",
   [CallsGetNumberField "x"; CallsGetNumberField "y"; CallsGetNumberField "z";
    CallsGetNumberField "radius"; CallsHasField "foliage_type";
    CallsGetStringField "foliage_type"]);
  ("get_foliage_count", [CallsHasField "foliage_type"; CallsGetStringField "foliage_type"])
].

(** The field an access names. *)
Definition AccessedField (a : ArgumentAccess) : FString :=
  match a with
  | CallsHasField f => f
  | CallsGetStringField f => f
  | CallsGetNumberField f => f
  | CallsGetBoolField f => f
  end.

(** The fields a body tests with [HasField], and the fields it reads with
    one of the getters. *)
Definition TestedFields (accesses : list ArgumentAccess) : list FString :=
  flat_map (fun a => match a with CallsHasField f => [f] | _ => [] end) accesses.

Definition ReadFields (accesses : list ArgumentAccess) : list FString :=
  flat_map (fun a => match a with CallsHasField _ => [] | _ => [AccessedField a] end) accesses.

Definition Member (f : FString) (l : list FString) : bool := existsb (String.eqb f) l.

(** The fields a body reads without ever testing for them. *)
Definition ReadUntested (accesses : list ArgumentAccess) : list FString :=
  filter (fun f => negb (Member f (TestedFields accesses))) (ReadFields accesses).

(** The JSON type a getter expects. *)
Definition ExpectedType (a : ArgumentAccess) : option FString :=
  match a with
  | CallsHasField _ => None
  | CallsGetStringField _ => Some "string"
  | CallsGetNumberField _ => Some "number"
  | CallsGetBoolField _ => Some "boolean"
  end.

(** The input schema of the first descriptor of a tools array that carries
    the given name. *)
Fixpoint InputSchemaOf (Tools : list FJsonValue) (ToolName : FString) : option FJsonObject :=
  match Tools with
  | [] => None
  | FJsonValueObject o :: rest =>
      match FindField o "name", FindField o "inputSchema" with
      | Some (FJsonValueString n), Some (FJsonValueObject schema) =>
          if String.eqb n ToolName then Some schema else InputSchemaOf rest ToolName
      | _, _ => InputSchemaOf rest ToolName
      end
  | _ :: rest => InputSchemaOf rest ToolName
  end.

(** The properties a schema declares, and the names it lists as required. *)
Definition DeclaredProperties (schema : FJsonObject) : FJsonObject :=
  match FindField schema "properties" with
  | Some (FJsonValueObject Props) => Props
  | _ => []
  end.

Definition DeclaredFields (schema : FJsonObject) : list FString :=
  map fst (DeclaredProperties schema).

Definition RequiredFields (schema : FJsonObject) : list FString :=
  match FindField schema "required" with
  | Some (FJsonValueArray Required) =>
      flat_map (fun v => match v with FJsonValueString f => [f] | _ => [] end) Required
  | _ => []
  end.

(** The ["type"] a schema declares for a property. *)
Definition DeclaredType (schema : FJsonObject) (f : FString) : option FString :=
  match FindField (DeclaredProperties schema) f with
  | Some (FJsonValueObject Property) =>
      match FindField Property "type" with
      | Some (FJsonValueString t) => Some t
      | _ => None
      end
  | _ => None
  end.

(** The fields that executors look for although the tool's schema does not
    declare them, by tool. *)
Definition UndeclaredFields : list (FString * FString) :=
  [("create_material_instance", "path");
   ("play_sound_at_location", "pitch");
   ("add_foliage_instance", "random_yaw");
   ("remove_foliage_in_radius", "foliage_type")].

Definition Subset (a b : list FString) : bool := forallb (fun f => Member f b) a.

(** Whether the accesses of a body and a schema agree: the required fields
    are the fields read untested, every declared field is read, every field
    read is tested or required, and every field looked for is declared,
    unless listed in [UndeclaredFields]. *)
Definition SchemaAgrees (ToolName : FString) (accesses : list ArgumentAccess)
  (schema : FJsonObject) : bool :=
  Subset (RequiredFields schema) (ReadUntested accesses)
  && Subset (ReadUntested accesses) (RequiredFields schema)
  && Subset (DeclaredFields schema) (ReadFields accesses)
  && Subset (TestedFields accesses) (ReadFields accesses)
  && forallb
       (fun f =>
          Member f (DeclaredFields schema)
          || existsb (fun p => String.eqb (fst p) ToolName && String.eqb (snd p) f)
               UndeclaredFields)
       (ReadFields accesses).

(** Whether each getter of a body asks for the type the schema declares
    for the field, where it declares the field. *)
Definition TypesAgree (accesses : list ArgumentAccess) (schema : FJsonObject) : bool :=
  forallb
    (fun a =>
       match ExpectedType a, DeclaredType schema (AccessedField a) with
       | Some expected, Some declared => String.eqb expected declared
       | _, _ => true
       end)
    accesses.
(** ** A reference implementation of the two interfaces

    A plain JSON reader and condensed writer over [FJsonValue], and an
    editor that records what it is asked to do.  They serve to run the
    server on wire text. *)

Module Reference.

Definition Quote : ascii := ascii_of_N 34.
Definition Backslash : ascii := ascii_of_N 92.

Definition WriteNumber (n : Z) : FString := NilZero.string_of_int (Z.to_int n).

Fixpoint EscapeChars (s : FString) : FString :=
  match s with
  | EmptyString => EmptyString
  | String c r =>
      if Ascii.eqb c Quote then String Backslash (String Quote (EscapeChars r))
      else if Ascii.eqb c Backslash then String Backslash (String Backslash (EscapeChars r))
      else if Ascii.eqb c LF then String Backslash (String "n" (EscapeChars r))
      else String c (EscapeChars r)
  end.

Definition WriteString (s : FString) : FString :=
  String Quote (EscapeChars s) +++ String Quote EmptyString.

Fixpoint Zeros (n : nat) : FString :=
  match n with
  | O => EmptyString
  | S m => String "0" (Zeros m)
  end.

(** [m / 10 ^ k] in decimal notation, with [k] digits after the point. *)
Definition WriteFraction (m : Z) (k : positive) : FString :=
  let d := (10 ^ Z.pos k)%Z in
  let digits := WriteNumber (Z.abs m mod d) in
  (if (m <? 0)%Z then "-" else EmptyString)
  +++ WriteNumber (Z.abs m / d) +++ "."
  +++ Zeros (Pos.to_nat k - String.length digits) +++ digits.

Fixpoint WriteValue (v : FJsonValue) : FString :=
  match v with
  | FJsonValueNull => "null"
  | FJsonValueBoolean b => if b then "true" else "false"
  | FJsonValueNumber n => WriteNumber n
  | FJsonValueNumberFraction m k => WriteFraction m k
  | FJsonValueString s => WriteString s
  | FJsonValueArray a =>
      "[" +++
      (fix elements (l : list FJsonValue) : FString :=
         match l with
         | [] => EmptyString
         | x :: r =>
             WriteValue x +++ match r with [] => EmptyString | _ => "," +++ elements r end
         end) a +++ "]"
  | FJsonValueObject o =>
      "{" +++
      (fix fields (l : list (FString * FJsonValue)) : FString :=
         match l with
         | [] => EmptyString
         | (k, x) :: r =>
             WriteString k +++ ":" +++ WriteValue x +++
             match r with [] => EmptyString | _ => "," +++ fields r end
         end) o +++ "}"
  end.

Definition WriteObject (o : FJsonObject) : FString := WriteValue (FJsonValueObject o).

Definition IsWhitespace (c : ascii) : bool :=
  let n := N_of_ascii c in
  N.eqb n 32 || N.eqb n 9 || N.eqb n 10 || N.eqb n 13.

Fixpoint SkipWhitespace (s : FString) : FString :=
  match s with
  | EmptyString => EmptyString
  | String c r => if IsWhitespace c then SkipWhitespace r else s
  end.

Definition DigitValue (c : ascii) : option Z :=
  let n := N_of_ascii c in
  if (48 <=? n)%N && (n <=? 57)%N then Some (Z.of_N (n - 48)) else None.

Definition IsDigit (c : ascii) : bool :=
  match DigitValue c with
  | Some _ => true
  | None => false
  end.

(** The digits at the head of [s]: their value, continuing [acc], how many
    they are, and what follows them. *)
Fixpoint ReadDigits (s : FString) (acc : Z) (count : nat) : Z * nat * FString :=
  match s with
  | EmptyString => (acc, count, s)
  | String c r =>
      match DigitValue c with
      | Some d => ReadDigits r (10 * acc + d)%Z (S count)
      | None => (acc, count, s)
      end
  end.

(** The integer part of a number: a single [0], or a digit from 1 to 9
    followed by any digits. *)
Definition ReadIntegerPart (s : FString) : option (Z * FString) :=
  match s with
  | String c r =>
      match DigitValue c with
      | Some Z0 =>
          match r with
          | String c' _ => if IsDigit c' then None else Some (0%Z, r)
          | EmptyString => Some (0%Z, r)
          end
      | Some _ => let '(n, _, rest) := ReadDigits s 0 0 in Some (n, rest)
      | None => None
      end
  | EmptyString => None
  end.

(** The fraction part, if there is one: a point and at least one digit.
    The digits continue the integer part [n]; their number is returned. *)
Definition ReadFractionPart (n : Z) (s : FString) : option (Z * nat * FString) :=
  match s with
  | String c r =>
      if Ascii.eqb c "."
      then match ReadDigits r n 0 with
           | (_, O, _) => None
           | (m, f, rest) => Some (m, f, rest)
           end
      else Some (n, O, s)
  | EmptyString => Some (n, O, s)
  end.

(** The exponent part, if there is one: [e] or [E], an optional sign and at
    least one digit. *)
Definition ReadExponentPart (s : FString) : option (Z * FString) :=
  match s with
  | String c r =>
      if Ascii.eqb c "e" || Ascii.eqb c "E"
      then
        let (negative, body) :=
          match r with
          | String c' r' =>
              if Ascii.eqb c' "-" then (true, r')
              else if Ascii.eqb c' "+" then (false, r')
              else (false, r)
          | EmptyString => (false, r)
          end in
        match ReadDigits body 0 0 with
        | (_, O, _) => None
        | (e, _, rest) => Some (if negative then (- e)%Z else e, rest)
        end
      else Some (0%Z, s)
  | EmptyString => Some (0%Z, s)
  end.

(** The value [m / 10 ^ k] as a document number: an integer where it is
    one. *)
Fixpoint Normalised (m : Z) (k : nat) : FJsonValue :=
  match k with
  | O => FJsonValueNumber m
  | S k' =>
      if (m mod 10 =? 0)%Z then Normalised (m / 10) k'
      else FJsonValueNumberFraction m (Pos.of_succ_nat k')
  end.

(** The value [m * 10 ^ scale]. *)
Definition NumberOf (m : Z) (scale : Z) : FJsonValue :=
  if (0 <=? scale)%Z then FJsonValueNumber (m * 10 ^ scale)
  else Normalised m (Z.to_nat (- scale)).

(** A number: an optional minus sign, the integer part, an optional
    fraction and an optional exponent. *)
Definition ReadNumber (s : FString) : option (FJsonValue * FString) :=
  let (negative, body) :=
    match s with
    | String c r => if Ascii.eqb c "-" then (true, r) else (false, s)
    | EmptyString => (false, s)
    end in
  match ReadIntegerPart body with
  | None => None
  | Some (n, r1) =>
      match ReadFractionPart n r1 with
      | None => None
      | Some (m, f, r2) =>
          match ReadExponentPart r2 with
          | None => None
          | Some (e, rest) =>
              Some (NumberOf (if negative then (- m)%Z else m) (e - Z.of_nat f), rest)
          end
      end
  end.

Definition Unescape (c : ascii) : option ascii :=
  if Ascii.eqb c Quote then Some Quote
  else if Ascii.eqb c Backslash then Some Backslash
  else if Ascii.eqb c "/" then Some "/"%char
  else if Ascii.eqb c "n" then Some LF
  else if Ascii.eqb c "t" then Some (ascii_of_N 9)
  else if Ascii.eqb c "r" then Some (ascii_of_N 13)
  else None.

(** The characters of a string literal after its opening quote, and what
    follows the closing quote. *)
Fixpoint ReadStringBody (s : FString) : option (FString * FString) :=
  match s with
  | EmptyString => None
  | String c r =>
      if Ascii.eqb c Quote then Some (EmptyString, r)
      else if Ascii.eqb c Backslash then
        match r with
        | String e r' =>
            match Unescape e, ReadStringBody r' with
            | Some c', Some (t, rest) => Some (String c' t, rest)
            | _, _ => None
            end
        | EmptyString => None
        end
      else
        match ReadStringBody r with
        | Some (t, rest) => Some (String c t, rest)
        | None => None
        end
  end.

Definition ReadLiteral (word : FString) (v : FJsonValue) (s : FString)
  : option (FJsonValue * FString) :=
  if String.prefix word s
  then Some (v, String.substring (String.length word) (String.length s - String.length word) s)
  else None.

Fixpoint ReadValue (fuel : nat) (s : FString) : option (FJsonValue * FString) :=
  match fuel with
  | O => None
  | S fuel =>
      match SkipWhitespace s with
      | EmptyString => None
      | String c r as s' =>
          if Ascii.eqb c "{" then
            match SkipWhitespace r with
            | String c' r' =>
                if Ascii.eqb c' "}" then Some (FJsonValueObject [], r')
                else match ReadMembers fuel r with
                     | Some (o, rest) => Some (FJsonValueObject o, rest)
                     | None => None
                     end
            | EmptyString => None
            end
          else if Ascii.eqb c "[" then
            match SkipWhitespace r with
            | String c' r' =>
                if Ascii.eqb c' "]" then Some (FJsonValueArray [], r')
                else match ReadElements fuel r with
                     | Some (a, rest) => Some (FJsonValueArray a, rest)
                     | None => None
                     end
            | EmptyString => None
            end
          else if Ascii.eqb c Quote then
            match ReadStringBody r with
            | Some (t, rest) => Some (FJsonValueString t, rest)
            | None => None
            end
          else if Ascii.eqb c "t" then ReadLiteral "true" (FJsonValueBoolean true) s'
          else if Ascii.eqb c "f" then ReadLiteral "false" (FJsonValueBoolean false) s'
          else if Ascii.eqb c "n" then ReadLiteral "null" FJsonValueNull s'
          else
            ReadNumber s'
      end
  end

with ReadMembers (fuel : nat) (s : FString) : option (FJsonObject * FString) :=
  match fuel with
  | O => None
  | S fuel =>
      match SkipWhitespace s with
      | String c r =>
          if Ascii.eqb c Quote then
            match ReadStringBody r with
            | Some (k, rest) =>
                match SkipWhitespace rest with
                | String c1 r1 =>
                    if Ascii.eqb c1 ":" then
                      match ReadValue fuel r1 with
                      | Some (v, rest1) =>
                          match SkipWhitespace rest1 with
                          | String c2 r2 =>
                              if Ascii.eqb c2 "}" then Some ([(k, v)], r2)
                              else if Ascii.eqb c2 "," then
                                match ReadMembers fuel r2 with
                                | Some (o, rest2) => Some ((k, v) :: o, rest2)
                                | None => None
                                end
                              else None
                          | EmptyString => None
                          end
                      | None => None
                      end
                    else None
                | EmptyString => None
                end
            | None => None
            end
          else None
      | EmptyString => None
      end
  end

with ReadElements (fuel : nat) (s : FString) : option (list FJsonValue * FString) :=
  match fuel with
  | O => None
  | S fuel =>
      match ReadValue fuel s with
      | Some (v, rest) =>
          match SkipWhitespace rest with
          | String c r =>
              if Ascii.eqb c "]" then Some ([v], r)
              else if Ascii.eqb c "," then
                match ReadElements fuel r with
                | Some (a, rest1) => Some (v :: a, rest1)
                | None => None
                end
              else None
          | EmptyString => None
          end
      | None => None
      end
  end.

(** The text is read as one JSON object with nothing but white space after
    it. *)
Definition ReadObject (s : FString) : TSharedPtr FJsonObject :=
  match ReadValue (2 * String.length s + 2) s with
  | Some (FJsonValueObject o, rest) =>
      if IsEmpty (SkipWhitespace rest) then Some o else None
  | _ => None
  end.

Definition StringField (o : FJsonObject) (FieldName : FString) : option FString :=
  match FindField o FieldName with
  | Some (FJsonValueString s) => Some s
  | _ => None
  end.

(** [m / 10 ^ k] rounded to the nearest integer, halves away from zero. *)
Definition RoundHalfAway (m : Z) (k : positive) : Z :=
  let d := (10 ^ Z.pos k)%Z in
  if (0 <=? m)%Z then ((2 * m + d) / (2 * d))%Z else (- ((2 * - m + d) / (2 * d)))%Z.

(** A number field read as [int32]: a number within the range of [int32],
    rounded where it has a fraction; nothing for a number outside the range,
    for other values and for an absent field. *)
Definition Int32Field (o : FJsonObject) (FieldName : FString) : option Z :=
  match FindField o FieldName with
  | Some (FJsonValueNumber n) =>
      if ((-2147483648 <=? n) && (n <=? 2147483647))%Z then Some n else None
  | Some (FJsonValueNumberFraction m k) =>
      let d := (10 ^ Z.pos k)%Z in
      if ((-2147483648 * d <=? m) && (m <=? 2147483647 * d))%Z
      then Some (RoundHalfAway m k) else None
  | _ => None
  end.

(** An object field: the object, and an empty object when the field is
    absent or holds another kind of value; never a null pointer. *)
Definition ObjectField (o : FJsonObject) (FieldName : FString) : TSharedPtr FJsonObject :=
  match FindField o FieldName with
  | Some (FJsonValueObject p) => Some p
  | _ => Some MakeShared
  end.

Definition StringFieldOrEmpty (o : FJsonObject) (FieldName : FString) : FString :=
  match StringField o FieldName with
  | Some s => s
  | None => EmptyString
  end.

Definition FieldPresent (o : FJsonObject) (FieldName : FString) : bool :=
  match FindField o FieldName with
  | Some _ => true
  | None => false
  end.

Lemma WriteObject_not_empty : forall o, IsEmpty (WriteObject o) = false.
Proof. intro o. reflexivity. Qed.

#[export] Instance PlainJson : JsonEngine := {
  Deserialize := ReadObject;
  Serialize := WriteObject;
  Serialize_not_empty := WriteObject_not_empty;
  TryGetStringField := StringField;
  TryGetNumberField := Int32Field;
  GetObjectField := ObjectField;
  GetStringField := StringFieldOrEmpty;
  HasField := FieldPresent
}.

Lemma ObjectField_valid : forall o FieldName, IsValid (ObjectField o FieldName) = true.
Proof.
  intros o FieldName. unfold ObjectField.
  destruct (FindField o FieldName) as [[| | | | | |]|]; reflexivity.
Qed.

#[export] Instance PlainObjects : ObjectFieldsAreValid PlainJson := ObjectField_valid.

(** An editor whose world is the list of the calls made into it. *)
#[export] Instance RecordingEditor : EditorHost := {
  World := list FString;
  HostCall0 := fun f w => (f +++ ": done", w ++ [f]);
  HostCall := fun f Args w => (f +++ ": done", w ++ [f +++ WriteObject Args]);
  RequestPlaySession := fun new_window w =>
    w ++ [if new_window then "RequestPlaySession(new window)" else "RequestPlaySession"];
  ProjectSavedDir := "Saved";
  PathJoin := fun a b => a +++ "/" +++ b;
  RequestScreenshot := fun path w => w ++ ["RequestScreenshot " +++ path]
}.

(** A request frame, written with the condensed writer. *)
Definition Wire (o : FJsonObject) : FString := WriteObject o.

End Reference.

(** ** Wire scenarios

    Requests as a client writes them, for running the server with the
    reference implementations. *)

Module Scenario.

Import Reference.

(** A JSON-RPC request object with the given id, method and params, each
    optional. *)
Definition Request (Id : option Z) (Method : option FString) (Params : option FJsonObject)
  : FJsonObject :=
  [("jsonrpc", FJsonValueString "2.0")]
  ++ match Id with Some n => [("id", FJsonValueNumber n)] | None => [] end
  ++ match Method with Some m => [("method", FJsonValueString m)] | None => [] end
  ++ match Params with Some p => [("params", FJsonValueObject p)] | None => [] end.

(** A bridge on which nothing has happened yet. *)
Definition Idle : @Bridge RecordingEditor := {| GameWorld := ([] : list FString); Submitted := [] |}.

(** The bridge after task [t] was submitted and left the editor alone. *)
Definition Dispatched (t : Task) : @Bridge RecordingEditor :=
  {| GameWorld := ([] : list FString); Submitted := [t] |}.

Definition Garbage : FString := "not json".

(** JSON, but not an object. *)
Definition EmptyArray : FString := "[]".

Definition InitializeDoc : FJsonObject := Request (Some 1%Z) (Some "initialize") None.
Definition Initialize : FString := Wire InitializeDoc.

(** The same method in upper case. *)
Definition InitializeUpperCaseDoc : FJsonObject := Request (Some 11%Z) (Some "INITIALIZE") None.
Definition InitializeUpperCase : FString := Wire InitializeUpperCaseDoc.


Definition InitializeWithoutIdDoc : FJsonObject := Request None (Some "initialize") None.
Definition InitializeWithoutId : FString := Wire InitializeWithoutIdDoc.

Definition InitializedDoc : FJsonObject := Request None (Some "notifications/initialized") None.
Definition Initialized : FString := Wire InitializedDoc.

Definition InitializedWithIdDoc : FJsonObject :=
  Request (Some 7%Z) (Some "notifications/initialized") None.
Definition InitializedWithId : FString := Wire InitializedWithIdDoc.




Definition CallDoc (Id : Z) (Params : option FJsonObject) : FJsonObject :=
  Request (Some Id) (Some "tools/call") Params.

Definition CallWithoutParamsDoc : FJsonObject := CallDoc 3 None.
Definition CallWithoutParams : FString := Wire CallWithoutParamsDoc.


Definition UnknownToolParams : FJsonObject := [("name", FJsonValueString "does_not_exist")].
Definition CallUnknownToolDoc : FJsonObject := CallDoc 2 (Some UnknownToolParams).
Definition CallUnknownTool : FString := Wire CallUnknownToolDoc.

Definition SpawnActorParams : FJsonObject := [("name", FJsonValueString "spawn_actor")].
Definition CallSpawnActorWithoutArguments : FString := Wire (CallDoc 8 (Some SpawnActorParams)).


Definition StartPIEUpperCaseParams : FJsonObject := [("name", FJsonValueString "START_PIE")].
Definition CallStartPIEUpperCase : FString := Wire (CallDoc 12 (Some StartPIEUpperCaseParams)).

Definition SetSimulatePhysicsParams : FJsonObject :=
  [("name", FJsonValueString "set_simulate_physics")].
Definition CallSetSimulatePhysicsWithoutArguments : FString :=
  Wire (CallDoc 10 (Some SetSimulatePhysicsParams)).

(** One line cut in two, as two reads may deliver it. *)
Definition FirstHalf : FString := String.substring 0 30 Initialize.

Definition SecondHalf : FString :=
  String.substring 30 (String.length Initialize - 30) Initialize +++ String LF EmptyString.

(** A client connects and nothing is read; a client connects and the first
    read follows in the same iteration. *)
Definition Connect : LoopEvent :=
  {| OnListener := AcceptReturnsSocket; OnClient := NoPendingData true |}.

Definition ConnectAndRead (Message : FString) : LoopEvent :=
  {| OnListener := AcceptReturnsSocket; OnClient := PendingData true Message |}.

(** The server before any client, and with its first client connected. *)
Definition Fresh : @Server RecordingEditor := InitialServer ([] : list FString).

Definition Connected : @Server RecordingEditor := AcceptConnection AcceptReturnsSocket Fresh.

(** What a run of the loop sent, when it did not fault. *)
Definition Sent (r : Outcome (@Server RecordingEditor)) : option (list FString) :=
  match r with
  | Returns s => Some (SentData (SocketLog s))
  | Faulted => None
  end.

(** A [start_pie] task with a null arguments pointer, and the task a
    [start_pie] call without arguments submits. *)
Definition StartPIETask : Task := {| TaskToolName := "start_pie"; TaskArgs := None |}.


End Scenario.


(** ** Server and editor scenarios

    Concrete platform answers, servers and bookmark calls, for running the
    lifecycle functions and the bookmark executors. *)

Module EditorScenario.

Import Reference.

(** Coordinates in tenths of a unit, printed with one decimal. *)
Definition WriteTenths (n : Z) : FString :=
  (if (n <? 0)%Z then "-" else EmptyString)
  +++ WriteNumber (Z.abs n / 10) +++ "." +++ WriteNumber (Z.abs n mod 10).

(** A viewport engine with such coordinates, rotators as three of them,
    and the number accessor of the reference reader: 0 for a field that is
    absent or not a number, and the cast to [int32] drops the fraction of a
    number that has one. *)
#[export] Instance TenthsViewport : Bookmarks.ViewportEngine := {
  Bookmarks.double := Z;
  Bookmarks.FRotator := Z * Z * Z;
  Bookmarks.PrintfTenths := WriteTenths;
  Bookmarks.GetNumberFieldInt32 := fun o f =>
    match FindField o f with
    | Some (FJsonValueNumberFraction m k) => Z.quot m (10 ^ Z.pos k)
    | _ =>
        match Int32Field o f with
        | Some n => n
        | None => 0%Z
        end
    end
}.

(** The platform lets the server listen; the port is taken. *)
Definition Cooperative : SubsystemAnswers :=
  {| SubsystemFound := true;
     CreateSocket := Some 0;
     BindSucceeds := true;
     ListenSucceeds := true;
     ThreadCreated := true |}.

Definition PortTaken : SubsystemAnswers :=
  {| SubsystemFound := true;
     CreateSocket := Some 1;
     BindSucceeds := false;
     ListenSucceeds := true;
     ThreadCreated := true |}.

(** A server object as the module makes it. *)
Definition Made : @FMCPServer RecordingEditor := FMCPServer_new ([] : list FString).

(** The state a server is in after the given calls, [Made] where they
    fault. *)
Definition After (calls : list LifecycleCall) : @FMCPServer RecordingEditor :=
  match Lifecycle calls Made with
  | Returns s => s
  | Faulted => Made
  end.

(** Started on port 7777, then a client connects. *)
Definition Serving : list LifecycleCall :=
  [CallStart 7777 Cooperative; LoopIteration Scenario.Connect].


(** What [RestartServer] leaves of a serving server. *)
Definition Restarted : @FMCPServer RecordingEditor :=
  match RestartServer ([] : list FString) true Cooperative (Some (After Serving)) with
  | Returns (_, Some s) => s
  | _ => Made
  end.



(** A camera, and the same camera moved. *)
Definition Overview : Bookmarks.FViewportClient :=
  {| Bookmarks.GetViewLocation := {| Bookmarks.X := 1000%Z; Bookmarks.Y := (-250)%Z; Bookmarks.Z := 5005%Z |};
     Bookmarks.GetViewRotation := (-450, 900, 0)%Z |}.

Definition Elsewhere : Bookmarks.FViewportClient :=
  {| Bookmarks.GetViewLocation := {| Bookmarks.X := 0%Z; Bookmarks.Y := 0%Z; Bookmarks.Z := 0%Z |};
     Bookmarks.GetViewRotation := (0, 0, 0)%Z |}.

(** Arguments of bookmark calls: slot 3 with a name, slot 3 alone, slot 12
    (clamped to 9), and no slot. *)
Definition Slot3Named : FJsonObject :=
  [("slot", FJsonValueNumber 3); ("name", FJsonValueString "Overview")].

Definition Slot3 : FJsonObject := [("slot", FJsonValueNumber 3)].

Definition Slot12 : FJsonObject := [("slot", FJsonValueNumber 12)].

(** The editor with a viewport open and no bookmark storage. *)
Definition Opened : Bookmarks.Editor := Bookmarks.Editor_new (Some Overview).

(** Calls that leave slot 3 alone: a bookmark in slot 9, a listing, a jump,
    a clear of slot 9 and a camera move. *)
Definition OtherCalls : list Bookmarks.Event :=
  [Bookmarks.ViewportChanged (Some Elsewhere);
   Bookmarks.SetViewportBookmark Slot12;
   Bookmarks.ListBookmarks;
   Bookmarks.JumpToBookmark Slot12;
   Bookmarks.ClearBookmark Slot12].

(** The editor a session leaves, [e] where it faults. *)
Definition Left (events : list Bookmarks.Event) (e : Bookmarks.Editor) : Bookmarks.Editor :=
  match Bookmarks.Session events e with
  | Returns (_, e1) => e1
  | Faulted => e
  end.

(** The texts a session returns. *)
Definition Texts (events : list Bookmarks.Event) (e : Bookmarks.Editor) : list FString :=
  match Bookmarks.Session events e with
  | Returns (texts, _) => texts
  | Faulted => []
  end.

(** A bookmark saved in slot 3, then the other calls. *)
Definition SaveThenOthers : list Bookmarks.Event :=
  Bookmarks.SetViewportBookmark Slot3Named :: OtherCalls.

(** The editor after the bookmark in slot 3 was saved. *)
Definition Saved : Bookmarks.Editor := Left [Bookmarks.SetViewportBookmark Slot3Named] Opened.

(** What the listing shows when only that bookmark is set. *)
Definition ListingOfSlot3 : FString :=
  "Viewport Bookmarks:" +++ Bookmarks.Newline
  +++ "  [3] 'Overview' at (100.0, -25.0, 500.5)" +++ Bookmarks.Newline.

End EditorScenario.
(** * Properties *)

Unset Implicit Arguments.

Section Properties.

Context {Json : JsonEngine} {Objects : ObjectFieldsAreValid Json} {Host : EditorHost}.

(** ** Strings *)

Lemma FString_eq_true : forall a b, (a == b) = true <-> ToLower a = ToLower b.
Proof. intros a b. unfold FString_eq. apply String.eqb_eq. Qed.

Lemma FString_eq_false : forall a b, (a == b) = false <-> ToLower a <> ToLower b.
Proof. intros a b. unfold FString_eq. apply String.eqb_neq. Qed.

(** A string equal to one literal is not equal to a literal that differs
    from it beyond case. *)
Lemma FString_eq_other : forall a l1 l2,
  (a == l1) = true -> (l1 == l2) = false -> (a == l2) = false.
Proof.
  intros a l1 l2 H1 H2.
  apply FString_eq_true in H1. apply FString_eq_false in H2. apply FString_eq_false.
  congruence.
Qed.

(** ** Replies *)

Lemma CreateSuccessResponse_not_empty : forall Id Result,
  IsEmpty (CreateSuccessResponse Id Result) = false.
Proof. intros. apply Serialize_not_empty. Qed.

Lemma CreateErrorResponse_not_empty : forall Id Code Message,
  IsEmpty (CreateErrorResponse Id Code Message) = false.
Proof. intros. apply Serialize_not_empty. Qed.

Lemma ReplyTo_not_empty : forall Id Response, ReplyTo Id Response -> IsEmpty Response = false.
Proof.
  intros Id Response [[Result ->] | [Code [Message ->]]]; apply Serialize_not_empty.
Qed.

(** What the two builders write, field by field. *)
Lemma CreateSuccessResponse_fields : forall Id Result,
  CreateSuccessResponse Id Result =
  Serialize [("jsonrpc", FJsonValueString "2.0");
             ("id", FJsonValueNumber Id);
             ("result", FJsonValueObject Result)].
Proof. reflexivity. Qed.

Lemma CreateErrorResponse_fields : forall Id Code Message,
  CreateErrorResponse Id Code Message =
  Serialize [("jsonrpc", FJsonValueString "2.0");
             ("id", FJsonValueNumber Id);
             ("error", FJsonValueObject [("code", FJsonValueNumber Code);
                                         ("message", FJsonValueString Message)])].
Proof. reflexivity. Qed.

Lemma ToolsCallResult_fields : forall ResultText,
  ToolsCallResult ResultText =
  [("content",
    FJsonValueArray [FJsonValueObject [("type", FJsonValueString "text");
                                       ("text", FJsonValueString ResultText)]])].
Proof. reflexivity. Qed.

Lemma ReplyTo_success : forall Id Result, ReplyTo Id (CreateSuccessResponse Id Result).
Proof. intros. left. exists Result. reflexivity. Qed.

Lemma ReplyTo_error : forall Id Code Message, ReplyTo Id (CreateErrorResponse Id Code Message).
Proof. intros. right. exists Code, Message. reflexivity. Qed.

Create HintDb replies.
#[local] Hint Resolve ReplyTo_success ReplyTo_error : replies.

(** Both envelopes carry the id they were built with. *)
Lemma SuccessEnvelope_id : forall Id Result,
  FindField (SuccessEnvelope Id Result) "id" = Some (FJsonValueNumber Id).
Proof. reflexivity. Qed.

Lemma ErrorEnvelope_id : forall Id Code Message,
  FindField (ErrorEnvelope Id Code Message) "id" = Some (FJsonValueNumber Id).
Proof. reflexivity. Qed.

(** ** The protocol engine, case by case *)

Lemma ProcessMessage_parse_error : forall Message b,
  Deserialize Message = None ->
  ProcessMessage Message b = Returns (CreateErrorResponse 0 (-32700) "Parse error", b).
Proof. intros Message b H. unfold ProcessMessage. rewrite H. reflexivity. Qed.

Lemma ProcessMessage_no_method : forall Message JsonObject b,
  Deserialize Message = Some JsonObject ->
  TryGetStringField JsonObject "method" = None ->
  ProcessMessage Message b = Returns (CreateErrorResponse 0 (-32600) "Invalid Request", b).
Proof. intros Message o b H1 H2. unfold ProcessMessage. rewrite H1, H2. reflexivity. Qed.

Lemma ProcessMessage_initialize : forall Message JsonObject Method b,
  Deserialize Message = Some JsonObject ->
  TryGetStringField JsonObject "method" = Some Method ->
  (Method == "initialize") = true ->
  ProcessMessage Message b = Returns (HandleInitialize (RequestId JsonObject), b).
Proof.
  intros Message o m b H1 H2 H3. unfold ProcessMessage. rewrite H1, H2. cbv zeta.
  rewrite H3. reflexivity.
Qed.

Lemma ProcessMessage_tools_list : forall Message JsonObject Method b,
  Deserialize Message = Some JsonObject ->
  TryGetStringField JsonObject "method" = Some Method ->
  (Method == "tools/list") = true ->
  ProcessMessage Message b = Returns (HandleToolsList (RequestId JsonObject), b).
Proof.
  intros Message o m b H1 H2 H3. unfold ProcessMessage. rewrite H1, H2. cbv zeta.
  rewrite (FString_eq_other m _ "initialize" H3 eq_refl), H3. reflexivity.
Qed.

Lemma ProcessMessage_tools_call : forall Message JsonObject Method b,
  Deserialize Message = Some JsonObject ->
  TryGetStringField JsonObject "method" = Some Method ->
  (Method == "tools/call") = true ->
  ProcessMessage Message b =
  HandleToolsCall (RequestId JsonObject) (GetObjectField JsonObject "params") b.
Proof.
  intros Message o m b H1 H2 H3. unfold ProcessMessage. rewrite H1, H2. cbv zeta.
  rewrite (FString_eq_other m _ "initialize" H3 eq_refl).
  rewrite (FString_eq_other m _ "tools/list" H3 eq_refl), H3. reflexivity.
Qed.

Lemma ProcessMessage_notification : forall Message JsonObject Method b,
  Deserialize Message = Some JsonObject ->
  TryGetStringField JsonObject "method" = Some Method ->
  (Method == "notifications/initialized") = true ->
  ProcessMessage Message b = Returns (EmptyString, b).
Proof.
  intros Message o m b H1 H2 H3. unfold ProcessMessage. rewrite H1, H2. cbv zeta.
  rewrite (FString_eq_other m _ "initialize" H3 eq_refl).
  rewrite (FString_eq_other m _ "tools/list" H3 eq_refl).
  rewrite (FString_eq_other m _ "tools/call" H3 eq_refl), H3. reflexivity.
Qed.

Lemma ProcessMessage_method_not_found : forall Message JsonObject Method b,
  Deserialize Message = Some JsonObject ->
  TryGetStringField JsonObject "method" = Some Method ->
  SupportedMethod Method = false ->
  ProcessMessage Message b =
  Returns (CreateErrorResponse (RequestId JsonObject) (-32601) "Method not found", b).
Proof.
  intros Message o m b H1 H2 H3. unfold SupportedMethod in H3.
  repeat (apply orb_false_iff in H3; destruct H3 as [H3 ?]).
  unfold ProcessMessage. rewrite H1, H2. cbv zeta.
  repeat match goal with H : (m == _) = false |- _ => rewrite H; clear H end.
  reflexivity.
Qed.

(** The loop over one frame: a reply that is not empty is sent once, with
    the delimiter appended. *)
Lemma ProcessFrames_one : forall Client Message b,
  IsEmpty Message = false ->
  ProcessFrames Client [Message] b =
  match ProcessMessage Message b with
  | Returns (Response, b') =>
      Returns (if IsEmpty Response then []
               else [OpSend Client (Response +++ String LF EmptyString)], b')
  | Faulted => Faulted
  end.
Proof.
  intros Client Message b H. simpl. rewrite H.
  destruct (ProcessMessage Message b) as [[Response b']|]; [|reflexivity].
  destruct (IsEmpty Response); simpl; reflexivity.
Qed.

(** ** The dispatch chain *)


Lemma existsb_FString_eq : forall (a : FString) (l : list FString),
  existsb (fun lit => a == lit) l = true <->
  exists lit, In lit l /\ ToLower a = ToLower lit.
Proof.
  intros a l. rewrite existsb_exists. split; intros [lit [Hin H]]; exists lit; split; auto.
  - apply FString_eq_true. exact H.
  - apply FString_eq_true. exact H.
Qed.

Lemma existsb_FString_eq_lower : forall (a b : FString) (l : list FString),
  ToLower a = ToLower b ->
  existsb (fun lit => a == lit) l = existsb (fun lit => b == lit) l.
Proof.
  intros a b l H. induction l as [|x r IH]; simpl; [reflexivity|].
  rewrite IH. unfold FString_eq. rewrite H. reflexivity.
Qed.

Lemma Dispatchable_names : forall ToolName,
  Dispatchable ToolName = existsb (fun lit => ToolName == lit) (map fst DispatchTable).
Proof.
  intro ToolName. unfold Dispatchable. generalize DispatchTable as l.
  induction l as [|br r IH]; simpl; congruence.
Qed.

(** Without a matching branch the chain ends in its final [else]. *)
Lemma Dispatch_unknown : forall branches ToolName Args w,
  existsb (fun branch => ToolName == fst branch) branches = false ->
  Dispatch branches ToolName Args w = Returns ("Unknown tool: " +++ ToolName, w).
Proof.
  induction branches as [|[lit exec] r IH]; simpl; intros ToolName Args w H.
  - reflexivity.
  - apply orb_false_iff in H. destruct H as [H1 H2]. rewrite H1. apply IH. exact H2.
Qed.

(** The branch taken depends on the name up to case only. *)
Lemma Dispatch_lower : forall branches a b Args w,
  ToLower a = ToLower b ->
  existsb (fun branch => b == fst branch) branches = true ->
  Dispatch branches a Args w = Dispatch branches b Args w.
Proof.
  induction branches as [|[lit exec] r IH]; simpl; intros a b Args w H Hb.
  - discriminate Hb.
  - assert ((a == lit) = (b == lit)) as E by (unfold FString_eq; rewrite H; reflexivity).
    rewrite E. destruct (b == lit); [reflexivity|]. simpl in Hb. apply IH; assumption.
Qed.

Lemma GameThreadTask_lower : forall a lit Args w,
  ToLower a = ToLower lit -> In lit (map fst DispatchTable) ->
  GameThreadTask a Args w = GameThreadTask lit Args w.
Proof.
  intros a lit Args w H Hin. unfold GameThreadTask. apply Dispatch_lower; [exact H|].
  change (Dispatchable lit = true). rewrite Dispatchable_names.
  apply existsb_FString_eq. exists lit. split; [exact Hin|reflexivity].
Qed.


Lemma UncheckedTools_dispatched : incl UncheckedTools (map fst DispatchTable).
Proof.
  assert (forallb (fun lit => existsb (String.eqb lit) (map fst DispatchTable)) UncheckedTools
          = true) as H by (vm_compute; reflexivity).
  intros lit Hin. rewrite forallb_forall in H. specialize (H lit Hin).
  apply existsb_exists in H. destruct H as [x [Hx E]]. apply String.eqb_eq in E. subst x. exact Hx.
Qed.


(** The executors of the unchecked tools dereference a null [Args]. *)
Lemma UncheckedTools_fault : forall lit w,
  In lit UncheckedTools -> GameThreadTask lit None w = Faulted.
Proof.
  intros lit w Hin. revert lit Hin. apply Forall_forall. unfold UncheckedTools.
  repeat (apply Forall_cons; [vm_compute; reflexivity|]). apply Forall_nil.
Qed.

(** Only those fault, and only on a null [Args]. *)
Lemma DispatchTable_faults : forall lit (Args : TSharedPtr FJsonObject) w,
  In lit (map fst DispatchTable) ->
  GameThreadTask lit Args w = Faulted ->
  Args = None /\ existsb (fun u => lit == u) UncheckedTools = true.
Proof.
  intros lit Args w Hin H.
  assert (forallb (fun lit =>
                     implb (IsFaulted (GameThreadTask lit Args w))
                           (negb (IsValid Args)
                            && existsb (fun u => lit == u) UncheckedTools))
                  (map fst DispatchTable) = true) as Hall
    by (destruct Args; vm_compute; reflexivity).
  rewrite forallb_forall in Hall. specialize (Hall lit Hin). rewrite H in Hall.
  simpl in Hall. apply andb_true_iff in Hall. destruct Hall as [HA HU].
  split; [|exact HU]. destruct Args; [discriminate HA|reflexivity].
Qed.

Lemma GameThreadTask_faults : forall ToolName (Args : TSharedPtr FJsonObject) w,
  GameThreadTask ToolName Args w = Faulted ->
  Args = None /\ existsb (fun u => ToolName == u) UncheckedTools = true.
Proof.
  intros ToolName Args w H.
  destruct (Dispatchable ToolName) eqn:D.
  - rewrite Dispatchable_names in D. apply existsb_FString_eq in D.
    destruct D as [lit [Hin Hl]].
    rewrite (GameThreadTask_lower ToolName lit Args w Hl Hin) in H.
    destruct (DispatchTable_faults lit Args w Hin H) as [HA HU]. split; [exact HA|].
    rewrite (existsb_FString_eq_lower ToolName lit UncheckedTools Hl). exact HU.
  - unfold GameThreadTask in H. rewrite (Dispatch_unknown _ _ _ _ D) in H. discriminate H.
Qed.

Lemma GameThreadTask_unknown : forall ToolName Args w,
  Dispatchable ToolName = false ->
  GameThreadTask ToolName Args w = Returns ("Unknown tool: " +++ ToolName, w).
Proof. intros. apply Dispatch_unknown. assumption. Qed.


(** ** [tools/call], from the params pointer to the reply *)

Lemma HandleToolsCall_valid : forall Id P b,
  HandleToolsCall Id (Some P) b =
  match GameThreadTask (GetStringField P "name") (GetObjectField P "arguments") (GameWorld b) with
  | Returns (ResultText, w) =>
      Returns (CreateSuccessResponse Id (ToolsCallResult ResultText),
               {| GameWorld := w;
                  Submitted := Submitted b ++
                                 [{| TaskToolName := GetStringField P "name";
                                     TaskArgs := GetObjectField P "arguments" |}] |})
  | Faulted => Faulted
  end.
Proof.
  intros Id P b. unfold HandleToolsCall.
  destruct (GameThreadTask _ _ _) as [[text w]|]; reflexivity.
Qed.

(** On a valid arguments pointer every branch of the chain returns. *)
Lemma GameThreadTask_returns : forall ToolName (Args : TSharedPtr FJsonObject) w,
  IsValid Args = true ->
  exists ResultText w', GameThreadTask ToolName Args w = Returns (ResultText, w').
Proof.
  intros ToolName Args w HV.
  destruct (GameThreadTask ToolName Args w) as [[text w']|] eqn:E.
  - exists text, w'. reflexivity.
  - destruct (GameThreadTask_faults ToolName Args w E) as [HA _].
    rewrite HA in HV. discriminate HV.
Qed.

(** The engine hands [HandleToolsCall] a valid arguments pointer, so the
    task returns and the reply is built. *)
Lemma HandleToolsCall_returns : forall Id P b,
  exists ResultText w,
    GameThreadTask (GetStringField P "name") (GetObjectField P "arguments") (GameWorld b)
    = Returns (ResultText, w)
    /\ HandleToolsCall Id (Some P) b
       = Returns (CreateSuccessResponse Id (ToolsCallResult ResultText),
                  {| GameWorld := w;
                     Submitted := Submitted b ++
                                    [{| TaskToolName := GetStringField P "name";
                                        TaskArgs := GetObjectField P "arguments" |}] |}).
Proof.
  intros Id P b.
  destruct (GameThreadTask_returns (GetStringField P "name") (GetObjectField P "arguments")
              (GameWorld b) (GetObjectField_valid P "arguments")) as [text [w E]].
  exists text, w. split; [exact E|]. rewrite HandleToolsCall_valid, E. reflexivity.
Qed.

(** The params pointer [ProcessMessage] passes on is valid as well. *)
Lemma GetObjectField_some : forall o FieldName,
  exists P, GetObjectField o FieldName = Some P.
Proof.
  intros o FieldName. pose proof (GetObjectField_valid o FieldName) as H.
  destruct (GetObjectField o FieldName) as [P|]; [exists P; reflexivity|discriminate H].
Qed.

(** A parsed message with a method other than [notifications/initialized]
    is answered, with the id that was read from it. *)
Lemma ProcessMessage_answers : forall Message JsonObject Method b,
  Deserialize Message = Some JsonObject ->
  TryGetStringField JsonObject "method" = Some Method ->
  (Method == "notifications/initialized") = false ->
  exists Response b',
    ProcessMessage Message b = Returns (Response, b')
    /\ ReplyTo (RequestId JsonObject) Response.
Proof.
  intros Message o m b H1 H2 Hn.
  destruct (m == "initialize") eqn:Hi.
  { rewrite (ProcessMessage_initialize Message o m b H1 H2 Hi).
    eexists. eexists. split; [reflexivity|]. unfold HandleInitialize. apply ReplyTo_success. }
  destruct (m == "tools/list") eqn:Hl.
  { rewrite (ProcessMessage_tools_list Message o m b H1 H2 Hl).
    eexists. eexists. split; [reflexivity|]. unfold HandleToolsList. apply ReplyTo_success. }
  destruct (m == "tools/call") eqn:Hc.
  { rewrite (ProcessMessage_tools_call Message o m b H1 H2 Hc).
    destruct (GetObjectField_some o "params") as [P HP]. rewrite HP.
    destruct (HandleToolsCall_returns (RequestId o) P b) as [text [w [_ E]]].
    rewrite E. eexists. eexists. split; [reflexivity|]. apply ReplyTo_success. }
  rewrite (ProcessMessage_method_not_found Message o m b H1 H2).
  - eexists. eexists. split; [reflexivity|]. apply ReplyTo_error.
  - unfold SupportedMethod. rewrite Hi, Hl, Hc, Hn. reflexivity.
Qed.

(** Whatever the frame, [ProcessMessage] returns. *)
Lemma ProcessMessage_returns : forall Message b,
  exists Response b', ProcessMessage Message b = Returns (Response, b').
Proof.
  intros Message b.
  destruct (Deserialize Message) as [o|] eqn:Hd.
  - destruct (TryGetStringField o "method") as [m|] eqn:Hm.
    + destruct (m == "notifications/initialized") eqn:Hn.
      * rewrite (ProcessMessage_notification Message o m b Hd Hm Hn). eauto.
      * destruct (ProcessMessage_answers Message o m b Hd Hm Hn) as [r [b' [E _]]]. eauto.
    + rewrite (ProcessMessage_no_method Message o b Hd Hm). eauto.
  - rewrite (ProcessMessage_parse_error Message b Hd). eauto.
Qed.

(** ** Message faults, requests and notifications *)



(** C7, amended: the only messages that produce no reply are those whose
    method is [notifications/initialized], with or without an id.  Every
    other frame is answered once, whether or not it carries an id: a parsed
    message with another method with an envelope whose id is the one read
    from it, which is 0 for a message without id; a parsed message without
    a readable method with error -32600 and id 0; and a frame that is not
    read as a JSON object with error -32700 and id 0. *)
Theorem only_initialized_notification_is_silent :
  forall (Message : FString) (Client : FSocket) (b : Bridge),
    IsEmpty Message = false ->
    (forall JsonObject Method,
       Deserialize Message = Some JsonObject ->
       TryGetStringField JsonObject "method" = Some Method ->
       (Method == "notifications/initialized") = true ->
       ProcessMessage Message b = Returns (EmptyString, b)
       /\ ProcessFrames Client [Message] b = Returns ([], b)) /\
    (forall JsonObject Method,
       Deserialize Message = Some JsonObject ->
       TryGetStringField JsonObject "method" = Some Method ->
       (Method == "notifications/initialized") = false ->
       (TryGetNumberField JsonObject "id" = None -> RequestId JsonObject = 0%Z)
       /\ exists Response b',
            ReplyTo (RequestId JsonObject) Response
            /\ ProcessFrames Client [Message] b
               = Returns ([OpSend Client (Response +++ String LF EmptyString)], b')) /\
    (forall JsonObject,
       Deserialize Message = Some JsonObject ->
       TryGetStringField JsonObject "method" = None ->
       ProcessFrames Client [Message] b =
       Returns ([OpSend Client
                   (Serialize [("jsonrpc", FJsonValueString "2.0");
                               ("id", FJsonValueNumber 0);
                               ("error", FJsonValueObject
                                           [("code", FJsonValueNumber (-32600));
                                            ("message", FJsonValueString "Invalid Request")])]
                    +++ String LF EmptyString)], b)) /\
    (Deserialize Message = None ->
     ProcessFrames Client [Message] b =
     Returns ([OpSend Client
                 (Serialize [("jsonrpc", FJsonValueString "2.0");
                             ("id", FJsonValueNumber 0);
                             ("error", FJsonValueObject
                                         [("code", FJsonValueNumber (-32700));
                                          ("message", FJsonValueString "Parse error")])]
                  +++ String LF EmptyString)], b)).
Proof.
  intros Message Client b Hne.
  rewrite (ProcessFrames_one Client Message b Hne).
  split; [|split; [|split]].
  - intros o m Hd Hm Hn. rewrite (ProcessMessage_notification Message o m b Hd Hm Hn).
    split; reflexivity.
  - intros o m Hd Hm Hn. split.
    + intro Hid. unfold RequestId. rewrite Hid. reflexivity.
    + destruct (ProcessMessage_answers Message o m b Hd Hm Hn) as [Response [b' [E H]]].
      exists Response, b'. split; [exact H|].
      rewrite E, (ReplyTo_not_empty _ _ H). reflexivity.
  - intros o Hd Hm. rewrite (ProcessMessage_no_method Message o b Hd Hm).
    rewrite CreateErrorResponse_not_empty. reflexivity.
  - intro Hd. rewrite (ProcessMessage_parse_error Message b Hd).
    rewrite CreateErrorResponse_not_empty. reflexivity.
Qed.

(** ** [tools/call] and [tools/list] *)

(** C3: a [tools/call] whose params pointer is valid is never answered with
    a JSON-RPC error: [HandleToolsCall] returns, and the reply is the
    success envelope for the request id around exactly one content item of
    type ["text"], which holds whatever the executor returned; for a name
    the chain has no branch for, that text is ["Unknown tool: "] followed by
    the name.  [ProcessMessage] answers a [tools/call] message with that
    reply. *)
Theorem tools_call_with_valid_params_succeeds :
  forall (Id : Z) (P : FJsonObject) (b : Bridge),
    exists ResultText w,
      GameThreadTask (GetStringField P "name") (GetObjectField P "arguments") (GameWorld b)
      = Returns (ResultText, w)
      /\ HandleToolsCall Id (Some P) b
         = Returns (Serialize
                      [("jsonrpc", FJsonValueString "2.0");
                       ("id", FJsonValueNumber Id);
                       ("result",
                        FJsonValueObject
                          [("content",
                            FJsonValueArray
                              [FJsonValueObject [("type", FJsonValueString "text");
                                                 ("text", FJsonValueString ResultText)]])])],
                    {| GameWorld := w;
                       Submitted := Submitted b ++
                                      [{| TaskToolName := GetStringField P "name";
                                          TaskArgs := GetObjectField P "arguments" |}] |})
      /\ (Dispatchable (GetStringField P "name") = false ->
          ResultText = "Unknown tool: " +++ GetStringField P "name")
      /\ (forall Message JsonObject Method,
            Deserialize Message = Some JsonObject ->
            TryGetStringField JsonObject "method" = Some Method ->
            (Method == "tools/call") = true ->
            GetObjectField JsonObject "params" = Some P ->
            RequestId JsonObject = Id ->
            ProcessMessage Message b = HandleToolsCall Id (Some P) b).
Proof.
  intros Id P b.
  destruct (HandleToolsCall_returns Id P b) as [text [w [E H]]].
  exists text, w. split; [exact E|]. split; [exact H|]. split.
  - intro D. rewrite (GameThreadTask_unknown _ _ _ D) in E. congruence.
  - intros Message o m Hd Hm Hc HP HId.
    rewrite (ProcessMessage_tools_call Message o m b Hd Hm Hc), HP, HId. reflexivity.
Qed.




(** ** The server loop: connections *)

Lemma remove_socket_only : forall c, remove_socket c [c] = [].
Proof. intro c. unfold remove_socket. simpl. rewrite Nat.eqb_refl. reflexivity. Qed.

Lemma remove_socket_old : forall Old New,
  Old < New -> remove_socket Old ([Old] ++ [New]) = [New].
Proof.
  intros Old New H. unfold remove_socket. simpl. rewrite Nat.eqb_refl. simpl.
  destruct (Nat.eqb New Old) eqn:E; [apply Nat.eqb_eq in E; lia|reflexivity].
Qed.

Lemma AcceptConnection_replaces : forall s Old,
  OneClient s -> ClientSocket s = Some Old ->
  AcceptConnection AcceptReturnsSocket s =
  {| ClientSocket := Some (NextSocket s);
     LiveSockets := [NextSocket s];
     NextSocket := S (NextSocket s);
     SocketLog := SocketLog s ++ [OpAccept (NextSocket s); OpClose Old; OpDestroy Old];
     ServerBridge := ServerBridge s |}.
Proof.
  intros s Old [HL HF] HC. unfold AcceptConnection. rewrite HC.
  rewrite HC in HL. rewrite HL in *. inversion HF; subst.
  rewrite remove_socket_old by assumption. rewrite <- app_assoc. reflexivity.
Qed.

Lemma AcceptConnection_OneClient : forall e s,
  OneClient s -> OneClient (AcceptConnection e s).
Proof.
  intros e s H. destruct e; try exact H.
  destruct (ClientSocket s) as [Old|] eqn:HC.
  - rewrite (AcceptConnection_replaces s Old H HC). split; simpl; [reflexivity|].
    constructor; [lia|constructor].
  - destruct H as [HL HF]. unfold AcceptConnection. rewrite HC. rewrite HC in HL.
    split; simpl; rewrite HL; simpl; [reflexivity|]. constructor; [lia|constructor].
Qed.

Lemma ServeClient_OneClient : forall e s s',
  OneClient s -> ServeClient e s = Returns s' -> OneClient s'.
Proof.
  intros e s s' H E. unfold ServeClient in E.
  destruct (ClientSocket s) as [Client|] eqn:HC; [|inversion E; subst; exact H].
  destruct e as [[|] Message|[|]]; try (inversion E; subst; exact H).
  - destruct (ProcessFrames _ _ _) as [[sent b]|]; [|discriminate E].
    inversion E; subst. destruct H as [HL HF]. split; simpl; assumption.
  - inversion E; subst. destruct H as [HL HF]. rewrite HC in HL. split; simpl.
    + rewrite HL. apply remove_socket_only.
    + rewrite HL. rewrite remove_socket_only. constructor.
Qed.

Lemma RunIteration_OneClient : forall e s s',
  OneClient s -> RunIteration e s = Returns s' -> OneClient s'.
Proof.
  intros e s s' H E. unfold RunIteration in E.
  eapply ServeClient_OneClient; [|exact E]. apply AcceptConnection_OneClient. exact H.
Qed.

Lemma RunLoop_OneClient : forall events s s',
  OneClient s -> RunLoop events s = Returns s' -> OneClient s'.
Proof.
  induction events as [|e rest IH]; simpl; intros s s' H E.
  - inversion E; subst. exact H.
  - destruct (RunIteration e s) as [s1|] eqn:E1; [|discriminate E].
    eapply IH; [|exact E]. eapply RunIteration_OneClient; eauto.
Qed.

Lemma OneClient_at_most_one : forall s, OneClient s -> List.length (LiveSockets s) <= 1.
Proof. intros s [HL _]. rewrite HL. destruct (ClientSocket s); simpl; lia. Qed.

(** C9: the client sockets held by the socket subsystem are exactly the one
    [ClientSocket] points to, so at most one.  This holds when [Run] starts
    and every iteration of the loop preserves it, whatever the listener and
    the client socket report.  When [Accept] returns a socket while a client
    is connected, the old socket is closed and destroyed and the new one
    takes its place, without any condition on the old connection. *)
Theorem at_most_one_client_connection :
  (forall w, OneClient (InitialServer w))
  /\ (forall e s s', OneClient s -> RunIteration e s = Returns s' -> OneClient s')
  /\ (forall events w s,
        RunLoop events (InitialServer w) = Returns s ->
        OneClient s /\ List.length (LiveSockets s) <= 1)
  /\ (forall s Old e,
        OneClient s -> ClientSocket s = Some Old -> OnListener e = AcceptReturnsSocket ->
        let s1 := AcceptConnection (OnListener e) s in
        ClientSocket s1 = Some (NextSocket s)
        /\ LiveSockets s1 = [NextSocket s]
        /\ NextSocket s <> Old
        /\ SocketLog s1
           = SocketLog s ++ [OpAccept (NextSocket s); OpClose Old; OpDestroy Old]).
Proof.
  split; [|split; [|split]].
  - intro w. split; simpl; [reflexivity|constructor].
  - exact RunIteration_OneClient.
  - intros events w s E.
    assert (OneClient s) as H.
    { eapply RunLoop_OneClient; [|exact E]. split; simpl; [reflexivity|constructor]. }
    split; [exact H|apply OneClient_at_most_one; exact H].
  - intros s Old e H HC He. rewrite He. cbv zeta.
    rewrite (AcceptConnection_replaces s Old H HC). simpl.
    repeat split. destruct H as [HL HF]. rewrite HC in HL. rewrite HL in HF.
    inversion HF; subst. lia.
Qed.

(** ** The server loop: frames *)

Lemma Segments_not_nil : forall d s, Segments d s <> [].
Proof.
  intros d s. destruct s as [|c r]; simpl; [discriminate|].
  destruct (Ascii.eqb c d); [discriminate|]. destruct (Segments d r); discriminate.
Qed.

Lemma Segments_app : forall d a b,
  Segments d (a +++ String d b) = Segments d a ++ Segments d b.
Proof.
  intros d a b. induction a as [|c r IH]; simpl.
  - rewrite Ascii.eqb_refl. reflexivity.
  - destruct (Ascii.eqb c d); [rewrite IH; reflexivity|].
    rewrite IH. pose proof (Segments_not_nil d r) as N.
    destruct (Segments d r) as [|seg rest]; [congruence|reflexivity].
Qed.

Lemma Segments_no_delimiter : forall d s, HasDelimiter d s = false -> Segments d s = [s].
Proof.
  intros d s. induction s as [|c r IH]; simpl; intro H; [reflexivity|].
  apply orb_false_iff in H. destruct H as [H1 H2]. rewrite H1, (IH H2). reflexivity.
Qed.

Lemma Segments_without_delimiter : forall d s,
  Forall (fun seg => HasDelimiter d seg = false) (Segments d s).
Proof.
  intros d s. induction s as [|c r IH]; simpl.
  - constructor; [reflexivity|constructor].
  - destruct (Ascii.eqb c d) eqn:E.
    + constructor; [reflexivity|exact IH].
    + destruct (Segments d r) as [|seg rest]; [constructor; [simpl; rewrite E; reflexivity|constructor]|].
      inversion IH; subst. constructor; [simpl; rewrite E; assumption|assumption].
Qed.

Lemma FramesOfRead_segments : forall s,
  FramesOfRead s = filter (fun seg => negb (IsEmpty seg)) (Segments LF s).
Proof. intros [|c r]; reflexivity. Qed.

Lemma ProcessFrames_app : forall Client f1 f2 b,
  ProcessFrames Client (f1 ++ f2) b =
  match ProcessFrames Client f1 b with
  | Returns (sent1, b1) =>
      match ProcessFrames Client f2 b1 with
      | Returns (sent2, b2) => Returns (sent1 ++ sent2, b2)
      | Faulted => Faulted
      end
  | Faulted => Faulted
  end.
Proof.
  intros Client f1 f2. induction f1 as [|Msg rest IH]; simpl; intro b.
  - destruct (ProcessFrames Client f2 b) as [[sent2 b2]|]; reflexivity.
  - destruct (IsEmpty Msg); [apply IH|].
    destruct (ProcessMessage Msg b) as [[Response b1]|]; [|reflexivity].
    rewrite IH. destruct (ProcessFrames Client rest b1) as [[sent1 b2]|]; [|reflexivity].
    destruct (ProcessFrames Client f2 b2) as [[sent2 b3]|]; [|reflexivity].
    rewrite app_assoc. reflexivity.
Qed.

Lemma RunIteration_read : forall s Client Message,
  ClientSocket s = Some Client ->
  RunIteration (ReadEvent Message) s =
  match ProcessFrames Client (FramesOfRead Message) (ServerBridge s) with
  | Returns (sent, b) => Returns (AfterTraffic s sent b)
  | Faulted => Faulted
  end.
Proof.
  intros s Client Message HC. unfold RunIteration, ReadEvent, ServeClient. simpl.
  rewrite HC. reflexivity.
Qed.

(** C2, amended: the frames of a read are cut from the text of that read
    alone.  They are its segments between newline delimiters, in order, the
    empty ones dropped, and the segment after the last delimiter is among
    them: a read without a delimiter is one frame.  Nothing is kept for the
    next read, so two reads are processed as the frames of the first followed
    by the frames of the second; a line cut in two by the reads is handled
    as two frames. *)
Theorem frames_are_cut_per_read :
  FramesOfRead EmptyString = []
  /\ (forall a b, FramesOfRead (a +++ String LF b) = FramesOfRead a ++ FramesOfRead b)
  /\ (forall s, IsEmpty s = false -> HasDelimiter LF s = false -> FramesOfRead s = [s])
  /\ (forall s,
        Forall (fun frame => IsEmpty frame = false /\ HasDelimiter LF frame = false)
               (FramesOfRead s))
  /\ (forall s Client m1 m2,
        ClientSocket s = Some Client ->
        RunLoop [ReadEvent m1; ReadEvent m2] s =
        match ProcessFrames Client (FramesOfRead m1 ++ FramesOfRead m2) (ServerBridge s) with
        | Returns (sent, b) => Returns (AfterTraffic s sent b)
        | Faulted => Faulted
        end).
Proof.
  split; [reflexivity|]. split.
  { intros a b. rewrite !FramesOfRead_segments, Segments_app. apply filter_app. }
  split.
  { intros s Hne Hd. rewrite FramesOfRead_segments, (Segments_no_delimiter LF s Hd).
    simpl. rewrite Hne. reflexivity. }
  split.
  { intro s. rewrite FramesOfRead_segments. apply Forall_forall. intros frame Hin.
    apply filter_In in Hin. destruct Hin as [Hin Hne]. split.
    - destruct (IsEmpty frame); [discriminate Hne|reflexivity].
    - pose proof (Segments_without_delimiter LF s) as F. rewrite Forall_forall in F.
      apply F. exact Hin. }
  intros s Client m1 m2 HC. simpl.
  rewrite (RunIteration_read s Client m1 HC), ProcessFrames_app.
  destruct (ProcessFrames Client (FramesOfRead m1) (ServerBridge s)) as [[sent1 b1]|];
    [|reflexivity].
  rewrite (RunIteration_read (AfterTraffic s sent1 b1) Client m2 HC). simpl.
  destruct (ProcessFrames Client (FramesOfRead m2) b1) as [[sent2 b2]|]; [|reflexivity].
  unfold AfterTraffic. simpl. rewrite app_assoc. reflexivity.
Qed.

(** ** The rendezvous *)

Lemma RendezvousStart_invariant : forall calls w,
  RendezvousInvariant (RendezvousStart calls w).
Proof. intros calls w. unfold RendezvousInvariant. simpl. auto. Qed.

Lemma ThreadStep_invariant : forall th s s',
  RendezvousInvariant s -> ThreadStep th s = Some s' -> RendezvousInvariant s'.
Proof.
  intros th s s' I E. unfold RendezvousInvariant in *. unfold ThreadStep in E.
  destruct th.
  - destruct (Net s) as [|t] eqn:N.
    + destruct (Calls s) as [|t rest]; [discriminate E|].
      inversion E; subst; clear E. simpl.
      destruct I as [Q [G W]]. left. rewrite Q, G. auto.
    + destruct (Signalled s) eqn:Sg; [|discriminate E].
      inversion E; subst; clear E. simpl.
      destruct I as [[Q [G [S' W]]] | [[Q [G [S' [W R]]]] | [Q [G [S' [W R]]]]]];
        try congruence.
      repeat split; auto. lia.
  - destruct (OnGameThread s) eqn:G.
    + destruct (Queue s) as [|t rest] eqn:Q; [discriminate E|].
      destruct (GameThreadTask (TaskToolName t) (TaskArgs t) (EditorWorld s))
        as [[text w]|] eqn:T; [|discriminate E].
      inversion E; subst; clear E. simpl.
      destruct (Net s) as [|t0] eqn:N.
      * destruct I as [Q' _]. congruence.
      * destruct I as [[Q' [G' [S' W]]] | [[Q' [G' _]] | [Q' _]]]; try congruence.
        right; left. inversion Q'; subst.
        repeat split; auto. exists (EditorWorld s). exact T.
    + inversion E; subst; clear E. simpl.
      destruct (Net s) as [|t0] eqn:N.
      * destruct I as [_ [G' _]]. congruence.
      * destruct I as [[_ [G' _]] | [[Q' [G' [S' [W R]]]] | [_ [G' _]]]]; try congruence.
        right; right. repeat split; auto.
Qed.

Lemma RunSchedule_invariant : forall schedule s,
  RendezvousInvariant s -> RendezvousInvariant (RunSchedule schedule s).
Proof.
  induction schedule as [|th rest IH]; simpl; intros s I; [exact I|].
  destruct (ThreadStep th s) as [s1|] eqn:E; apply IH; [|exact I].
  eapply ThreadStep_invariant; eauto.
Qed.

Lemma OneCall_completes : forall t w text w',
  GameThreadTask (TaskToolName t) (TaskArgs t) w = Returns (text, w') ->
  RunSchedule OneCall (RendezvousStart [t] w) =
  {| Calls := [];
     Net := NetOutside;
     Queue := [];
     OnGameThread := GameIdle;
     Signalled := true;
     ResultText := text;
     Writes := 1;
     EditorWorld := w';
     Completed := [(t, text)] |}.
Proof.
  intros t w text w' H. unfold OneCall, RendezvousStart, RunSchedule, ThreadStep.
  cbn [Net Calls Queue OnGameThread Signalled EditorWorld Completed ResultText Writes app].
  rewrite H.
  cbn [Net Calls Queue OnGameThread Signalled EditorWorld Completed ResultText Writes app].
  reflexivity.
Qed.

(** C4: under every schedule of the two threads, and for every sequence of
    calls the network thread makes: at most one closure of the bridge is
    queued or running on the game thread, and none while the network thread
    is outside [HandleToolsCall], where alone it submits; at [Wait()] with
    the event not signalled the network thread has no step, whatever time
    passes; [ResultText] is assigned at most once per call, never by a step
    of the network thread, the assignment comes before the signal, and when
    the event is signalled [ResultText] has been assigned exactly once and
    holds what the chain returned for the very task of the call; the call
    returns with that text.  A call whose executor returns does complete
    under the schedule submit, run, trigger, resume. *)
Theorem rendezvous_blocks_until_written_once :
  forall (calls : list Task) (w : World) (schedule : list Thread),
    InPrivilegedContext (RunSchedule schedule (RendezvousStart calls w)) <= 1
    /\ (Net (RunSchedule schedule (RendezvousStart calls w)) = NetOutside ->
        InPrivilegedContext (RunSchedule schedule (RendezvousStart calls w)) = 0)
    /\ (forall t,
          Net (RunSchedule schedule (RendezvousStart calls w)) = NetAtWait t ->
          Signalled (RunSchedule schedule (RendezvousStart calls w)) = false ->
          ThreadStep NetworkThread (RunSchedule schedule (RendezvousStart calls w)) = None)
    /\ Writes (RunSchedule schedule (RendezvousStart calls w)) <= 1
    /\ (forall s',
          ThreadStep NetworkThread (RunSchedule schedule (RendezvousStart calls w)) = Some s' ->
          Writes s' <= Writes (RunSchedule schedule (RendezvousStart calls w)))
    /\ (OnGameThread (RunSchedule schedule (RendezvousStart calls w)) = GameBeforeTrigger ->
        Writes (RunSchedule schedule (RendezvousStart calls w)) = 1
        /\ Signalled (RunSchedule schedule (RendezvousStart calls w)) = false)
    /\ (forall t,
          Net (RunSchedule schedule (RendezvousStart calls w)) = NetAtWait t ->
          Signalled (RunSchedule schedule (RendezvousStart calls w)) = true ->
          Writes (RunSchedule schedule (RendezvousStart calls w)) = 1
          /\ ResultOf t (RunSchedule schedule (RendezvousStart calls w)))
    /\ (forall t s',
          Net (RunSchedule schedule (RendezvousStart calls w)) = NetAtWait t ->
          ThreadStep NetworkThread (RunSchedule schedule (RendezvousStart calls w)) = Some s' ->
          Completed s'
          = Completed (RunSchedule schedule (RendezvousStart calls w))
            ++ [(t, ResultText (RunSchedule schedule (RendezvousStart calls w)))]
          /\ ResultOf t (RunSchedule schedule (RendezvousStart calls w)))
    /\ (forall t text w',
          GameThreadTask (TaskToolName t) (TaskArgs t) w = Returns (text, w') ->
          Completed (RunSchedule OneCall (RendezvousStart [t] w)) = [(t, text)]).
Proof.
  intros calls w schedule.
  pose proof (RunSchedule_invariant schedule _ (RendezvousStart_invariant calls w)) as I.
  set (s := RunSchedule schedule (RendezvousStart calls w)) in *.
  unfold RendezvousInvariant in I. unfold InPrivilegedContext.
  repeat match goal with |- _ /\ _ => split end.
  - destruct (Net s).
    + destruct I as [Q [G W]]. rewrite Q, G. simpl. lia.
    + destruct I as [[Q [G _]] | [[Q [G _]] | [Q [G _]]]]; rewrite Q, G; simpl; lia.
  - intro N. rewrite N in I. destruct I as [Q [G W]]. rewrite Q, G. reflexivity.
  - intros t N Sg. unfold ThreadStep. rewrite N, Sg. reflexivity.
  - destruct (Net s).
    + destruct I as [_ [_ W]]. exact W.
    + destruct I as [[_ [_ [_ W]]] | [[_ [_ [_ [W _]]]] | [_ [_ [_ [W _]]]]]]; lia.
  - intros s' E. unfold ThreadStep in E. destruct (Net s).
    + destruct (Calls s); [discriminate E|]. inversion E; subst. simpl. lia.
    + destruct (Signalled s); [|discriminate E]. inversion E; subst. simpl. lia.
  - intro G. destruct (Net s).
    + destruct I as [_ [G' _]]. congruence.
    + destruct I as [[_ [G' _]] | [[_ [_ [Sg [W _]]]] | [_ [G' _]]]]; try congruence. auto.
  - intros t N Sg. rewrite N in I.
    destruct I as [[_ [_ [Sg' _]]] | [[_ [_ [Sg' _]]] | [_ [_ [_ [W R]]]]]]; try congruence.
    auto.
  - intros t s' N E. unfold ThreadStep in E. rewrite N in E. rewrite N in I.
    destruct (Signalled s) eqn:Sg; [|discriminate E]. inversion E; subst. simpl.
    destruct I as [[_ [_ [Sg' _]]] | [[_ [_ [Sg' _]]] | [_ [_ [_ [W R]]]]]]; try congruence.
    auto.
  - intros t text w' H. rewrite (OneCall_completes t w text w' H). reflexivity.
Qed.

(** ** Further properties *)

(** The loop over the frames of a read returns. *)
Lemma ProcessFrames_returns : forall Client Messages b,
  exists sent b', ProcessFrames Client Messages b = Returns (sent, b').
Proof.
  intros Client Messages. induction Messages as [|Msg rest IH]; intro b; simpl.
  - eauto.
  - destruct (IsEmpty Msg); [apply IH|].
    destruct (ProcessMessage_returns Msg b) as [Response [b1 E]]. rewrite E.
    destruct (IH b1) as [more [b2 E2]]. rewrite E2. eauto.
Qed.

Lemma RunIteration_returns : forall e s, exists s', RunIteration e s = Returns s'.
Proof.
  intros e s. unfold RunIteration, ServeClient.
  destruct (ClientSocket (AcceptConnection (OnListener e) s)) as [Client|]; [|eauto].
  destruct (OnClient e) as [[|] Message|[|]]; eauto.
  destruct (ProcessFrames_returns Client (FramesOfRead Message)
              (ServerBridge (AcceptConnection (OnListener e) s))) as [sent [b E]].
  rewrite E. eauto.
Qed.

(** X1: nothing a client sends makes the server dereference a null
    pointer.  [ProcessMessage] returns for every frame, the loop over the
    frames of a read returns, and so does the server loop for every sequence
    of connections and reads.  The executors of the [UncheckedTools] would
    dereference a null arguments pointer; they are never handed one, since
    [GetObjectField] yields a valid object where the request has no
    arguments. *)
Theorem requests_from_the_wire_never_fault :
  (forall Message b, exists Response b', ProcessMessage Message b = Returns (Response, b'))
  /\ (forall Client Messages b,
        exists sent b', ProcessFrames Client Messages b = Returns (sent, b'))
  /\ (forall events s, exists s', RunLoop events s = Returns s')
  /\ (forall Id P b,
        IsValid (GetObjectField P "arguments") = true
        /\ exists Response b', HandleToolsCall Id (Some P) b = Returns (Response, b'))
  /\ (forall lit w, In lit UncheckedTools -> GameThreadTask lit None w = Faulted).
Proof.
  split; [exact ProcessMessage_returns|]. split; [exact ProcessFrames_returns|]. split.
  { intros events. induction events as [|e rest IH]; intro s; simpl.
    - eauto.
    - destruct (RunIteration_returns e s) as [s1 E]. rewrite E. apply IH. }
  split.
  { intros Id P b. split; [apply GetObjectField_valid|].
    destruct (HandleToolsCall_returns Id P b) as [text [w [_ H]]].
    rewrite H. eauto. }
  intros lit w Hin. apply UncheckedTools_fault. exact Hin.
Qed.

(** The [result] object of the reply to [initialize]. *)
Lemma HandleInitialize_result : forall Id,
  HandleInitialize Id =
  CreateSuccessResponse Id
    [("protocolVersion", FJsonValueString "2024-11-05");
     ("capabilities", FJsonValueObject [("tools", FJsonValueObject [])]);
     ("serverInfo", FJsonValueObject [("name", FJsonValueString "ue5-mcp-bridge");
                                      ("version", FJsonValueString "3.2.0")])].
Proof. reflexivity. Qed.

(** X2: [initialize] may be called again and again: it leaves the state as
    it was, and its reply is the same success envelope each time, with the
    protocol version, the tools capability and the server identity. *)
Theorem initialize_is_idempotent :
  forall (Message : FString) (JsonObject : FJsonObject) (Method : FString)
         (Client : FSocket) (b : Bridge),
    IsEmpty Message = false ->
    Deserialize Message = Some JsonObject ->
    TryGetStringField JsonObject "method" = Some Method ->
    (Method == "initialize") = true ->
    ProcessMessage Message b =
    Returns (CreateSuccessResponse (RequestId JsonObject)
               [("protocolVersion", FJsonValueString "2024-11-05");
                ("capabilities", FJsonValueObject [("tools", FJsonValueObject [])]);
                ("serverInfo", FJsonValueObject [("name", FJsonValueString "ue5-mcp-bridge");
                                                 ("version", FJsonValueString "3.2.0")])],
             b)
    /\ ProcessFrames Client [Message; Message] b =
       Returns ([OpSend Client (HandleInitialize (RequestId JsonObject)
                                +++ String LF EmptyString);
                 OpSend Client (HandleInitialize (RequestId JsonObject)
                                +++ String LF EmptyString)],
                b).
Proof.
  intros Message o m Client b Hne Hd Hm Hi.
  pose proof (ProcessMessage_initialize Message o m b Hd Hm Hi) as H.
  split; [exact H|].
  assert (ProcessFrames Client [Message] b =
          Returns ([OpSend Client (HandleInitialize (RequestId o) +++ String LF EmptyString)],
                   b)) as One.
  { rewrite (ProcessFrames_one Client Message b Hne), H.
    unfold HandleInitialize at 1. rewrite CreateSuccessResponse_not_empty. reflexivity. }
  change [Message; Message] with ([Message] ++ [Message]).
  rewrite ProcessFrames_app, One, One. reflexivity.
Qed.

(** X3: replies follow the order of the requests: when two frames, one
    after the other, are each answered, the reply to the first is sent
    before the reply to the second, and the second is processed in the state
    the first one left. *)
Theorem replies_keep_request_order :
  forall (Client : FSocket) (m1 m2 r1 r2 : FString) (b b1 b2 : Bridge),
    IsEmpty m1 = false ->
    IsEmpty m2 = false ->
    ProcessMessage m1 b = Returns (r1, b1) ->
    ProcessMessage m2 b1 = Returns (r2, b2) ->
    IsEmpty r1 = false ->
    IsEmpty r2 = false ->
    ProcessFrames Client [m1; m2] b =
    Returns ([OpSend Client (r1 +++ String LF EmptyString);
              OpSend Client (r2 +++ String LF EmptyString)], b2).
Proof.
  intros Client m1 m2 r1 r2 b b1 b2 H1 H2 P1 P2 R1 R2.
  change [m1; m2] with ([m1] ++ [m2]).
  rewrite ProcessFrames_app.
  rewrite (ProcessFrames_one Client m1 b H1), P1, R1.
  rewrite (ProcessFrames_one Client m2 b1 H2), P2, R2.
  reflexivity.
Qed.

(** X4: the reply [HandleToolsCall] builds is made of the text with which
    one call of the rendezvous completes, and the world is the one that run
    leaves; when the executor faults the rendezvous completes nothing. *)
Theorem tools_call_reply_is_rendezvous_result :
  forall (Id : Z) (P : FJsonObject) (b : Bridge),
    match HandleToolsCall Id (Some P) b with
    | Returns (Response, b') =>
        exists text,
          Completed (RunSchedule OneCall
                       (RendezvousStart [{| TaskToolName := GetStringField P "name";
                                            TaskArgs := GetObjectField P "arguments" |}]
                          (GameWorld b)))
          = [({| TaskToolName := GetStringField P "name";
                 TaskArgs := GetObjectField P "arguments" |}, text)]
          /\ EditorWorld (RunSchedule OneCall
                            (RendezvousStart [{| TaskToolName := GetStringField P "name";
                                                 TaskArgs := GetObjectField P "arguments" |}]
                               (GameWorld b)))
             = GameWorld b'
          /\ Response = CreateSuccessResponse Id (ToolsCallResult text)
    | Faulted =>
        Completed (RunSchedule OneCall
                     (RendezvousStart [{| TaskToolName := GetStringField P "name";
                                          TaskArgs := GetObjectField P "arguments" |}]
                        (GameWorld b)))
        = []
    end.
Proof.
  intros Id P b. rewrite HandleToolsCall_valid.
  destruct (GameThreadTask (GetStringField P "name") (GetObjectField P "arguments")
              (GameWorld b)) as [[text w]|] eqn:E.
  - exists text.
    rewrite (OneCall_completes {| TaskToolName := GetStringField P "name";
                                  TaskArgs := GetObjectField P "arguments" |}
               (GameWorld b) text w E).
    simpl. auto.
  - unfold OneCall, RendezvousStart, RunSchedule, ThreadStep. cbn [Net Calls Queue OnGameThread
      Signalled EditorWorld Completed TaskToolName TaskArgs app].
    rewrite E. reflexivity.
Qed.



(** ** Starting and stopping the server *)

Lemma FMCPServer_new_Accounted : forall w, Accounted (FMCPServer_new w).
Proof.
  intro w. unfold Accounted. simpl.
  repeat split; try reflexivity; try discriminate. constructor.
Qed.

Lemma remove_socket_created : forall Listener,
  remove_socket Listener ([] ++ [Listener]) = [].
Proof. intro Listener. apply remove_socket_only. Qed.

Lemma Start_stopped : forall Port a s,
  Accounted s -> bIsRunning s = false ->
  fst (Start Port a s) = Cooperates a
  /\ bIsRunning (snd (Start Port a s)) = Cooperates a
  /\ ServerPort (snd (Start Port a s)) = Port
  /\ Connection (snd (Start Port a s)) = Connection s
  /\ Accounted (snd (Start Port a s)).
Proof.
  intros Port a s (HO & HR & HT & HS & [HC1 HC2] & HN) Hstopped.
  assert (ListenerSocket s = None) as HL.
  { rewrite Hstopped in HR. destruct (ListenerSocket s); [discriminate HR|reflexivity]. }
  assert (ServerThread s = false) as Hthread.
  { destruct (ServerThread s); [|reflexivity]. rewrite HT in Hstopped by reflexivity.
    discriminate Hstopped. }
  rewrite HL in HO. simpl in HO.
  unfold Start, Cooperates, Accounted. rewrite Hstopped.
  destruct a as [[|] [Listener|] [|] [|] thread]; simpl;
    rewrite ?HO, ?HL, ?Hthread, ?remove_socket_created;
    repeat split; try reflexivity; try assumption; try discriminate;
    intros _; apply HN; exact Hstopped.
Qed.

Lemma Start_running : forall Port a s, bIsRunning s = true -> Start Port a s = (false, s).
Proof. intros Port a s H. unfold Start. rewrite H. reflexivity. Qed.











(** X7: [Start] on a running server returns false and changes nothing.  On
    a server that is not running it returns true exactly when the subsystem
    is found, the socket is created, bound and put to listen; the server
    then counts as running exactly when [Start] returned true.  When it
    fails, the socket it may have created is destroyed again, yet
    [GetPort] already reports the port asked for. *)
Theorem start_succeeds_iff_platform_cooperates :
  forall Port a s,
    Accounted s ->
    (IsRunning s = true -> Start Port a s = (false, s))
    /\ (IsRunning s = false ->
        fst (Start Port a s)
        = SubsystemFound a && IsValid (CreateSocket a) && BindSucceeds a && ListenSucceeds a
        /\ IsRunning (snd (Start Port a s)) = fst (Start Port a s)
        /\ GetPort (snd (Start Port a s)) = Port
        /\ (fst (Start Port a s) = false ->
            ListenerSocket (snd (Start Port a s)) = None
            /\ OpenListeners (snd (Start Port a s)) = [])).
Proof.
  intros Port a s H. unfold IsRunning, GetPort. split.
  - apply Start_running.
  - intro Hstopped.
    destruct (Start_stopped Port a s H Hstopped) as (Hfst & Hrun & Hport & _ & HA).
    rewrite Hfst. repeat split; try assumption.
    + destruct HA as (HO & HR & _). rewrite Hrun, H0 in HR.
      destruct (ListenerSocket (snd (Start Port a s))); [discriminate HR|reflexivity].
    + destruct HA as (HO & HR & _). rewrite Hrun, H0 in HR. rewrite HO.
      destruct (ListenerSocket (snd (Start Port a s))); [discriminate HR|reflexivity].
Qed.

Lemma Start_after_Stop : forall Port a s,
  bIsRunning s = false ->
  ServerPort (snd (Start Port a s)) = Port
  /\ bIsRunning (snd (Start Port a s)) = fst (Start Port a s).
Proof.
  intros Port a s H. unfold Start. rewrite H.
  destruct (SubsystemFound a); simpl; [|split; reflexivity].
  destruct (CreateSocket a); simpl; [|split; reflexivity].
  destruct (BindSucceeds a); simpl; [|split; reflexivity].
  destruct (ListenSucceeds a); simpl; [|split; reflexivity].
  split; reflexivity.
Qed.

Lemma Stop_not_running : forall f s s', Stop f s = Returns s' ->
  bIsRunning s' = false /\ ServerPort s' = ServerPort s.
Proof.
  intros f s s' E. unfold Stop in E.
  destruct (StopClient f (Connection s)); [|discriminate E].
  destruct (ListenerSocket s).
  - destruct f; [|discriminate E]. inversion E; subst. split; reflexivity.
  - inversion E; subst. split; reflexivity.
Qed.

Lemma StartServer_stopped : forall Port w f a s,
  bIsRunning s = false ->
  StartServer Port w f a (Some s)
  = Returns (fst (Start Port a s), Some (snd (Start Port a s))).
Proof.
  intros Port w f a s H. unfold StartServer, IsRunning. rewrite H.
  destruct (Start Port a s). reflexivity.
Qed.

(** X8: [RestartServer] brings the server up on the port it had, whether or
    not the restart goes through: afterwards [GetServerPort] is what it was
    before, and [IsServerRunning] is what [RestartServer] returned.  Only a
    module without server object, or a server whose port is 0, is moved to
    55557. *)
Theorem restart_server_keeps_port :
  forall w SocketSubsystem a MCPServer started MCPServer',
    RestartServer w SocketSubsystem a MCPServer = Returns (started, MCPServer') ->
    GetServerPort MCPServer'
    = (if (GetServerPort MCPServer =? 0)%Z then 55557%Z else GetServerPort MCPServer)
    /\ IsServerRunning MCPServer' = started
    /\ MCPServer' <> None.
Proof.
  intros w f a m started m' E. unfold RestartServer in E.
  destruct m as [s|]; simpl in E.
  - destruct (Stop f s) as [s1|] eqn:E1; [|discriminate E].
    destruct (Stop_not_running f s s1 E1) as [Hrun Hport].
    rewrite (StartServer_stopped _ w f a s1 Hrun) in E.
    inversion E; subst; clear E.
    destruct (Start_after_Stop (if (GetPort s =? 0)%Z then 55557%Z else GetPort s) a s1 Hrun)
      as [HP HR].
    simpl. unfold IsRunning, GetPort in *. repeat split; try assumption. discriminate.
  - assert (bIsRunning (FMCPServer_new w) = false) as Hrun by reflexivity.
    unfold StartServer in E. unfold IsRunning in E. rewrite Hrun in E.
    destruct (Start_after_Stop 55557%Z a (FMCPServer_new w) Hrun) as [HP HR].
    destruct (Start 55557 a (FMCPServer_new w)) as [ok s2] eqn:ES.
    inversion E; subst; clear E. simpl in *.
    unfold IsRunning, GetPort. repeat split; try assumption. discriminate.
Qed.






(** ** Viewport bookmarks *)

Section BookmarkProperties.

Import Bookmarks.

Context {Engine : ViewportEngine}.

Lemma append_assoc : forall a b c : FString, (a +++ b) +++ c = a +++ b +++ c.
Proof. induction a as [|x a IH]; simpl; intros b c; [|rewrite IH]; reflexivity. Qed.

Lemma append_empty : forall a : FString, a +++ EmptyString = a.
Proof. induction a as [|x a IH]; simpl; [|rewrite IH]; reflexivity. Qed.

(** *** Slots and the array *)

Lemma SlotOf_range : forall a, (0 <= SlotOf a <= 9)%Z.
Proof.
  intro a. unfold SlotOf, Clamp.
  destruct (Z.ltb_spec (GetNumberFieldInt32 a "slot") 0); [lia|].
  destruct (Z.ltb_spec (GetNumberFieldInt32 a "slot") 9); lia.
Qed.

Lemma Stored_new : Stored FViewportBookmark_new = true.
Proof. reflexivity. Qed.

Lemma forallb_repeat_new : forall k, forallb Stored (repeat FViewportBookmark_new k) = true.
Proof. induction k as [|k IH]; simpl; [reflexivity|exact IH]. Qed.

Lemma Allocated_short : forall l,
  List.length l < 10 -> Allocated l = l ++ repeat FViewportBookmark_new (10 - List.length l).
Proof.
  intros l H. unfold Allocated, Num, SetNum.
  destruct (Z.ltb_spec (Z.of_nat (List.length l)) 10); [|lia].
  rewrite firstn_all2 by lia. reflexivity.
Qed.

Lemma Allocated_long : forall l, 10 <= List.length l -> Allocated l = l.
Proof.
  intros l H. unfold Allocated, Num.
  destruct (Z.ltb_spec (Z.of_nat (List.length l)) 10); [lia|reflexivity].
Qed.

Lemma Allocated_length : forall l, 10 <= List.length (Allocated l).
Proof.
  intro l. destruct (Nat.lt_ge_cases (List.length l) 10) as [H|H].
  - rewrite (Allocated_short l H). rewrite length_app, repeat_length. lia.
  - rewrite (Allocated_long l H). exact H.
Qed.

Lemma Allocated_ten : forall l,
  l = [] \/ List.length l = 10 -> List.length (Allocated l) = 10.
Proof.
  intros l [H|H].
  - subst l. reflexivity.
  - rewrite Allocated_long by lia. exact H.
Qed.

Lemma Allocated_Stored : forall l,
  forallb Stored l = true -> forallb Stored (Allocated l) = true.
Proof.
  intros l H. destruct (Nat.lt_ge_cases (List.length l) 10) as [Hl|Hl].
  - rewrite (Allocated_short l Hl). rewrite forallb_app, H. apply forallb_repeat_new.
  - rewrite (Allocated_long l Hl). exact H.
Qed.

Lemma Allocated_Element : forall l i b,
  Element l i = Some b -> Element (Allocated l) i = Some b.
Proof.
  intros l i b H. unfold Element in *. destruct (i <? 0)%Z; [discriminate H|].
  destruct (Nat.lt_ge_cases (List.length l) 10) as [Hl|Hl].
  - rewrite (Allocated_short l Hl). rewrite nth_error_app1; [exact H|].
    apply nth_error_Some. rewrite H. discriminate.
  - rewrite (Allocated_long l Hl). exact H.
Qed.

Lemma Element_in_range : forall l i,
  (0 <= i < Num l)%Z -> exists b, Element l i = Some b.
Proof.
  intros l i H. unfold Element, Num in *.
  destruct (Z.ltb_spec i 0); [lia|].
  destruct (nth_error l (Z.to_nat i)) as [b|] eqn:E; [exists b; reflexivity|].
  apply nth_error_None in E. lia.
Qed.

Lemma Element_Stored : forall l i b,
  forallb Stored l = true -> Element l i = Some b -> Stored b = true.
Proof.
  intros l i b H E. unfold Element in E. destruct (i <? 0)%Z; [discriminate E|].
  apply nth_error_In in E. rewrite forallb_forall in H. apply H. exact E.
Qed.

Lemma Replace_in_range : forall l n b,
  n < List.length l -> exists l', Replace l n b = Some l'.
Proof.
  induction l as [|x l IH]; simpl; intros n b H; [lia|].
  destruct n as [|n]; [eexists; reflexivity|].
  destruct (IH n b) as [l' E]; [lia|]. rewrite E. eexists; reflexivity.
Qed.

Lemma Replace_spec : forall l n b l',
  Replace l n b = Some l' ->
  List.length l' = List.length l
  /\ nth_error l' n = Some b
  /\ (forall m, m <> n -> nth_error l' m = nth_error l m)
  /\ (forallb Stored l = true -> Stored b = true -> forallb Stored l' = true).
Proof.
  induction l as [|x l IH]; simpl; intros n b l' E; [discriminate E|].
  destruct n as [|n].
  - inversion E; subst; clear E. simpl. repeat split.
    + intros [|m] Hm; [contradiction|reflexivity].
    + intros H Hb. apply andb_prop in H. destruct H as [_ H]. rewrite Hb, H. reflexivity.
  - destruct (Replace l n b) as [r|] eqn:Er; [|discriminate E].
    inversion E; subst; clear E.
    destruct (IH n b r Er) as (H1 & H2 & H3 & H4). simpl. repeat split.
    + rewrite H1. reflexivity.
    + exact H2.
    + intros [|m] Hm; [reflexivity|]. simpl. apply H3. lia.
    + intros H Hb. apply andb_prop in H. destruct H as [Hx H]. rewrite Hx. simpl.
      apply H4; assumption.
Qed.

Lemma Assign_in_range : forall l i b,
  (0 <= i < Num l)%Z -> exists l', Assign l i b = Some l'.
Proof.
  intros l i b H. unfold Assign, Num in *. destruct (Z.ltb_spec i 0); [lia|].
  apply Replace_in_range. lia.
Qed.

Lemma Assign_spec : forall l i b l',
  Assign l i b = Some l' ->
  List.length l' = List.length l
  /\ Element l' i = Some b
  /\ (forall j, j <> i -> Element l' j = Element l j)
  /\ (forallb Stored l = true -> Stored b = true -> forallb Stored l' = true).
Proof.
  intros l i b l' E. unfold Assign in E. unfold Element.
  destruct (Z.ltb_spec i 0) as [Hi|Hi]; [discriminate E|].
  destruct (Replace_spec l (Z.to_nat i) b l' E) as (H1 & H2 & H3 & H4).
  repeat split; try assumption.
  intros j Hj. destruct (Z.ltb_spec j 0); [reflexivity|]. apply H3. lia.
Qed.

(** *** The four executors return *)

Lemma Editor_new_WellFormed : forall Client, WellFormed (Editor_new Client).
Proof. intro Client. split; [reflexivity|left; reflexivity]. Qed.

Lemma ExecuteSetViewportBookmark_returns : forall a e,
  WellFormed e ->
  exists text e1, ExecuteSetViewportBookmark (Some a) e = Returns (text, e1) /\ WellFormed e1.
Proof.
  intros a e [HS HL]. unfold ExecuteSetViewportBookmark.
  pose proof (SlotOf_range a) as Hslot.
  pose proof (Allocated_ten (ViewportBookmarks e) HL) as Hten.
  destruct (GCurrentLevelEditingViewportClient e) as [Client|].
  - match goal with
    | |- context [Assign ?l ?i ?b] =>
        destruct (Assign_in_range l i b) as [l' E];
          [unfold Num; lia|rewrite E; destruct (Assign_spec l i b l' E) as (H1 & _ & _ & H4)]
    end.
    do 2 eexists. split; [reflexivity|]. split; simpl.
    + apply H4; [apply Allocated_Stored; exact HS|reflexivity].
    + right. lia.
  - do 2 eexists. split; [reflexivity|]. split; simpl.
    + apply Allocated_Stored. exact HS.
    + right. exact Hten.
Qed.

Lemma ExecuteJumpToBookmark_returns : forall a e,
  WellFormed e ->
  exists text e1, ExecuteJumpToBookmark (Some a) e = Returns (text, e1) /\ WellFormed e1.
Proof.
  intros a e HW. pose proof HW as [HS HL]. unfold ExecuteJumpToBookmark.
  pose proof (SlotOf_range a) as Hslot.
  destruct (Z.leb_spec (Num (ViewportBookmarks e)) (SlotOf a)) as [Hn|Hn].
  - do 2 eexists. split; [reflexivity|exact HW].
  - destruct (Element_in_range (ViewportBookmarks e) (SlotOf a)) as [b E]; [lia|].
    rewrite E. pose proof (Element_Stored _ _ _ HS E) as Hb. unfold Stored in Hb.
    destruct (bIsSet b); simpl in *.
    + destruct (GCurrentLevelEditingViewportClient e) as [Client|].
      * destruct (Location b) as [L|]; [|discriminate Hb].
        destruct (Rotation b) as [R|]; [|discriminate Hb].
        do 2 eexists. split; [reflexivity|]. split; simpl; assumption.
      * do 2 eexists. split; [reflexivity|exact HW].
    + do 2 eexists. split; [reflexivity|exact HW].
Qed.

Lemma ExecuteClearBookmark_returns : forall a e,
  WellFormed e ->
  exists text e1, ExecuteClearBookmark (Some a) e = Returns (text, e1) /\ WellFormed e1.
Proof.
  intros a e HW. pose proof HW as [HS HL]. unfold ExecuteClearBookmark.
  pose proof (SlotOf_range a) as Hslot.
  destruct (Z.gtb_spec (Num (ViewportBookmarks e)) (SlotOf a)) as [Hn|Hn].
  - destruct (Element_in_range (ViewportBookmarks e) (SlotOf a)) as [b E]; [lia|].
    rewrite E.
    match goal with
    | |- context [Assign ?l ?i ?b] =>
        destruct (Assign_in_range l i b) as [l' E'];
          [lia|rewrite E'; destruct (Assign_spec l i b l' E') as (H1 & _ & _ & H4)]
    end.
    do 2 eexists. split; [reflexivity|]. split; simpl.
    + apply H4; [exact HS|reflexivity].
    + destruct HL as [HL|HL]; [rewrite HL in E; unfold Element in E|right; lia].
      destruct (SlotOf a <? 0)%Z; [discriminate E|].
      destruct (Z.to_nat (SlotOf a)); discriminate E.
  - do 2 eexists. split; [reflexivity|exact HW].
Qed.

Lemma SetBookmarks_nil : forall i n, SetBookmarks i [] n = [].
Proof. intros i [|n]; reflexivity. Qed.

Lemma SetBookmarks_repeat_new : forall k i n,
  SetBookmarks i (repeat FViewportBookmark_new k) n = [].
Proof.
  induction k as [|k IH]; intros i n; destruct n as [|n]; try reflexivity.
  simpl. apply IH.
Qed.

Lemma SetBookmarks_app_new : forall l k i n,
  List.length l + k <= n ->
  SetBookmarks i (l ++ repeat FViewportBookmark_new k) n = SetBookmarks i l n.
Proof.
  induction l as [|b l IH]; intros k i n H.
  - cbn [app]. rewrite SetBookmarks_repeat_new, SetBookmarks_nil. reflexivity.
  - cbn [List.length] in H. destruct n as [|n]; [lia|]. simpl.
    destruct (bIsSet b); [f_equal|]; apply IH; lia.
Qed.

Lemma SetBookmarks_set : forall l i n,
  forallb Stored l = true ->
  Forall (fun entry => bIsSet (snd entry) = true /\ Location (snd entry) <> None)
         (SetBookmarks i l n).
Proof.
  induction l as [|b l IH]; intros i n HS.
  - rewrite SetBookmarks_nil. constructor.
  - simpl in HS. apply andb_prop in HS. destruct HS as [Hb HS].
    destruct n as [|n]; [constructor|]. simpl.
    destruct (bIsSet b) eqn:Eb; [|apply IH; exact HS].
    constructor; [|apply IH; exact HS]. simpl. split; [exact Eb|].
    unfold Stored in Hb. rewrite Eb in Hb. simpl in Hb.
    destruct (Location b); [discriminate|discriminate Hb].
Qed.

Lemma SetBookmarks_Allocated : forall l,
  SetBookmarks 0 (Allocated l) 10 = SetBookmarks 0 l 10.
Proof.
  intro l. destruct (Nat.lt_ge_cases (List.length l) 10) as [H|H].
  - rewrite (Allocated_short l H). apply SetBookmarks_app_new. lia.
  - rewrite (Allocated_long l H). reflexivity.
Qed.

Lemma skipn_element : forall (l : list FViewportBookmark) i,
  i < List.length l -> exists b, nth_error l i = Some b /\ skipn i l = b :: skipn (S i) l.
Proof.
  induction l as [|x l IH]; simpl; intros i H; [lia|].
  destruct i as [|i]; [exists x; split; reflexivity|].
  destruct (IH i) as [b [H1 H2]]; [lia|]. exists b. split; assumption.
Qed.

Lemma ListLoop_closed : forall n i B Result bAnySet,
  forallb Stored B = true -> i + n <= List.length B ->
  ListLoop (seq i n) B Result bAnySet
  = Returns (Result +++ PrintfBookmarks (SetBookmarks i (skipn i B) n),
             bAnySet || negb (Nat.eqb (List.length (SetBookmarks i (skipn i B) n)) 0)).
Proof.
  induction n as [|n IH]; intros i B Result bAnySet HS HL.
  - simpl. destruct (skipn i B); simpl; rewrite append_empty, orb_false_r; reflexivity.
  - destruct (skipn_element B i) as [b [Hb Hskip]]; [lia|].
    cbn [seq ListLoop]. unfold Element.
    destruct (Z.ltb_spec (Z.of_nat i) 0) as [Hneg|_]; [lia|].
    rewrite Nat2Z.id, Hb, Hskip. cbn [SetBookmarks].
    assert (Stored b = true) as Hstored.
    { rewrite forallb_forall in HS. apply HS. apply (nth_error_In B i Hb). }
    unfold Stored in Hstored.
    destruct (bIsSet b); simpl in Hstored.
    + destruct (Location b) as [L|] eqn:EL; [|discriminate Hstored].
      rewrite (IH (S i) B _ true HS) by lia.
      cbn [PrintfBookmarks List.length Nat.eqb negb]. rewrite EL.
      rewrite append_assoc, orb_true_r. reflexivity.
    + apply IH; [exact HS|lia].
Qed.

Lemma ExecuteListBookmarks_closed : forall e,
  forallb Stored (ViewportBookmarks e) = true ->
  ExecuteListBookmarks e
  = Returns ("Viewport Bookmarks:" +++ Newline
             +++ match SetBookmarks 0 (ViewportBookmarks e) 10 with
                 | [] => "  No bookmarks set"
                 | set => PrintfBookmarks set
                 end,
             {| ViewportBookmarks := Allocated (ViewportBookmarks e);
                GCurrentLevelEditingViewportClient := GCurrentLevelEditingViewportClient e |}).
Proof.
  intros e HS. unfold ExecuteListBookmarks.
  rewrite (ListLoop_closed 10 0 (Allocated (ViewportBookmarks e)) _ false
             (Allocated_Stored _ HS)) by (pose proof (Allocated_length (ViewportBookmarks e)); lia).
  cbn [skipn]. rewrite SetBookmarks_Allocated.
  destruct (SetBookmarks 0 (ViewportBookmarks e) 10) as [|x set] eqn:E.
  - cbn [PrintfBookmarks List.length Nat.eqb negb orb]. rewrite append_empty.
    rewrite append_assoc. reflexivity.
  - cbn [List.length Nat.eqb negb orb]. rewrite append_assoc. reflexivity.
Qed.

Lemma Step_returns : forall ev e,
  WellFormed e -> exists text e1, Step ev e = Returns (text, e1) /\ WellFormed e1.
Proof.
  intros ev e HW. destruct ev as [a|a|a| |Client]; simpl.
  - apply ExecuteSetViewportBookmark_returns. exact HW.
  - apply ExecuteJumpToBookmark_returns. exact HW.
  - apply ExecuteClearBookmark_returns. exact HW.
  - destruct HW as [HS HL]. rewrite (ExecuteListBookmarks_closed e HS).
    do 2 eexists. split; [reflexivity|]. split; simpl.
    + apply Allocated_Stored. exact HS.
    + right. apply Allocated_ten. exact HL.
  - do 2 eexists. split; [reflexivity|]. exact HW.
Qed.

Lemma Session_returns : forall events e,
  WellFormed e ->
  exists texts e1,
    Session events e = Returns (texts, e1)
    /\ WellFormed e1 /\ List.length texts = List.length events.
Proof.
  induction events as [|ev rest IH]; simpl; intros e HW.
  - exists [], e. repeat split; try reflexivity; apply HW.
  - destruct (Step_returns ev e HW) as (text & e1 & E1 & HW1). rewrite E1.
    destruct (IH e1 HW1) as (texts & e2 & E2 & HW2 & Hlen). rewrite E2.
    exists (text :: texts), e2. repeat split; try apply HW2. simpl. rewrite Hlen. reflexivity.
Qed.

(** X11: the four bookmark tools, called in any order with any arguments
    that are not null and with the viewport opened, closed or moved in
    between, always return: no slot number takes them outside the array (it
    is clamped to 0..9, and the array is empty or has ten elements), and the
    camera of a bookmark is read only after it was stored.  With null
    arguments the three tools that take arguments stop the process. *)
Theorem bookmark_tools_stay_in_range :
  (forall Client events,
     exists texts e,
       Session events (Editor_new Client) = Returns (texts, e)
       /\ List.length texts = List.length events
       /\ (ViewportBookmarks e = [] \/ List.length (ViewportBookmarks e) = 10))
  /\ (forall a, (0 <= SlotOf a <= 9)%Z)
  /\ (forall e,
        ExecuteSetViewportBookmark None e = Faulted
        /\ ExecuteJumpToBookmark None e = Faulted
        /\ ExecuteClearBookmark None e = Faulted).
Proof.
  split; [|split].
  - intros Client events.
    destruct (Session_returns events (Editor_new Client) (Editor_new_WellFormed Client))
      as (texts & e & E & [_ HL] & Hlen).
    exists texts, e. repeat split; assumption.
  - exact SlotOf_range.
  - intro e. repeat split.
Qed.

(** *** Set, then jump *)

Lemma Step_keeps : forall ev e text e1 Slot b,
  Step ev e = Returns (text, e1) ->
  Keeps Slot ev = true ->
  Element (ViewportBookmarks e) Slot = Some b ->
  Element (ViewportBookmarks e1) Slot = Some b.
Proof.
  intros ev e text e1 Slot b E HK Hb. destruct ev as [a|a|a| |Client]; simpl in E, HK.
  - unfold ExecuteSetViewportBookmark in E.
    apply negb_true_iff in HK. apply Z.eqb_neq in HK.
    destruct (GCurrentLevelEditingViewportClient e) as [Client|].
    + match type of E with
      | context [Assign ?l ?i ?x] => destruct (Assign l i x) as [l'|] eqn:EA; [|discriminate E]
      end.
      inversion E; subst; clear E. simpl.
      destruct (Assign_spec _ _ _ _ EA) as (_ & _ & H3 & _).
      rewrite H3 by congruence. apply Allocated_Element. exact Hb.
    + inversion E; subst; clear E. simpl. apply Allocated_Element. exact Hb.
  - unfold ExecuteJumpToBookmark in E.
    destruct (Num (ViewportBookmarks e) <=? SlotOf a)%Z; [inversion E; subst; exact Hb|].
    destruct (Element (ViewportBookmarks e) (SlotOf a)) as [x|]; [|discriminate E].
    destruct (negb (bIsSet x)); [inversion E; subst; exact Hb|].
    destruct (GCurrentLevelEditingViewportClient e); [|inversion E; subst; exact Hb].
    destruct (Location x); [|discriminate E].
    destruct (Rotation x); [|discriminate E].
    inversion E; subst; clear E. exact Hb.
  - unfold ExecuteClearBookmark in E.
    apply negb_true_iff in HK. apply Z.eqb_neq in HK.
    destruct (Num (ViewportBookmarks e) >? SlotOf a)%Z; [|inversion E; subst; exact Hb].
    destruct (Element (ViewportBookmarks e) (SlotOf a)) as [x|]; [|discriminate E].
    match type of E with
    | context [Assign ?l ?i ?y] => destruct (Assign l i y) as [l'|] eqn:EA; [|discriminate E]
    end.
    inversion E; subst; clear E. simpl.
    destruct (Assign_spec _ _ _ _ EA) as (_ & _ & H3 & _).
    rewrite H3 by congruence. exact Hb.
  - unfold ExecuteListBookmarks in E.
    destruct (ListLoop _ _ _ _) as [[Result bAnySet]|]; [|discriminate E].
    inversion E; subst; clear E. simpl. apply Allocated_Element. exact Hb.
  - inversion E; subst; clear E. exact Hb.
Qed.

Lemma Session_keeps : forall events e texts e1 Slot b,
  Session events e = Returns (texts, e1) ->
  forallb (Keeps Slot) events = true ->
  Element (ViewportBookmarks e) Slot = Some b ->
  Element (ViewportBookmarks e1) Slot = Some b.
Proof.
  induction events as [|ev rest IH]; simpl; intros e texts e1 Slot b E HK Hb.
  - inversion E; subst. exact Hb.
  - apply andb_prop in HK. destruct HK as [HK1 HK2].
    destruct (Step ev e) as [[text e']|] eqn:E1; [|discriminate E].
    destruct (Session rest e') as [[texts' e'']|] eqn:E2; [|discriminate E].
    inversion E; subst; clear E.
    apply (IH e' texts' e1 Slot b E2 HK2).
    apply (Step_keeps ev e text e' Slot b E1 HK1 Hb).
Qed.

Lemma Element_Some_in_range : forall l i b, Element l i = Some b -> (0 <= i < Num l)%Z.
Proof.
  intros l i b H. unfold Element, Num in *. destruct (Z.ltb_spec i 0); [discriminate H|].
  assert (Z.to_nat i < List.length l) by (apply nth_error_Some; rewrite H; discriminate).
  lia.
Qed.

(** X12: a bookmark saved while a viewport is open survives everything but
    a set or a clear of its own slot.  After any later calls on other slots,
    listings, jumps and camera moves, jumping to the slot (given by any
    number that clamps to it) puts the camera back to the location and
    rotation it had when the bookmark was saved, and answers with the slot
    and the name stored. *)
Theorem saved_bookmark_survives_other_calls :
  forall a e Client,
    GCurrentLevelEditingViewportClient e = Some Client ->
    exists e1,
      ExecuteSetViewportBookmark (Some a) e
      = Returns ("Bookmark " +++ PrintfInt (SlotOf a) +++ " '" +++ NameOf a +++ "' saved at "
                 +++ PrintfVector (GetViewLocation Client), e1)
      /\ forall events texts e2 Client' a',
           Session events e1 = Returns (texts, e2) ->
           forallb (Keeps (SlotOf a)) events = true ->
           GCurrentLevelEditingViewportClient e2 = Some Client' ->
           SlotOf a' = SlotOf a ->
           ExecuteJumpToBookmark (Some a') e2
           = Returns ("Jumped to bookmark " +++ PrintfInt (SlotOf a) +++ " '" +++ NameOf a
                      +++ "'",
                      {| ViewportBookmarks := ViewportBookmarks e2;
                         GCurrentLevelEditingViewportClient :=
                           Some {| GetViewLocation := GetViewLocation Client;
                                   GetViewRotation := GetViewRotation Client |} |}).
Proof.
  intros a e Client HV. unfold ExecuteSetViewportBookmark. rewrite HV.
  pose proof (SlotOf_range a) as Hslot.
  pose proof (Allocated_length (ViewportBookmarks e)) as Hlen.
  match goal with
  | |- context [Assign ?l ?i ?b] =>
      destruct (Assign_in_range l i b) as [l' E];
        [unfold Num; lia|rewrite E; destruct (Assign_spec l i b l' E) as (_ & H2 & _ & _)]
  end.
  eexists. split; [reflexivity|].
  intros events texts e2 Client' a' ES HK HV' Ha'.
  pose proof (Session_keeps events _ texts e2 (SlotOf a) _ ES HK H2) as Hb.
  pose proof (Element_Some_in_range _ _ _ Hb) as Hrange.
  unfold ExecuteJumpToBookmark. rewrite Ha'.
  destruct (Z.leb_spec (Num (ViewportBookmarks e2)) (SlotOf a)); [lia|].
  rewrite Hb. simpl. rewrite HV'. reflexivity.
Qed.

(** X13: [ExecuteClearBookmark] always answers that the bookmark is
    cleared, also for a slot that was never set, and never allocates the
    storage.  Afterwards a jump to the slot is refused and changes nothing,
    and every other slot is as before. *)
Theorem cleared_bookmark_cannot_be_jumped_to :
  forall a e,
    exists e1,
      ExecuteClearBookmark (Some a) e
      = Returns ("Bookmark " +++ PrintfInt (SlotOf a) +++ " cleared", e1)
      /\ List.length (ViewportBookmarks e1) = List.length (ViewportBookmarks e)
      /\ GCurrentLevelEditingViewportClient e1 = GCurrentLevelEditingViewportClient e
      /\ ExecuteJumpToBookmark (Some a) e1
         = Returns ("Error: Bookmark " +++ PrintfInt (SlotOf a) +++ " is not set", e1)
      /\ forall Slot,
           Slot <> SlotOf a ->
           Element (ViewportBookmarks e1) Slot = Element (ViewportBookmarks e) Slot.
Proof.
  intros a e. unfold ExecuteClearBookmark.
  pose proof (SlotOf_range a) as Hslot.
  destruct (Z.gtb_spec (Num (ViewportBookmarks e)) (SlotOf a)) as [Hn|Hn].
  - destruct (Element_in_range (ViewportBookmarks e) (SlotOf a)) as [b E]; [lia|].
    rewrite E.
    match goal with
    | |- context [Assign ?l ?i ?x] =>
        destruct (Assign_in_range l i x) as [l' E'];
          [lia|rewrite E'; destruct (Assign_spec l i x l' E') as (H1 & H2 & H3 & _)]
    end.
    eexists. split; [reflexivity|]. simpl. repeat split.
    + exact H1.
    + unfold ExecuteJumpToBookmark. simpl.
      destruct (Z.leb_spec (Num l') (SlotOf a)) as [Hle|Hle]; [reflexivity|].
      rewrite H2. reflexivity.
    + exact H3.
  - eexists. split; [reflexivity|]. repeat split.
    unfold ExecuteJumpToBookmark.
    destruct (Z.leb_spec (Num (ViewportBookmarks e)) (SlotOf a)) as [Hle|Hle]; [reflexivity|lia].
Qed.

(** X14: in every state the tools can reach, [ExecuteListBookmarks]
    returns the header followed by one line for each bookmark that is set,
    in slot order, or by the notice that none is set; it leaves the set
    bookmarks and the viewport as they are. *)
Theorem list_reports_set_bookmarks_in_slot_order :
  forall Client events texts e,
    Session events (Editor_new Client) = Returns (texts, e) ->
    exists e1,
      ExecuteListBookmarks e
      = Returns ("Viewport Bookmarks:" +++ Newline
                 +++ match SetBookmarks 0 (ViewportBookmarks e) 10 with
                     | [] => "  No bookmarks set"
                     | set => PrintfBookmarks set
                     end, e1)
      /\ SetBookmarks 0 (ViewportBookmarks e1) 10 = SetBookmarks 0 (ViewportBookmarks e) 10
      /\ Forall (fun entry => bIsSet (snd entry) = true /\ Location (snd entry) <> None)
                (SetBookmarks 0 (ViewportBookmarks e) 10)
      /\ GCurrentLevelEditingViewportClient e1 = GCurrentLevelEditingViewportClient e.
Proof.
  intros Client events texts e E.
  destruct (Session_returns events (Editor_new Client) (Editor_new_WellFormed Client))
    as (texts' & e' & E' & [HS _] & _).
  rewrite E in E'. inversion E'; subst; clear E'.
  eexists. split; [apply (ExecuteListBookmarks_closed e' HS)|]. simpl.
  split; [apply SetBookmarks_Allocated|]. split; [|reflexivity].
  apply SetBookmarks_set. exact HS.
Qed.

End BookmarkProperties.

(** ** Schemas and the arguments the executors read *)

Lemma Member_In : forall f l, Member f l = true <-> In f l.
Proof.
  intros f l. unfold Member. rewrite existsb_exists. split.
  - intros [x [Hx E]]. apply String.eqb_eq in E. subst x. exact Hx.
  - intro H. exists f. split; [exact H|apply String.eqb_refl].
Qed.

Lemma Subset_incl : forall a b, Subset a b = true -> forall f, In f a -> In f b.
Proof.
  intros a b H f Hf. unfold Subset in H. rewrite forallb_forall in H.
  apply Member_In. apply H. exact Hf.
Qed.

Lemma ReadUntested_In : forall accesses f,
  In f (ReadUntested accesses)
  <-> In f (ReadFields accesses) /\ ~ In f (TestedFields accesses).
Proof.
  intros accesses f. unfold ReadUntested. rewrite filter_In. split.
  - intros [H1 H2]. split; [exact H1|]. intro H. apply Member_In in H.
    rewrite H in H2. discriminate H2.
  - intros [H1 H2]. split; [exact H1|].
    destruct (Member f (TestedFields accesses)) eqn:E; [|reflexivity].
    apply Member_In in E. contradiction.
Qed.

Lemma UndeclaredFields_In : forall ToolName f,
  existsb (fun p => String.eqb (fst p) ToolName && String.eqb (snd p) f) UndeclaredFields = true ->
  In (ToolName, f) UndeclaredFields.
Proof.
  intros ToolName f H. apply existsb_exists in H. destruct H as [[t g] [Hin E]].
  simpl in E. apply andb_prop in E. destruct E as [E1 E2].
  apply String.eqb_eq in E1. apply String.eqb_eq in E2. subst. exact Hin.
Qed.

Lemma SchemaAgrees_spec : forall ToolName accesses schema,
  SchemaAgrees ToolName accesses schema = true ->
  (forall f, In f (RequiredFields schema)
             <-> In f (ReadFields accesses) /\ ~ In f (TestedFields accesses))
  /\ (forall f, In f (DeclaredFields schema) -> In f (ReadFields accesses))
  /\ (forall f, In f (TestedFields accesses) -> In f (ReadFields accesses))
  /\ (forall f, In f (ReadFields accesses) ->
                In f (DeclaredFields schema) \/ In (ToolName, f) UndeclaredFields).
Proof.
  intros ToolName accesses schema H. unfold SchemaAgrees in H.
  apply andb_prop in H. destruct H as [H H5].
  apply andb_prop in H. destruct H as [H H4].
  apply andb_prop in H. destruct H as [H H3].
  apply andb_prop in H. destruct H as [H1 H2].
  split; [|split; [|split]].
  - intro f. rewrite <- ReadUntested_In. split; apply Subset_incl; assumption.
  - apply Subset_incl. exact H3.
  - apply Subset_incl. exact H4.
  - intros f Hf. rewrite forallb_forall in H5. specialize (H5 f Hf).
    apply orb_prop in H5. destruct H5 as [H5|H5].
    + left. apply Member_In. exact H5.
    + right. apply UndeclaredFields_In. exact H5.
Qed.

Lemma TypesAgree_spec : forall accesses schema,
  TypesAgree accesses schema = true ->
  Forall (fun a => forall expected declared,
            ExpectedType a = Some expected ->
            DeclaredType schema (AccessedField a) = Some declared ->
            expected = declared)
         accesses.
Proof.
  intros accesses schema H. unfold TypesAgree in H. rewrite forallb_forall in H.
  apply Forall_forall. intros a Ha expected declared E1 E2.
  specialize (H a Ha). rewrite E1, E2 in H. apply String.eqb_eq. exact H.
Qed.

(** X15: the schema [tools/list] publishes for a tool and the way the
    tool's executor reads its arguments agree, for all 101 tools of the
    dispatch chain.  A field is listed as required exactly when the
    executor reads it without testing [HasField] first; every declared
    property is read; every field tested is also read; and every field read
    is a declared property, except for four optional fields that executors
    look for and no schema mentions: [path] of [create_material_instance],
    [pitch] of [play_sound_at_location], [random_yaw] of
    [add_foliage_instance] and [foliage_type] of
    [remove_foliage_in_radius]. *)
Theorem schemas_agree_with_argument_reads :
  map fst ArgumentAccesses = map fst DispatchTable
  /\ Forall
       (fun entry =>
          exists schema,
            InputSchemaOf RegisteredTools (fst entry) = Some schema
            /\ (forall f, In f (RequiredFields schema)
                          <-> In f (ReadFields (snd entry))
                              /\ ~ In f (TestedFields (snd entry)))
            /\ (forall f, In f (DeclaredFields schema) -> In f (ReadFields (snd entry)))
            /\ (forall f, In f (TestedFields (snd entry)) -> In f (ReadFields (snd entry)))
            /\ (forall f, In f (ReadFields (snd entry)) ->
                          In f (DeclaredFields schema)
                          \/ In (fst entry, f) UndeclaredFields))
       ArgumentAccesses
  /\ Forall
       (fun p =>
          exists schema accesses,
            InputSchemaOf RegisteredTools (fst p) = Some schema
            /\ In (fst p, accesses) ArgumentAccesses
            /\ In (snd p) (TestedFields accesses)
            /\ ~ In (snd p) (DeclaredFields schema))
       UndeclaredFields.
Proof.
  split; [vm_compute; reflexivity|]. split.
  - assert (forallb
              (fun entry =>
                 match InputSchemaOf RegisteredTools (fst entry) with
                 | Some schema => SchemaAgrees (fst entry) (snd entry) schema
                 | None => false
                 end) ArgumentAccesses = true) as H by (vm_compute; reflexivity).
    rewrite forallb_forall in H. apply Forall_forall. intros entry Hin.
    specialize (H entry Hin).
    destruct (InputSchemaOf RegisteredTools (fst entry)) as [schema|]; [|discriminate H].
    exists schema. split; [reflexivity|].
    apply (SchemaAgrees_spec (fst entry) (snd entry) schema H).
  - assert (forallb
              (fun p =>
                 match InputSchemaOf RegisteredTools (fst p) with
                 | Some schema =>
                     existsb
                       (fun entry =>
                          String.eqb (fst entry) (fst p)
                          && Member (snd p) (TestedFields (snd entry)))
                       ArgumentAccesses
                     && negb (Member (snd p) (DeclaredFields schema))
                 | None => false
                 end) UndeclaredFields = true) as H by (vm_compute; reflexivity).
    rewrite forallb_forall in H. apply Forall_forall. intros p Hin.
    specialize (H p Hin).
    destruct (InputSchemaOf RegisteredTools (fst p)) as [schema|]; [|discriminate H].
    apply andb_prop in H. destruct H as [H1 H2].
    apply existsb_exists in H1. destruct H1 as [[ToolName accesses] [Hentry H1]].
    simpl in H1. apply andb_prop in H1. destruct H1 as [E H1].
    apply String.eqb_eq in E. subst ToolName.
    exists schema, accesses. split; [reflexivity|]. split; [exact Hentry|]. split.
    + apply Member_In. exact H1.
    + intro Hd. apply Member_In in Hd. rewrite Hd in H2. discriminate H2.
Qed.

(** X16: wherever a schema declares the type of a field, the executor reads
    the field with the getter of that type: [GetStringField] for
    ["string"], [GetNumberField] for ["number"], [GetBoolField] for
    ["boolean"].  This holds for every access of every executor of the
    dispatch chain. *)
Theorem getters_match_declared_types :
  Forall
    (fun entry =>
       exists schema,
         InputSchemaOf RegisteredTools (fst entry) = Some schema
         /\ Forall
              (fun a =>
                 forall expected declared,
                   ExpectedType a = Some expected ->
                   DeclaredType schema (AccessedField a) = Some declared ->
                   expected = declared)
              (snd entry))
    ArgumentAccesses.
Proof.
  assert (forallb
            (fun entry =>
               match InputSchemaOf RegisteredTools (fst entry) with
               | Some schema => TypesAgree (snd entry) schema
               | None => false
               end) ArgumentAccesses = true) as H by (vm_compute; reflexivity).
  rewrite forallb_forall in H. apply Forall_forall. intros entry Hin.
  specialize (H entry Hin).
  destruct (InputSchemaOf RegisteredTools (fst entry)) as [schema|]; [|discriminate H].
  exists schema. split; [reflexivity|]. apply TypesAgree_spec. exact H.
Qed.
End Properties.

(** * The properties at work on wire text *)

Import Reference.

(** C6, as stated, fails twice.  The method of the first frame is none of the
    four supported strings, and the frame is served as [initialize] instead
    of being answered with -32601.  The second frame is JSON without a
    [method], and it is answered with -32700 instead of -32600. *)
Lemma upper_case_method_is_served :
  Deserialize Scenario.InitializeUpperCase = Some Scenario.InitializeUpperCaseDoc
  /\ TryGetStringField Scenario.InitializeUpperCaseDoc "method" = Some "INITIALIZE"
  /\ existsb (String.eqb "INITIALIZE")
             ["initialize"; "tools/list"; "tools/call"; "notifications/initialized"] = false
  /\ ProcessMessage Scenario.InitializeUpperCase Scenario.Idle
     = Returns (Serialize
               [("jsonrpc", FJsonValueString "2.0");
                ("id", FJsonValueNumber 11);
                ("result",
                 FJsonValueObject
                   [("protocolVersion", FJsonValueString "2024-11-05");
                    ("capabilities", FJsonValueObject [("tools", FJsonValueObject [])]);
                    ("serverInfo",
                     FJsonValueObject [("name", FJsonValueString "ue5-mcp-bridge");
                                       ("version", FJsonValueString "3.2.0")])])],
                Scenario.Idle)
  /\ Scenario.EmptyArray = String "[" (String "]" EmptyString)
  /\ ProcessMessage Scenario.EmptyArray Scenario.Idle
     = Returns (Serialize [("jsonrpc", FJsonValueString "2.0");
                       ("id", FJsonValueNumber 0);
                       ("error", FJsonValueObject
                                   [("code", FJsonValueNumber (-32700));
                                    ("message", FJsonValueString "Parse error")])],
                Scenario.Idle).
Proof. repeat split; vm_compute; reflexivity. Qed.




(** C2, as stated, fails: the line of scenario A arrives in two reads; each
    read is answered with a parse error and the request itself never is. *)
Lemma split_line_gets_two_parse_errors :
  Scenario.FirstHalf +++ Scenario.SecondHalf = Scenario.Initialize +++ String LF EmptyString
  /\ FramesOfRead (Scenario.FirstHalf +++ Scenario.SecondHalf) = [Scenario.Initialize]
  /\ Scenario.Sent (RunLoop [Scenario.ConnectAndRead Scenario.FirstHalf;
                             ReadEvent Scenario.SecondHalf] Scenario.Fresh)
     = Some [CreateErrorResponse 0 (-32700) "Parse error" +++ String LF EmptyString;
             CreateErrorResponse 0 (-32700) "Parse error" +++ String LF EmptyString].
Proof. repeat split; vm_compute; reflexivity. Qed.

Lemma frames_are_cut_per_read_witness :
  FramesOfRead Scenario.FirstHalf = [Scenario.FirstHalf]
  /\ RunLoop [ReadEvent Scenario.FirstHalf; ReadEvent Scenario.SecondHalf] Scenario.Connected
     = match ProcessFrames 0 (FramesOfRead Scenario.FirstHalf ++ FramesOfRead Scenario.SecondHalf)
               (ServerBridge Scenario.Connected) with
       | Returns (sent, b) => Returns (AfterTraffic Scenario.Connected sent b)
       | Faulted => Faulted
       end.
Proof.
  split.
  - apply (proj1 (proj2 (proj2 (frames_are_cut_per_read
                                  (Json := PlainJson) (Host := RecordingEditor))))
             Scenario.FirstHalf);
      vm_compute; reflexivity.
  - apply (proj2 (proj2 (proj2 (proj2 (frames_are_cut_per_read
                                         (Json := PlainJson) (Host := RecordingEditor)))))
             Scenario.Connected 0 Scenario.FirstHalf Scenario.SecondHalf).
    reflexivity.
Defined.

Lemma tools_call_with_valid_params_succeeds_witness :
  exists b',
    HandleToolsCall 2 (Some Scenario.UnknownToolParams) Scenario.Idle
    = Returns (Serialize
               [("jsonrpc", FJsonValueString "2.0");
                ("id", FJsonValueNumber 2);
                ("result",
                 FJsonValueObject
                   [("content",
                     FJsonValueArray
                       [FJsonValueObject [("type", FJsonValueString "text");
                                          ("text", FJsonValueString "Unknown tool: does_not_exist")]])])], b')
    /\ ProcessMessage Scenario.CallUnknownTool Scenario.Idle
       = HandleToolsCall 2 (Some Scenario.UnknownToolParams) Scenario.Idle.
Proof.
  destruct (tools_call_with_valid_params_succeeds (Json := PlainJson) (Host := RecordingEditor)
              2%Z Scenario.UnknownToolParams Scenario.Idle)
    as [text [w [_ [HR [HU HW]]]]].
  eexists. split.
  - rewrite HR, (HU ltac:(vm_compute; reflexivity)). reflexivity.
  - apply (HW Scenario.CallUnknownTool Scenario.CallUnknownToolDoc "tools/call");
      vm_compute; reflexivity.
Defined.

Lemma rendezvous_blocks_until_written_once_witness :
  ThreadStep NetworkThread
    (RunSchedule [NetworkThread] (RendezvousStart [Scenario.StartPIETask] ([] : list FString)))
  = None
  /\ Completed (RunSchedule OneCall
                  (RendezvousStart [Scenario.StartPIETask] ([] : list FString)))
     = [(Scenario.StartPIETask, "Started Play In Editor (viewport mode)")].
Proof.
  pose proof (rendezvous_blocks_until_written_once
                (Json := PlainJson) (Host := RecordingEditor)
                [Scenario.StartPIETask] ([] : list FString) [NetworkThread]) as H.
  split.
  - apply (proj1 (proj2 (proj2 H)) Scenario.StartPIETask); reflexivity.
  - apply (proj2 (proj2 (proj2 (proj2 (proj2 (proj2 (proj2 (proj2 H))))))) Scenario.StartPIETask
             "Started Play In Editor (viewport mode)" ["RequestPlaySession"]).
    vm_compute. reflexivity.
Defined.



(** C7, as stated, fails: this frame carries no id, and it is answered (with
    id 0). *)
Lemma initialize_without_id_is_answered :
  Deserialize Scenario.InitializeWithoutId = Some Scenario.InitializeWithoutIdDoc
  /\ TryGetNumberField Scenario.InitializeWithoutIdDoc "id" = None
  /\ ProcessFrames 0 [Scenario.InitializeWithoutId] Scenario.Idle
     = Returns ([OpSend 0 (HandleInitialize 0 +++ String LF EmptyString)], Scenario.Idle).
Proof. repeat split; vm_compute; reflexivity. Qed.

Lemma only_initialized_notification_is_silent_witness :
  ProcessFrames 0 [Scenario.Initialized] Scenario.Idle = Returns ([], Scenario.Idle)
  /\ ProcessFrames 0 [Scenario.InitializedWithId] Scenario.Idle = Returns ([], Scenario.Idle)
  /\ (exists Response b',
        ReplyTo 0 Response
        /\ ProcessFrames 0 [Scenario.InitializeWithoutId] Scenario.Idle
           = Returns ([OpSend 0 (Response +++ String LF EmptyString)], b'))
  /\ ProcessFrames 0 [Scenario.Garbage] Scenario.Idle
     = Returns ([OpSend 0 (Serialize [("jsonrpc", FJsonValueString "2.0");
                       ("id", FJsonValueNumber 0);
                       ("error", FJsonValueObject
                                   [("code", FJsonValueNumber (-32700));
                                    ("message", FJsonValueString "Parse error")])]
                           +++ String LF EmptyString)], Scenario.Idle).
Proof.
  split; [|split; [|split]].
  - apply (proj1 (only_initialized_notification_is_silent (Json := PlainJson) (Host := RecordingEditor)
                    Scenario.Initialized 0 Scenario.Idle ltac:(vm_compute; reflexivity))
             Scenario.InitializedDoc "notifications/initialized");
      vm_compute; reflexivity.
  - apply (proj1 (only_initialized_notification_is_silent (Json := PlainJson) (Host := RecordingEditor)
                    Scenario.InitializedWithId 0 Scenario.Idle ltac:(vm_compute; reflexivity))
             Scenario.InitializedWithIdDoc "notifications/initialized");
      vm_compute; reflexivity.
  - apply (proj1 (proj2 (only_initialized_notification_is_silent (Json := PlainJson) (Host := RecordingEditor)
                           Scenario.InitializeWithoutId 0 Scenario.Idle
                           ltac:(vm_compute; reflexivity)))
             Scenario.InitializeWithoutIdDoc "initialize");
      vm_compute; reflexivity.
  - apply (proj2 (proj2 (proj2 (only_initialized_notification_is_silent (Json := PlainJson) (Host := RecordingEditor)
                                  Scenario.Garbage 0 Scenario.Idle
                                  ltac:(vm_compute; reflexivity)))));
      vm_compute; reflexivity.
Defined.

(** C8, as stated, fails: this name is dispatched by [tools/call], the call
    runs [start_pie], and the name is not one [tools/list] enumerates. *)
Lemma upper_case_tool_name_is_dispatched :
  Dispatchable "START_PIE" = true
  /\ existsb (String.eqb "START_PIE") (ToolNames RegisteredTools) = false
  /\ Deserialize Scenario.CallStartPIEUpperCase
     = Some (Scenario.CallDoc 12 (Some Scenario.StartPIEUpperCaseParams))
  /\ ProcessMessage Scenario.CallStartPIEUpperCase Scenario.Idle
     = Returns (Serialize
               [("jsonrpc", FJsonValueString "2.0");
                ("id", FJsonValueNumber 12);
                ("result",
                 FJsonValueObject
                   [("content",
                     FJsonValueArray
                       [FJsonValueObject [("type", FJsonValueString "text");
                                          ("text", FJsonValueString "Started Play In Editor (viewport mode)")]])])],
                {| GameWorld := ["RequestPlaySession"];
                   Submitted := [{| TaskToolName := "START_PIE"; TaskArgs := Some [] |}] |}).
Proof. repeat split; vm_compute; reflexivity. Qed.


Lemma at_most_one_client_connection_witness :
  exists s,
    RunLoop [Scenario.Connect; Scenario.Connect] Scenario.Fresh = Returns s
    /\ OneClient s
    /\ List.length (LiveSockets s) <= 1
    /\ ClientSocket s = Some 1
    /\ SocketLog s = [OpAccept 0; OpAccept 1; OpClose 0; OpDestroy 0].
Proof.
  pose proof (at_most_one_client_connection (Json := PlainJson) (Host := RecordingEditor)) as H.
  destruct (RunLoop [Scenario.Connect; Scenario.Connect] Scenario.Fresh) as [s|] eqn:E;
    [|vm_compute in E; discriminate E].
  exists s. split; [reflexivity|].
  destruct (proj1 (proj2 (proj2 H)) [Scenario.Connect; Scenario.Connect] ([] : list FString) s E)
    as [H1 H2].
  split; [exact H1|]. split; [exact H2|].
  vm_compute in E. inversion E. split; reflexivity.
Defined.



Lemma requests_from_the_wire_never_fault_witness :
  (exists Response b',
     ProcessMessage Scenario.CallSetSimulatePhysicsWithoutArguments Scenario.Idle
     = Returns (Response, b'))
  /\ GameThreadTask "set_simulate_physics" None ([] : list FString) = Faulted.
Proof.
  pose proof (requests_from_the_wire_never_fault (Json := PlainJson) (Host := RecordingEditor)) as (H1 & _ & _ & _ & H5).
  split.
  - apply H1.
  - apply H5. vm_compute. tauto.
Defined.

Lemma initialize_is_idempotent_witness :
  ProcessFrames 0 [Scenario.Initialize; Scenario.Initialize] Scenario.Idle
  = Returns ([OpSend 0 (HandleInitialize 1 +++ String LF EmptyString);
              OpSend 0 (HandleInitialize 1 +++ String LF EmptyString)], Scenario.Idle).
Proof.
  apply (proj2 (initialize_is_idempotent (Json := PlainJson) (Host := RecordingEditor)
                  Scenario.Initialize Scenario.InitializeDoc "initialize" 0 Scenario.Idle
                  ltac:(vm_compute; reflexivity) ltac:(vm_compute; reflexivity)
                  ltac:(vm_compute; reflexivity) ltac:(vm_compute; reflexivity))).
Defined.

Lemma replies_keep_request_order_witness :
  ProcessFrames 0 [Scenario.CallUnknownTool; Scenario.Initialize] Scenario.Idle
  = Returns ([OpSend 0 (CreateSuccessResponse 2
                          (ToolsCallResult "Unknown tool: does_not_exist")
                        +++ String LF EmptyString);
              OpSend 0 (HandleInitialize 1 +++ String LF EmptyString)],
             Scenario.Dispatched {| TaskToolName := "does_not_exist"; TaskArgs := Some [] |}).
Proof.
  apply (replies_keep_request_order (Json := PlainJson) (Host := RecordingEditor)
           0 Scenario.CallUnknownTool Scenario.Initialize
           (CreateSuccessResponse 2 (ToolsCallResult "Unknown tool: does_not_exist"))
           (HandleInitialize 1) Scenario.Idle
           (Scenario.Dispatched {| TaskToolName := "does_not_exist"; TaskArgs := Some [] |})
           (Scenario.Dispatched {| TaskToolName := "does_not_exist"; TaskArgs := Some [] |}));
    vm_compute; reflexivity.
Defined.

(** Scenarios A and B of the specification, on wire text.  [initialize] with id 1 is
    answered with a success for id 1 that names the server, and a call of a
    tool that does not exist, with id 2, is answered with a success for id 2
    whose text says so. *)
Theorem scenarios_A_and_B :
  ProcessMessage Scenario.Initialize Scenario.Idle
  = Returns (CreateSuccessResponse 1
               [("protocolVersion", FJsonValueString "2024-11-05");
                ("capabilities", FJsonValueObject [("tools", FJsonValueObject [])]);
                ("serverInfo", FJsonValueObject [("name", FJsonValueString "ue5-mcp-bridge");
                                                 ("version", FJsonValueString "3.2.0")])],
             Scenario.Idle)
  /\ ProcessMessage Scenario.CallUnknownTool Scenario.Idle
     = Returns (CreateSuccessResponse 2 (ToolsCallResult "Unknown tool: does_not_exist"),
                {| GameWorld := [];
                   Submitted := [{| TaskToolName := "does_not_exist"; TaskArgs := Some [] |}] |}).
Proof. split; vm_compute; reflexivity. Qed.


(** ** Starting, stopping and bookmarks at work *)

Import EditorScenario.




Lemma start_succeeds_iff_platform_cooperates_witness :
  Accounted Made
  /\ IsRunning Made = false
  /\ fst (Start 8080 PortTaken Made) = false
  /\ GetPort (snd (Start 8080 PortTaken Made)) = 8080%Z
  /\ OpenListeners (snd (Start 8080 PortTaken Made)) = [].
Proof.
  assert (Accounted Made) as HA
    by apply (FMCPServer_new_Accounted (Host := RecordingEditor)).
  pose proof (proj2 (start_succeeds_iff_platform_cooperates
                       (Host := RecordingEditor) 8080%Z PortTaken Made HA)
                eq_refl) as (H1 & _ & H3 & H4).
  split; [exact HA|]. split; [reflexivity|]. split; [exact H1|]. split; [exact H3|].
  apply (H4 H1).
Defined.

Lemma restart_server_keeps_port_witness :
  RestartServer ([] : list FString) true Cooperative (Some (After Serving))
  = Returns (true, Some Restarted)
  /\ GetServerPort (Some Restarted) = 7777%Z
  /\ IsServerRunning (Some Restarted) = true.
Proof.
  assert (RestartServer ([] : list FString) true Cooperative (Some (After Serving))
          = Returns (true, Some Restarted)) as H by (vm_compute; reflexivity).
  pose proof (restart_server_keeps_port (Host := RecordingEditor)
                ([] : list FString) true Cooperative (Some (After Serving)) true
                (Some Restarted) H) as (H1 & H2 & _).
  split; [exact H|]. split; [exact H1|exact H2].
Defined.



Lemma saved_bookmark_survives_other_calls_witness :
  Bookmarks.GCurrentLevelEditingViewportClient Opened = Some Overview
  /\ Bookmarks.ExecuteSetViewportBookmark (Some Slot3Named) Opened
     = Returns ("Bookmark 3 'Overview' saved at (100.0, -25.0, 500.5)", Saved)
  /\ Bookmarks.ExecuteJumpToBookmark (Some Slot12) (Left OtherCalls Saved)
     = Returns ("Error: Bookmark 9 is not set", Left OtherCalls Saved)
  /\ Bookmarks.ExecuteJumpToBookmark (Some Slot3) (Left OtherCalls Saved)
     = Returns ("Jumped to bookmark 3 'Overview'",
                {| Bookmarks.ViewportBookmarks :=
                     Bookmarks.ViewportBookmarks (Left OtherCalls Saved);
                   Bookmarks.GCurrentLevelEditingViewportClient := Some Overview |}).
Proof.
  destruct (saved_bookmark_survives_other_calls (Json := PlainJson) (Engine := TenthsViewport)
              Slot3Named Opened Overview eq_refl) as [e1 [H1 H2]].
  assert (Bookmarks.ExecuteSetViewportBookmark (Some Slot3Named) Opened
          = Returns ("Bookmark 3 'Overview' saved at (100.0, -25.0, 500.5)", Saved)) as Hset
    by reflexivity.
  rewrite Hset in H1. injection H1; intros; subst e1.
  split; [reflexivity|]. split; [exact Hset|]. split; [reflexivity|].
  apply (H2 OtherCalls (Texts OtherCalls Saved) (Left OtherCalls Saved) Elsewhere Slot3);
    reflexivity.
Defined.

Lemma list_reports_set_bookmarks_in_slot_order_witness :
  Bookmarks.Session SaveThenOthers Opened
  = Returns (Texts SaveThenOthers Opened, Left SaveThenOthers Opened)
  /\ exists e1,
       Bookmarks.ExecuteListBookmarks (Left SaveThenOthers Opened)
       = Returns (ListingOfSlot3, e1).
Proof.
  assert (Bookmarks.Session SaveThenOthers Opened
          = Returns (Texts SaveThenOthers Opened, Left SaveThenOthers Opened)) as H
    by reflexivity.
  split; [exact H|].
  destruct (list_reports_set_bookmarks_in_slot_order
              (Json := PlainJson) (Engine := TenthsViewport)
              (Some Overview) SaveThenOthers (Texts SaveThenOthers Opened)
              (Left SaveThenOthers Opened) H) as [e1 [H1 _]].
  exists e1. exact H1.
Defined.
